(** * Exchange wrappers of gocryptotrader: capability masks, the market-data
    cache discipline of the REST wrappers, and driver set-up.

    The development follows the Go sources package by package:
    - [exchange]: the withdrawal-capability constants and the structures of
      exchange_types.go, with the exchange base record;
    - [ticker], [orderbook]: the snapshot types and the interface of the
      two process-wide stores the wrappers read and write;
    - [Gemini], [Bitstamp], [BTCC], [ItBit]: the four wrappers.

    Go values are modelled as the code has them: [uint32] masks as [Z] in
    [0, 2^32), [float64] as the kernel's binary64 floats, a Go result
    [(v, err)] as a pair whose second component is an optional error, a
    slice as a list.  The package-level registries, the requests sent to a
    venue and the lines printed by [log] are threaded through an explicit
    [World].  What a wrapper calls in files that are not among the sources
    (the store operations, the accessors of the base, the REST requests,
    [strconv.ParseFloat]) is a parameter of its section. *)

From Stdlib Require Import ZArith Lia Floats.
From stdpp Require Import base option list gmap strings.

Local Open Scope Z_scope.
#[local] Set Warnings "-inexact-float".

(** ** Go preliminaries *)

Module errors.
(** [errors.New msg]: an error value is identified with its message. *)
Inductive error : Type := New (msg : string).
(** [err.Error()], what printing an error with the verb s shows. *)
Definition Error (err : error) : string := match err with New msg => msg end.
End errors.
Abbreviation error := errors.error.

(** A Go function returning [(T, error)]: the value and [nil] or an error. *)
Definition result (T : Type) : Type := (T * option error)%type.

Abbreviation float64 := PrimFloat.float.
Definition uint32_bits : Z := 32.
Definition is_uint32 (z : Z) : Prop := 0 <= z < 2 ^ uint32_bits.

(** ** Types declared outside the sources

    The wrappers use types of the packages [pair], [config], [request],
    [ticker] and [orderbook], whose files are not among the sources.  Each
    is kept to the fields the wrappers read or write. *)

Module pair.
(** Modelled from the spec: a currency pair is an ordered pair of symbols
    with a formatting delimiter; its identity is the symbol pair
    (spec 3). *)
Record CurrencyPair : Type := {
  Delimiter : string;
  FirstCurrency : string;
  SecondCurrency : string;
}.
Definition zero : CurrencyPair :=
  {| Delimiter := ""; FirstCurrency := ""; SecondCurrency := "" |}.
End pair.

Module config.
Record CurrencyPairFormatConfig : Type := {
  Uppercase : bool;
  Delimiter : string;
}.
(** The fields of an exchange's configuration the wrappers read:
    [exch.Enabled], [exch.UseSandbox], [exch.Name],
    [exch.Features.Enabled.Websocket] and
    [exch.API.Endpoints.WebsocketURL]. *)
Record ExchangeConfig : Type := {
  Name : string;
  Enabled : bool;
  UseSandbox : bool;
  Features_Enabled_Websocket : bool;
  API_Endpoints_WebsocketURL : string;
}.
End config.

Module time.
(** [time.Duration] counts nanoseconds. *)
Definition Nanosecond : Z := 1.
Definition Second : Z := 1000000000 * Nanosecond.
Definition Minute : Z := 60 * Second.
End time.

Module request.
(** [request.NewRateLimit(d, rate)]: a window and a number of calls. *)
Record RateLimit : Type := NewRateLimit { Duration : Z; Rate : Z }.
(** [request.New(name, authLimit, unauthLimit, httpClient)]; the client
    is kept as its timeout. *)
Record Requester : Type := New {
  Name : string;
  AuthLimit : RateLimit;
  UnauthLimit : RateLimit;
  HTTPClientTimeout : Z;
}.
End request.

(** ** Package [exchange]: exchange_types.go *)

Module exchange.

(** Definitions for each type of withdrawal method for a given exchange. *)
Definition NoAPIWithdrawalMethods : Z := 0.
Definition NoAPIWithdrawalMethodsText : string := "NONE, WEBSITE ONLY".
Definition AutoWithdrawCrypto : Z := Z.shiftl 1 0.
Definition AutoWithdrawCryptoWithAPIPermission : Z := Z.shiftl 1 1.
Definition AutoWithdrawCryptoWithSetup : Z := Z.shiftl 1 2.
Definition AutoWithdrawCryptoText : string := "AUTO WITHDRAW CRYPTO".
Definition AutoWithdrawCryptoWithAPIPermissionText : string :=
  "AUTO WITHDRAW CRYPTO WITH API PERMISSION".
Definition AutoWithdrawCryptoWithSetupText : string :=
  "AUTO WITHDRAW CRYPTO WITH SETUP".
Definition WithdrawCryptoWith2FA : Z := Z.shiftl 1 3.
Definition WithdrawCryptoWithSMS : Z := Z.shiftl 1 4.
Definition WithdrawCryptoWithEmail : Z := Z.shiftl 1 5.
Definition WithdrawCryptoWithWebsiteApproval : Z := Z.shiftl 1 6.
Definition WithdrawCryptoWithAPIPermission : Z := Z.shiftl 1 7.
Definition WithdrawCryptoWith2FAText : string := "WITHDRAW CRYPTO WITH 2FA".
Definition WithdrawCryptoWithSMSText : string := "WITHDRAW CRYPTO WITH SMS".
Definition WithdrawCryptoWithEmailText : string := "WITHDRAW CRYPTO WITH EMAIL".
Definition WithdrawCryptoWithWebsiteApprovalText : string :=
  "WITHDRAW CRYPTO WITH WEBSITE APPROVAL".
Definition WithdrawCryptoWithAPIPermissionText : string :=
  "WITHDRAW CRYPTO WITH API PERMISSION".
Definition AutoWithdrawFiat : Z := Z.shiftl 1 8.
Definition AutoWithdrawFiatWithAPIPermission : Z := Z.shiftl 1 9.
Definition AutoWithdrawFiatWithSetup : Z := Z.shiftl 1 10.
Definition AutoWithdrawFiatText : string := "AUTO WITHDRAW FIAT".
Definition AutoWithdrawFiatWithAPIPermissionText : string :=
  "AUTO WITHDRAW FIAT WITH API PERMISSION".
Definition AutoWithdrawFiatWithSetupText : string :=
  "AUTO WITHDRAW FIAT WITH SETUP".
Definition WithdrawFiatWith2FA : Z := Z.shiftl 1 11.
Definition WithdrawFiatWithSMS : Z := Z.shiftl 1 12.
Definition WithdrawFiatWithEmail : Z := Z.shiftl 1 13.
Definition WithdrawFiatWithWebsiteApproval : Z := Z.shiftl 1 14.
Definition WithdrawFiatWithAPIPermission : Z := Z.shiftl 1 15.
Definition WithdrawFiatWith2FAText : string := "WITHDRAW FIAT WITH 2FA".
Definition WithdrawFiatWithSMSText : string := "WITHDRAW FIAT WITH SMS".
Definition WithdrawFiatWithEmailText : string := "WITHDRAW FIAT WITH EMAIL".
Definition WithdrawFiatWithWebsiteApprovalText : string :=
  "WITHDRAW FIAT WITH WEBSITE APPROVAL".
Definition WithdrawFiatWithAPIPermissionText : string :=
  "WITHDRAW FIAT WITH API PERMISSION".
Definition WithdrawCryptoViaWebsiteOnly : Z := Z.shiftl 1 16.
Definition WithdrawFiatViaWebsiteOnly : Z := Z.shiftl 1 17.
Definition WithdrawCryptoViaWebsiteOnlyText : string :=
  "WITHDRAW CRYPTO VIA WEBSITE ONLY".
Definition WithdrawFiatViaWebsiteOnlyText : string :=
  "WITHDRAW FIAT VIA WEBSITE ONLY".

Definition UnknownWithdrawalTypeText : string := "UNKNOWN".

(** The eighteen flag constants, in the order of their declaration, each
    with the text constant declared for it. *)
Definition FlagTable : list (Z * string) :=
  [ (AutoWithdrawCrypto, AutoWithdrawCryptoText);
    (AutoWithdrawCryptoWithAPIPermission, AutoWithdrawCryptoWithAPIPermissionText);
    (AutoWithdrawCryptoWithSetup, AutoWithdrawCryptoWithSetupText);
    (WithdrawCryptoWith2FA, WithdrawCryptoWith2FAText);
    (WithdrawCryptoWithSMS, WithdrawCryptoWithSMSText);
    (WithdrawCryptoWithEmail, WithdrawCryptoWithEmailText);
    (WithdrawCryptoWithWebsiteApproval, WithdrawCryptoWithWebsiteApprovalText);
    (WithdrawCryptoWithAPIPermission, WithdrawCryptoWithAPIPermissionText);
    (AutoWithdrawFiat, AutoWithdrawFiatText);
    (AutoWithdrawFiatWithAPIPermission, AutoWithdrawFiatWithAPIPermissionText);
    (AutoWithdrawFiatWithSetup, AutoWithdrawFiatWithSetupText);
    (WithdrawFiatWith2FA, WithdrawFiatWith2FAText);
    (WithdrawFiatWithSMS, WithdrawFiatWithSMSText);
    (WithdrawFiatWithEmail, WithdrawFiatWithEmailText);
    (WithdrawFiatWithWebsiteApproval, WithdrawFiatWithWebsiteApprovalText);
    (WithdrawFiatWithAPIPermission, WithdrawFiatWithAPIPermissionText);
    (WithdrawCryptoViaWebsiteOnly, WithdrawCryptoViaWebsiteOnlyText);
    (WithdrawFiatViaWebsiteOnly, WithdrawFiatViaWebsiteOnlyText) ].

Definition Flags : list Z := FlagTable.*1.

(** Bitwise-or of a collection of flags, as in
    [exchange.AutoWithdrawCrypto | exchange.AutoWithdrawFiat]. *)
Definition mask_of (flags : list Z) : Z := foldr Z.lor 0 flags.

(** *** Decoding a mask *)

(** Modelled from the spec: the text of one flag.  The function that
    formats a mask lives in exchange.go, which is not among the sources;
    the constants above pair every flag with its text, and
    [UnknownWithdrawalTypeText] is the label of a bit no constant names
    (spec 3: an explicit "unknown" sentinel when no bit matches). *)
Definition FlagText (flag : Z) : string :=
  match list_find (fun e => bool_decide (e.1 = flag)) FlagTable with
  | Some (_, (_, text)) => text
  | None => UnknownWithdrawalTypeText
  end.

(** Modelled from the spec: [supports(mask, flag)] of spec 4.3. *)
Definition supports (mask flag : Z) : bool := negb (Z.land mask flag =? 0).

(** Modelled from the spec: the entry of bit [i] in the decoding of
    [mask], empty when the bit is clear. *)
Definition decode_bit (mask : Z) (i : nat) : list (Z * string) :=
  let check := Z.shiftl 1 (Z.of_nat i) in
  if supports mask check then [(check, FlagText check)] else [].

(** Modelled from the spec: [decode(mask)] of spec 4.3, the ordered set of
    active flags with their labels over the fixed-width (32-bit) field; a
    mask with no active flag decodes to the explicit
    [NoAPIWithdrawalMethods] entry and never to an empty set. *)
Definition decode (mask : Z) : list (Z * string) :=
  match flat_map (decode_bit mask) (seq 0 (Z.to_nat uint32_bits)) with
  | [] => [(NoAPIWithdrawalMethods, NoAPIWithdrawalMethodsText)]
  | services => services
  end.

(** Modelled from the spec: re-encoding the flags a decoding returned. *)
Definition encode (decoded : list (Z * string)) : Z := mask_of decoded.*1.

(** *** Structures of exchange_types.go

    Each Go struct is a record in a module of its own name, so that fields
    keep their Go names. *)

Module AccountCurrencyInfo.
Record t : Type := {
  CurrencyName : string;
  TotalValue : float64;
  Hold : float64;
}.
End AccountCurrencyInfo.

Module AccountInfo.
Record t : Type := {
  ExchangeName : string;
  Currencies : list AccountCurrencyInfo.t;
}.
(** [exchange.AccountInfo{}] *)
Definition zero : t := {| ExchangeName := ""; Currencies := [] |}.
End AccountInfo.

Module TradeHistory.
Record t : Type := {
  Timestamp : Z;
  TID : Z;
  Price : float64;
  Amount : float64;
  Exchange : string;
  Type_ : string;
}.
End TradeHistory.

Module OrderDetail.
Record t : Type := {
  Exchange : string;
  ID : Z;
  BaseCurrency : string;
  QuoteCurrency : string;
  OrderSide : string;
  OrderType : string;
  CreationTime : Z;
  Status : string;
  Price : float64;
  Amount : float64;
  OpenVolume : float64;
}.
(** [var orderDetail exchange.OrderDetail] *)
Definition zero : t :=
  {| Exchange := ""; ID := 0; BaseCurrency := ""; QuoteCurrency := "";
     OrderSide := ""; OrderType := ""; CreationTime := 0; Status := "";
     Price := 0; Amount := 0; OpenVolume := 0 |}.
End OrderDetail.

Module FundHistory.
Record t : Type := {
  ExchangeName : string;
  Status : string;
  TransferID : Z;
  Description : string;
  Timestamp : Z;
  Currency : string;
  Amount : float64;
  Fee : float64;
  TransferType : string;
  CryptoToAddress : string;
  CryptoFromAddress : string;
  CryptoTxID : string;
  BankTo : string;
  BankFrom : string;
}.
End FundHistory.

Module FeaturesEnabled.
Record t : Type := { AutoPairUpdates : bool }.
End FeaturesEnabled.

Module FeaturesSupported.
Record t : Type := {
  REST : bool;
  Websocket : bool;
  AutoPairUpdates : bool;
  RESTTickerBatching : bool;
}.
End FeaturesSupported.

Module Features.
Record t : Type := {
  Supports : FeaturesSupported.t;
  Enabled : FeaturesEnabled.t;
}.
End Features.

Module Endpoints.
Record t : Type := {
  URL : string;
  URLDefault : string;
  URLSecondary : string;
  URLSecondaryDefault : string;
  WebsocketURL : string;
}.
End Endpoints.

Module Credentials.
Record t : Type := {
  Key : string;
  Secret : string;
  ClientID : string;
  PEMKey : string;
}.
End Credentials.

Module CredentialsValidator.
Record t : Type := {
  RequiresPEM : bool;
  RequiresClientID : bool;
  RequiresBase64DecodeSecret : bool;
}.
End CredentialsValidator.

Module API.
Record t : Type := {
  AuthenticatedSupport : bool;
  PEMKeySupport : bool;
  Endpoints : Endpoints.t;
  Credentials : Credentials.t;
  CredentialsValidator : CredentialsValidator.t;
}.
(** [x.API.Endpoints.URLDefault = url] *)
Definition set_URLDefault (url : string) (a : t) : t :=
  {| AuthenticatedSupport := AuthenticatedSupport a;
     PEMKeySupport := PEMKeySupport a;
     Endpoints :=
       {| Endpoints.URL := Endpoints.URL (Endpoints a);
          Endpoints.URLDefault := url;
          Endpoints.URLSecondary := Endpoints.URLSecondary (Endpoints a);
          Endpoints.URLSecondaryDefault := Endpoints.URLSecondaryDefault (Endpoints a);
          Endpoints.WebsocketURL := Endpoints.WebsocketURL (Endpoints a) |};
     Credentials := Credentials a;
     CredentialsValidator := CredentialsValidator a |}.
(** [x.API.Endpoints.URL = url] *)
Definition set_URL (url : string) (a : t) : t :=
  {| AuthenticatedSupport := AuthenticatedSupport a;
     PEMKeySupport := PEMKeySupport a;
     Endpoints :=
       {| Endpoints.URL := url;
          Endpoints.URLDefault := Endpoints.URLDefault (Endpoints a);
          Endpoints.URLSecondary := Endpoints.URLSecondary (Endpoints a);
          Endpoints.URLSecondaryDefault := Endpoints.URLSecondaryDefault (Endpoints a);
          Endpoints.WebsocketURL := Endpoints.WebsocketURL (Endpoints a) |};
     Credentials := Credentials a;
     CredentialsValidator := CredentialsValidator a |}.
(** [x.API.CredentialsValidator.RequiresClientID = v] *)
Definition set_RequiresClientID (v : bool) (a : t) : t :=
  {| AuthenticatedSupport := AuthenticatedSupport a;
     PEMKeySupport := PEMKeySupport a;
     Endpoints := Endpoints a;
     Credentials := Credentials a;
     CredentialsValidator :=
       {| CredentialsValidator.RequiresPEM :=
            CredentialsValidator.RequiresPEM (CredentialsValidator a);
          CredentialsValidator.RequiresClientID := v;
          CredentialsValidator.RequiresBase64DecodeSecret :=
            CredentialsValidator.RequiresBase64DecodeSecret (CredentialsValidator a) |} |}.
End API.

Module Websocket.
(** The websocket handle; its type is declared in a file that is not among
    the sources.  The wrappers only pass it on, so it is kept to the
    values [WebsocketSetup] is given. *)
Record t : Type := {
  Enabled : bool;
  ExchangeName : string;
  DefaultURL : string;
  RunningURL : string;
}.
End Websocket.

Module Base.
(** [Base] stores the individual exchange information. *)
Record t : Type := {
  Name : string;
  Enabled : bool;
  Verbose : bool;
  APIWithdrawPermissions : Z;
  API : API.t;
  Nonce : Z;
  TakerFee : float64;
  MakerFee : float64;
  Fee : float64;
  BaseCurrencies : list string;
  AvailablePairs : list string;
  EnabledPairs : list string;
  AssetTypes : list string;
  PairsLastUpdated : Z;
  Features : Features.t;
  HTTPTimeout : Z;
  HTTPUserAgent : string;
  WebsocketURL : string;
  RequestCurrencyPairFormat : config.CurrencyPairFormatConfig;
  ConfigCurrencyPairFormat : config.CurrencyPairFormatConfig;
  Websocket : option Websocket.t;
  Requester : option request.Requester;
}.
(** [x.Enabled = v] *)
Definition set_Enabled (v : bool) (b : t) : t :=
  {| Name := Name b; Enabled := v; Verbose := Verbose b;
     APIWithdrawPermissions := APIWithdrawPermissions b; API := API b;
     Nonce := Nonce b; TakerFee := TakerFee b; MakerFee := MakerFee b;
     Fee := Fee b; BaseCurrencies := BaseCurrencies b;
     AvailablePairs := AvailablePairs b; EnabledPairs := EnabledPairs b;
     AssetTypes := AssetTypes b; PairsLastUpdated := PairsLastUpdated b;
     Features := Features b; HTTPTimeout := HTTPTimeout b;
     HTTPUserAgent := HTTPUserAgent b; WebsocketURL := WebsocketURL b;
     RequestCurrencyPairFormat := RequestCurrencyPairFormat b;
     ConfigCurrencyPairFormat := ConfigCurrencyPairFormat b;
     Websocket := Websocket b; Requester := Requester b |}.
(** [x.API = a] *)
Definition set_API (a : API.t) (b : t) : t :=
  {| Name := Name b; Enabled := Enabled b; Verbose := Verbose b;
     APIWithdrawPermissions := APIWithdrawPermissions b; API := a;
     Nonce := Nonce b; TakerFee := TakerFee b; MakerFee := MakerFee b;
     Fee := Fee b; BaseCurrencies := BaseCurrencies b;
     AvailablePairs := AvailablePairs b; EnabledPairs := EnabledPairs b;
     AssetTypes := AssetTypes b; PairsLastUpdated := PairsLastUpdated b;
     Features := Features b; HTTPTimeout := HTTPTimeout b;
     HTTPUserAgent := HTTPUserAgent b; WebsocketURL := WebsocketURL b;
     RequestCurrencyPairFormat := RequestCurrencyPairFormat b;
     ConfigCurrencyPairFormat := ConfigCurrencyPairFormat b;
     Websocket := Websocket b; Requester := Requester b |}.
(** [x.BaseCurrencies = v] *)
Definition set_BaseCurrencies (v : list string) (b : t) : t :=
  {| Name := Name b; Enabled := Enabled b; Verbose := Verbose b;
     APIWithdrawPermissions := APIWithdrawPermissions b; API := API b;
     Nonce := Nonce b; TakerFee := TakerFee b; MakerFee := MakerFee b;
     Fee := Fee b; BaseCurrencies := v;
     AvailablePairs := AvailablePairs b; EnabledPairs := EnabledPairs b;
     AssetTypes := AssetTypes b; PairsLastUpdated := PairsLastUpdated b;
     Features := Features b; HTTPTimeout := HTTPTimeout b;
     HTTPUserAgent := HTTPUserAgent b; WebsocketURL := WebsocketURL b;
     RequestCurrencyPairFormat := RequestCurrencyPairFormat b;
     ConfigCurrencyPairFormat := ConfigCurrencyPairFormat b;
     Websocket := Websocket b; Requester := Requester b |}.
End Base.

(** The methods of the exchange base that the wrappers call.  They are
    declared in exchange.go, which is not among the sources, and are taken
    as parameters. *)
Class Methods : Type := {
  GetName : Base.t -> string;
  SetEnabled : bool -> Base.t -> Base.t;
  GetWithdrawPermissions : Base.t -> Z;
}.

(** Modelled from the spec: what the statements assume of these methods.
    Spec 2 and 6 list the name, the enabled flag and the capability mask as
    fields of the base; each method reads or writes that one field. *)
Class MethodsLaws (M : Methods) : Prop := {
  GetName_Name : forall e : Base.t, GetName e = Base.Name e;
  SetEnabled_Enabled :
    forall (enabled : bool) (e : Base.t), SetEnabled enabled e = Base.set_Enabled enabled e;
  GetWithdrawPermissions_mask :
    forall e : Base.t, GetWithdrawPermissions e = Base.APIWithdrawPermissions e;
}.

End exchange.

Module ticker.
Definition Spot : string := "SPOT".

(** Modelled from the spec: the ticker snapshot (spec 3: bid, ask, last,
    high, low, volume, pair, timestamp). *)
Record Price : Type := {
  Pair : pair.CurrencyPair;
  Last : float64;
  High : float64;
  Low : float64;
  Bid : float64;
  Ask : float64;
  Volume : float64;
  LastUpdated : Z;
}.
(** [ticker.Price{}] *)
Definition zero : Price :=
  {| Pair := pair.zero; Last := 0; High := 0; Low := 0; Bid := 0; Ask := 0;
     Volume := 0; LastUpdated := 0 |}.

(** The ticker registry of the package and its two operations.  They are
    declared in files that are not among the sources, and are taken as
    parameters: [GetTicker(exchange, pair, type)] reads the registry,
    [ProcessTicker(exchange, pair, tickerNew, type)] writes it. *)
Class Store : Type := {
  Registry : Type;
  GetTicker : Registry -> string -> pair.CurrencyPair -> string -> result Price;
  ProcessTicker :
    Registry -> string -> pair.CurrencyPair -> Price -> string -> Registry;
}.

(** Modelled from the spec: what the statements assume of the store (spec
    4.2 and 8): a put followed by a get on the same key returns exactly the
    snapshot just written. *)
Class StoreLaws (S : Store) : Prop := {
  GetTicker_ProcessTicker :
    forall (tickers : Registry) (exchangeName : string) (p : pair.CurrencyPair)
           (tickerNew : Price) (tickerType : string),
      GetTicker (ProcessTicker tickers exchangeName p tickerNew tickerType)
        exchangeName p tickerType
      = (tickerNew, None);
}.
End ticker.

Module orderbook.
Record Item : Type := { Amount : float64; Price : float64 }.

(** Modelled from the spec: the order-book snapshot (spec 3: ordered bid
    levels, ordered ask levels, pair, asset type, last-updated time). *)
Record Base : Type := {
  Pair : pair.CurrencyPair;
  Bids : list Item;
  Asks : list Item;
  AssetType : string;
  LastUpdated : Z;
}.
(** [orderbook.Base{}] *)
Definition zero : Base :=
  {| Pair := pair.zero; Bids := []; Asks := []; AssetType := ""; LastUpdated := 0 |}.
Definition with_Bids (bids : list Item) (b : Base) : Base :=
  {| Pair := Pair b; Bids := bids; Asks := Asks b; AssetType := AssetType b;
     LastUpdated := LastUpdated b |}.
Definition with_Asks (asks : list Item) (b : Base) : Base :=
  {| Pair := Pair b; Bids := Bids b; Asks := asks; AssetType := AssetType b;
     LastUpdated := LastUpdated b |}.

(** The order-book registry of the package and its two operations, taken
    as parameters like those of package ticker. *)
Class Store : Type := {
  Registry : Type;
  GetOrderbook : Registry -> string -> pair.CurrencyPair -> string -> result Base;
  ProcessOrderbook :
    Registry -> string -> pair.CurrencyPair -> Base -> string -> Registry;
}.

(** Modelled from the spec: what the statements assume of the store (spec
    4.2 and 8): a put followed by a get on the same key returns exactly the
    snapshot just written, its levels as given. *)
Class StoreLaws (S : Store) : Prop := {
  GetOrderbook_ProcessOrderbook :
    forall (orderbooks : Registry) (exchangeName : string) (p : pair.CurrencyPair)
           (orderbookNew : Base) (orderbookType : string),
      GetOrderbook (ProcessOrderbook orderbooks exchangeName p orderbookNew orderbookType)
        exchangeName p orderbookType
      = (orderbookNew, None);
}.
End orderbook.

(** ** The world the wrappers run in

    The two stores are package-level registries shared by all wrappers; a
    REST call leaves a trace in [Sent], [log.Println] in [Logged]. *)

Record Request : Type := {
  Exchange : string;
  Endpoint : string;
  Symbol : string;
}.

(** The line feed that ends a format. *)
Definition newline : string := String (Ascii.ascii_of_nat 10) EmptyString.

Section World.
Context {tickerStore : ticker.Store} {orderbookStore : orderbook.Store}.

Record World : Type := {
  Tickers : ticker.Registry;
  Orderbooks : orderbook.Registry;
  Sent : list Request;
  Logged : list error;
}.

Definition set_Tickers (tickers : ticker.Registry) (w : World) : World :=
  {| Tickers := tickers; Orderbooks := Orderbooks w; Sent := Sent w;
     Logged := Logged w |}.
Definition set_Orderbooks (orderbooks : orderbook.Registry) (w : World) : World :=
  {| Tickers := Tickers w; Orderbooks := orderbooks; Sent := Sent w;
     Logged := Logged w |}.
Definition send (r : Request) (w : World) : World :=
  {| Tickers := Tickers w; Orderbooks := Orderbooks w; Sent := Sent w ++ [r];
     Logged := Logged w |}.
(** [log.Println(err)] *)
Definition log_Println (err : error) (w : World) : World :=
  {| Tickers := Tickers w; Orderbooks := Orderbooks w; Sent := Sent w;
     Logged := Logged w ++ [err] |}.

(** [log.Printf(format, ...)] and [log.Println(text)]: the formatted line is
    printed. *)
Definition log_Printf (line : string) (w : World) : World :=
  log_Println (errors.New line) w.

(** A venue answers a REST request; its answer may change from one request
    to the next, so it is indexed by the number of requests already sent. *)
Definition Venue (T : Type) : Type := nat -> string -> result T.

(** One REST call of a wrapper ([g.GetTicker(symbol)] and the like; the
    request bodies are in files that are not among the sources): the
    request is sent and the venue's answer returned.  It touches neither
    store. *)
Definition rest {T : Type} (venue : Venue T) (exchangeName endpoint symbol : string)
    (w : World) : result T * World :=
  (venue (length (Sent w)) symbol,
   send {| Exchange := exchangeName; Endpoint := endpoint; Symbol := symbol |} w).

End World.

(** How a call ends: it returns, the process exits through [log.Fatal], or
    it panics. *)
Inductive outcome (A : Type) : Type :=
| Returns (a : A)
| Fatal (err : error)
| Panics (msg : string).
Arguments Returns {A} a.
Arguments Fatal {A} err.
Arguments Panics {A} msg.

(** ** The Gemini wrapper (gemini_wrapper.go) *)

Module Gemini.

Module TickerVolume.
Record t : Type := { USD : float64 }.
End TickerVolume.

Module Ticker.
Record t : Type := {
  Ask : float64;
  Bid : float64;
  Last : float64;
  Volume : TickerVolume.t;
}.
End Ticker.

Module OrderbookEntry.
Record t : Type := { Price : float64; Amount : float64 }.
End OrderbookEntry.

Module Orderbook.
Record t : Type := {
  Bids : list OrderbookEntry.t;
  Asks : list OrderbookEntry.t;
}.
End Orderbook.

Module Balance.
Record t : Type := {
  Currency : string;
  Amount : float64;
  Available : float64;
}.
End Balance.

Section Wrapper.
Context {tickerStore : ticker.Store} {orderbookStore : orderbook.Store}.
Context {methods : exchange.Methods}.
(** What the wrapper takes from the rest of its package and from packages
    that are not among the sources. *)
Variable pairString : pair.CurrencyPair -> string.        (* p.Pair().String() *)
Variable GetTicker : Venue Ticker.t.
Variable GetOrderbook : Venue Orderbook.t.
Variable GetBalances : Venue (list Balance.t).
Variable SetupDefaults :
  config.ExchangeConfig -> exchange.Base.t -> exchange.Base.t * option error.
Variables geminiAPIURL geminiSandboxAPIURL : string.
Variables geminiAuthRate geminiUnauthRate DefaultHTTPTimeout : Z.
Variables OrderSide OrderType ModifyOrder : Type.

(** SetDefaults sets package defaults for gemini exchange *)
Definition SetDefaults (g : exchange.Base.t) : exchange.Base.t :=
  let Name := "Gemini" in
  {| exchange.Base.Name := Name;
     exchange.Base.Enabled := false;
     exchange.Base.Verbose := false;
     exchange.Base.APIWithdrawPermissions :=
       Z.lor (Z.lor exchange.AutoWithdrawCryptoWithAPIPermission
                    exchange.AutoWithdrawCryptoWithSetup)
             exchange.WithdrawFiatViaWebsiteOnly;
     exchange.Base.RequestCurrencyPairFormat :=
       {| config.Delimiter := ""; config.Uppercase := true |};
     exchange.Base.ConfigCurrencyPairFormat :=
       {| config.Delimiter := ""; config.Uppercase := true |};
     exchange.Base.AssetTypes := [ticker.Spot];
     exchange.Base.Features :=
       {| exchange.Features.Supports :=
            {| exchange.FeaturesSupported.AutoPairUpdates := true;
               exchange.FeaturesSupported.RESTTickerBatching := false;
               exchange.FeaturesSupported.REST := true;
               exchange.FeaturesSupported.Websocket := false |};
          exchange.Features.Enabled :=
            {| exchange.FeaturesEnabled.AutoPairUpdates := true |} |};
     exchange.Base.Requester :=
       Some (request.New Name
               (request.NewRateLimit time.Minute geminiAuthRate)
               (request.NewRateLimit time.Minute geminiUnauthRate)
               DefaultHTTPTimeout);
     exchange.Base.API :=
       (let api := exchange.API.set_URLDefault geminiAPIURL (exchange.Base.API g) in
        exchange.API.set_URL
          (exchange.Endpoints.URLDefault (exchange.API.Endpoints api)) api);
     exchange.Base.Nonce := exchange.Base.Nonce g;
     exchange.Base.TakerFee := exchange.Base.TakerFee g;
     exchange.Base.MakerFee := exchange.Base.MakerFee g;
     exchange.Base.Fee := exchange.Base.Fee g;
     exchange.Base.BaseCurrencies := exchange.Base.BaseCurrencies g;
     exchange.Base.AvailablePairs := exchange.Base.AvailablePairs g;
     exchange.Base.EnabledPairs := exchange.Base.EnabledPairs g;
     exchange.Base.PairsLastUpdated := exchange.Base.PairsLastUpdated g;
     exchange.Base.HTTPTimeout := exchange.Base.HTTPTimeout g;
     exchange.Base.HTTPUserAgent := exchange.Base.HTTPUserAgent g;
     exchange.Base.WebsocketURL := exchange.Base.WebsocketURL g;
     exchange.Base.Websocket := exchange.Base.Websocket g |}.

(** Setup sets exchange configuration parameters *)
Definition Setup (g : exchange.Base.t) (exch : config.ExchangeConfig)
    : outcome exchange.Base.t :=
  if negb (config.Enabled exch) then
    Returns (exchange.SetEnabled false g)
  else
    let '(g, err) := SetupDefaults exch g in
    match err with
    | Some err => Fatal err
    | None =>
      if config.UseSandbox exch then
        Returns (exchange.Base.set_API
                   (exchange.API.set_URL geminiSandboxAPIURL (exchange.Base.API g)) g)
      else Returns g
    end.

(** GetExchangeAccountInfo Retrieves balances for all enabled currencies for
    the Gemini exchange *)
Definition GetExchangeAccountInfo (g : exchange.Base.t) (w : World)
    : result exchange.AccountInfo.t * World :=
  let response :=
    {| exchange.AccountInfo.ExchangeName := exchange.GetName g;
       exchange.AccountInfo.Currencies := [] |} in
  let '(accountBalance, err, w) :=
    rest GetBalances (exchange.Base.Name g) "balances" "" w in
  match err with
  | Some err => ((response, Some err), w)
  | None =>
    let response :=
      foldl (fun response b =>
               {| exchange.AccountInfo.ExchangeName :=
                    exchange.AccountInfo.ExchangeName response;
                  exchange.AccountInfo.Currencies :=
                    exchange.AccountInfo.Currencies response ++
                    [ {| exchange.AccountCurrencyInfo.CurrencyName := Balance.Currency b;
                         exchange.AccountCurrencyInfo.TotalValue := Balance.Amount b;
                         exchange.AccountCurrencyInfo.Hold := Balance.Available b |} ] |})
            response accountBalance in
    ((response, None), w)
  end.

(** UpdateTicker updates and returns the ticker for a currency pair *)
Definition UpdateTicker (g : exchange.Base.t) (p : pair.CurrencyPair)
    (assetType : string) (w : World) : result ticker.Price * World :=
  let tickerPrice := ticker.zero in
  let '(tick, err, w) :=
    rest GetTicker (exchange.Base.Name g) "ticker" (pairString p) w in
  match err with
  | Some err => ((tickerPrice, Some err), w)
  | None =>
    let tickerPrice :=
      {| ticker.Pair := p;
         ticker.Ask := Ticker.Ask tick;
         ticker.Bid := Ticker.Bid tick;
         ticker.Last := Ticker.Last tick;
         ticker.Volume := TickerVolume.USD (Ticker.Volume tick);
         ticker.High := ticker.High tickerPrice;
         ticker.Low := ticker.Low tickerPrice;
         ticker.LastUpdated := ticker.LastUpdated tickerPrice |} in
    let w :=
      set_Tickers
        (ticker.ProcessTicker (Tickers w) (exchange.GetName g) p tickerPrice assetType) w in
    (ticker.GetTicker (Tickers w) (exchange.Base.Name g) p assetType, w)
  end.

(** FetchTicker returns the ticker for a currency pair *)
Definition FetchTicker (g : exchange.Base.t) (p : pair.CurrencyPair)
    (assetType : string) (w : World) : result ticker.Price * World :=
  let '(tickerNew, err) :=
    ticker.GetTicker (Tickers w) (exchange.GetName g) p assetType in
  match err with
  | Some _ => UpdateTicker g p assetType w
  | None => ((tickerNew, None), w)
  end.

(** The two loops of UpdateOrderbook: each level is appended in turn. *)
Definition appendBids (orderBook : orderbook.Base) (levels : list OrderbookEntry.t)
    : orderbook.Base :=
  foldl (fun orderBook level =>
           orderbook.with_Bids
             (orderbook.Bids orderBook ++
              [ {| orderbook.Amount := OrderbookEntry.Amount level;
                   orderbook.Price := OrderbookEntry.Price level |} ])
             orderBook)
        orderBook levels.
Definition appendAsks (orderBook : orderbook.Base) (levels : list OrderbookEntry.t)
    : orderbook.Base :=
  foldl (fun orderBook level =>
           orderbook.with_Asks
             (orderbook.Asks orderBook ++
              [ {| orderbook.Amount := OrderbookEntry.Amount level;
                   orderbook.Price := OrderbookEntry.Price level |} ])
             orderBook)
        orderBook levels.

(** UpdateOrderbook updates and returns the orderbook for a currency pair *)
Definition UpdateOrderbook (g : exchange.Base.t) (p : pair.CurrencyPair)
    (assetType : string) (w : World) : result orderbook.Base * World :=
  let orderBook := orderbook.zero in
  let '(orderbookNew, err, w) :=
    rest GetOrderbook (exchange.Base.Name g) "book" (pairString p) w in
  match err with
  | Some err => ((orderBook, Some err), w)
  | None =>
    let orderBook := appendBids orderBook (Orderbook.Bids orderbookNew) in
    let orderBook := appendAsks orderBook (Orderbook.Asks orderbookNew) in
    let w :=
      set_Orderbooks
        (orderbook.ProcessOrderbook (Orderbooks w) (exchange.GetName g) p orderBook
           assetType) w in
    (orderbook.GetOrderbook (Orderbooks w) (exchange.Base.Name g) p assetType, w)
  end.

(** FetchOrderbook returns orderbook base on the currency pair *)
Definition FetchOrderbook (g : exchange.Base.t) (p : pair.CurrencyPair)
    (assetType : string) (w : World) : result orderbook.Base * World :=
  let '(ob, err) :=
    orderbook.GetOrderbook (Orderbooks w) (exchange.GetName g) p assetType in
  match err with
  | Some _ => UpdateOrderbook g p assetType w
  | None => ((ob, None), w)
  end.

(** GetExchangeFundTransferHistory returns funding history, deposits and
    withdrawals *)
Definition GetExchangeFundTransferHistory (g : exchange.Base.t)
    : result (list exchange.FundHistory.t) :=
  let fundHistory := [] in
  (fundHistory, Some (errors.New "not supported on exchange")).

(** GetExchangeHistory returns historic trade data since exchange opening. *)
Definition GetExchangeHistory (g : exchange.Base.t) (p : pair.CurrencyPair)
    (assetType : string) : result (list exchange.TradeHistory.t) :=
  let resp := [] in
  (resp, Some (errors.New "trade history not yet implemented")).

(** SubmitExchangeOrder submits a new order *)
Definition SubmitExchangeOrder (g : exchange.Base.t) (p : pair.CurrencyPair)
    (side : OrderSide) (orderType : OrderType) (amount price : float64)
    (clientID : string) : result Z :=
  (0, Some (errors.New "not yet implemented")).

(** ModifyExchangeOrder will allow of changing orderbook placement and limit
    to market conversion *)
Definition ModifyExchangeOrder (g : exchange.Base.t) (orderID : Z)
    (action : ModifyOrder) : result Z :=
  (0, Some (errors.New "not yet implemented")).

(** CancelExchangeOrder cancels an order by its corresponding ID number *)
Definition CancelExchangeOrder (g : exchange.Base.t) (orderID : Z) : option error :=
  Some (errors.New "not yet implemented").

(** CancelAllExchangeOrders cancels all orders associated with a currency pair *)
Definition CancelAllExchangeOrders (g : exchange.Base.t) : option error :=
  Some (errors.New "not yet implemented").

(** GetExchangeOrderInfo returns information on a current open order *)
Definition GetExchangeOrderInfo (g : exchange.Base.t) (orderID : Z)
    : result exchange.OrderDetail.t :=
  let orderDetail := exchange.OrderDetail.zero in
  (orderDetail, Some (errors.New "not yet implemented")).

(** GetExchangeDepositAddress returns a deposit address for a specified
    currency *)
Definition GetExchangeDepositAddress (g : exchange.Base.t) (cryptocurrency : string)
    : result string :=
  ("", Some (errors.New "not yet implemented")).

(** WithdrawCryptoExchangeFunds returns a withdrawal ID when a withdrawal is
    submitted *)
Definition WithdrawCryptoExchangeFunds (g : exchange.Base.t) (address : string)
    (cryptocurrency : string) (amount : float64) : result string :=
  ("", Some (errors.New "not yet implemented")).

(** WithdrawFiatExchangeFunds returns a withdrawal ID when a withdrawal is
    submitted *)
Definition WithdrawFiatExchangeFunds (g : exchange.Base.t) (currency : string)
    (amount : float64) : result string :=
  ("", Some (errors.New "not yet implemented")).

(** WithdrawFiatExchangeFundsToInternationalBank returns a withdrawal ID when
    a withdrawal is submitted *)
Definition WithdrawFiatExchangeFundsToInternationalBank (g : exchange.Base.t)
    (currency : string) (amount : float64) : result string :=
  ("", Some (errors.New "not yet implemented")).

(** GetWebsocket returns a pointer to the exchange websocket *)
Definition GetWebsocket (g : exchange.Base.t) : result (option exchange.Websocket.t) :=
  (None, Some (errors.New "not yet implemented")).

(** GetWithdrawCapabilities returns the types of withdrawal methods permitted
    by the exchange *)
Definition GetWithdrawCapabilities (g : exchange.Base.t) : Z :=
  exchange.GetWithdrawPermissions g.

(** What Run takes from elsewhere: the symbols request, the method of the
    base that replaces a list of pairs ([UpdateCurrencies(products,
    enabled, force)], exchange.go) and the formatting of the line
    "name n currencies enabled: pairs". *)
Variable GetSymbols : Venue (list string).
Variable UpdateCurrencies :
  list string -> bool -> bool -> exchange.Base.t -> exchange.Base.t * option error.
Variable currenciesEnabledLine : string -> nat -> list string -> string.

(** Run implements the Gemini wrapper *)
Definition Run (g : exchange.Base.t) (w : World) : exchange.Base.t * World :=
  let w :=
    if exchange.Base.Verbose g then
      log_Printf (currenciesEnabledLine (exchange.GetName g)
                    (length (exchange.Base.EnabledPairs g))
                    (exchange.Base.EnabledPairs g)) w
    else w in
  let '(exchangeProducts, err, w) :=
    rest GetSymbols (exchange.Base.Name g) "symbols" "" w in
  match err with
  | Some _ =>
    (g, log_Printf (exchange.GetName g +:+ " Failed to get available symbols." +:+ newline) w)
  | None =>
    let '(g, err) := UpdateCurrencies exchangeProducts false false g in
    match err with
    | Some _ =>
      (g, log_Printf (exchange.GetName g +:+ " Failed to update available currencies."
                      +:+ newline) w)
    | None => (g, w)
    end
  end.

End Wrapper.
End Gemini.

(** ** The Bitstamp wrapper (bitstamp_wrapper.go) *)

Module Bitstamp.

Module Balance.
Record t : Type := {
  BTCReserved : float64;
  BTCAvailable : float64;
  XRPReserved : float64;
  XRPAvailable : float64;
  USDReserved : float64;
  USDAvailable : float64;
  EURReserved : float64;
  EURAvailable : float64;
}.
End Balance.

Module TradingPair.
Record t : Type := {
  Name : string;
  Trading : string;
}.
End TradingPair.

Module Ticker.
Record t : Type := {
  Last : float64;
  High : float64;
  Low : float64;
  Volume : float64;
  Bid : float64;
  Ask : float64;
}.
End Ticker.

Module OrderbookBase.
Record t : Type := { Price : float64; Amount : float64 }.
End OrderbookBase.

Module Orderbook.
Record t : Type := {
  Bids : list OrderbookBase.t;
  Asks : list OrderbookBase.t;
}.
End Orderbook.

Section Wrapper.
Context {tickerStore : ticker.Store} {orderbookStore : orderbook.Store}.
Context {methods : exchange.Methods}.
Variable pairString : pair.CurrencyPair -> string.        (* p.Pair().String() *)
Variable GetTicker : Venue Ticker.t.                      (* b.GetTicker(symbol, false) *)
Variable GetOrderbook : Venue Orderbook.t.
Variable SetupDefaults :
  config.ExchangeConfig -> exchange.Base.t -> exchange.Base.t * option error.
Variable WebsocketInit : exchange.Base.t -> exchange.Base.t.
(** [b.WebsocketSetup(b.WsConnect, name, enabled, defaultURL, runningURL)] *)
Variable WebsocketSetup :
  string -> bool -> string -> string -> exchange.Base.t -> exchange.Base.t * option error.
Variables bitstampAPIURL BitstampPusherKey : string.
Variables bitstampAuthRate bitstampUnauthRate DefaultHTTPTimeout : Z.
Variables OrderSide OrderType ModifyOrder : Type.

(** SetDefaults sets default for Bitstamp *)
Definition SetDefaults (b : exchange.Base.t) : exchange.Base.t :=
  let Name := "Bitstamp" in
  let b :=
  {| exchange.Base.Name := Name;
     exchange.Base.Enabled := false;
     exchange.Base.Verbose := false;
     exchange.Base.APIWithdrawPermissions :=
       Z.lor exchange.AutoWithdrawCrypto exchange.AutoWithdrawFiat;
     exchange.Base.RequestCurrencyPairFormat :=
       {| config.Delimiter := ""; config.Uppercase := true |};
     exchange.Base.ConfigCurrencyPairFormat :=
       {| config.Delimiter := ""; config.Uppercase := true |};
     exchange.Base.AssetTypes := [ticker.Spot];
     exchange.Base.Features :=
       {| exchange.Features.Supports :=
            {| exchange.FeaturesSupported.AutoPairUpdates := true;
               exchange.FeaturesSupported.RESTTickerBatching := false;
               exchange.FeaturesSupported.REST := true;
               exchange.FeaturesSupported.Websocket := true |};
          exchange.Features.Enabled :=
            {| exchange.FeaturesEnabled.AutoPairUpdates := true |} |};
     exchange.Base.Requester :=
       Some (request.New Name
               (request.NewRateLimit (time.Minute * 10) bitstampAuthRate)
               (request.NewRateLimit (time.Minute * 10) bitstampUnauthRate)
               DefaultHTTPTimeout);
     exchange.Base.API :=
       (let api := exchange.API.set_URLDefault bitstampAPIURL (exchange.Base.API b) in
        exchange.API.set_URL
          (exchange.Endpoints.URLDefault (exchange.API.Endpoints api)) api);
     exchange.Base.TakerFee := exchange.Base.TakerFee b;
     exchange.Base.MakerFee := exchange.Base.MakerFee b;
     exchange.Base.Fee := exchange.Base.Fee b;
     exchange.Base.Nonce := exchange.Base.Nonce b;
     exchange.Base.BaseCurrencies := exchange.Base.BaseCurrencies b;
     exchange.Base.AvailablePairs := exchange.Base.AvailablePairs b;
     exchange.Base.EnabledPairs := exchange.Base.EnabledPairs b;
     exchange.Base.PairsLastUpdated := exchange.Base.PairsLastUpdated b;
     exchange.Base.HTTPTimeout := exchange.Base.HTTPTimeout b;
     exchange.Base.HTTPUserAgent := exchange.Base.HTTPUserAgent b;
     exchange.Base.WebsocketURL := exchange.Base.WebsocketURL b;
     exchange.Base.Websocket := exchange.Base.Websocket b |} in
  let b := WebsocketInit b in
  exchange.Base.set_API
    (exchange.API.set_RequiresClientID true (exchange.Base.API b)) b.

(** Setup sets configuration values to bitstamp *)
Definition Setup (b : exchange.Base.t) (exch : config.ExchangeConfig)
    : outcome exchange.Base.t :=
  if negb (config.Enabled exch) then
    Returns (exchange.SetEnabled false b)
  else
    let '(b, err) := SetupDefaults exch b in
    match err with
    | Some err => Fatal err
    | None =>
      let '(b, err) :=
        WebsocketSetup (config.Name exch) (config.Features_Enabled_Websocket exch)
          BitstampPusherKey (config.API_Endpoints_WebsocketURL exch) b in
      match err with
      | Some err => Fatal err
      | None => Returns b
      end
    end.

(** UpdateTicker updates and returns the ticker for a currency pair *)
Definition UpdateTicker (b : exchange.Base.t) (p : pair.CurrencyPair)
    (assetType : string) (w : World) : result ticker.Price * World :=
  let tickerPrice := ticker.zero in
  let '(tick, err, w) :=
    rest GetTicker (exchange.Base.Name b) "ticker" (pairString p) w in
  match err with
  | Some err => ((tickerPrice, Some err), w)
  | None =>
    let tickerPrice :=
      {| ticker.Pair := p;
         ticker.Ask := Ticker.Ask tick;
         ticker.Bid := Ticker.Bid tick;
         ticker.Low := Ticker.Low tick;
         ticker.Last := Ticker.Last tick;
         ticker.Volume := Ticker.Volume tick;
         ticker.High := Ticker.High tick;
         ticker.LastUpdated := ticker.LastUpdated tickerPrice |} in
    let w :=
      set_Tickers
        (ticker.ProcessTicker (Tickers w) (exchange.GetName b) p tickerPrice assetType) w in
    (ticker.GetTicker (Tickers w) (exchange.Base.Name b) p assetType, w)
  end.

(** FetchTicker returns the ticker for a currency pair *)
Definition FetchTicker (b : exchange.Base.t) (p : pair.CurrencyPair)
    (assetType : string) (w : World) : result ticker.Price * World :=
  let '(tick, err) :=
    ticker.GetTicker (Tickers w) (exchange.GetName b) p assetType in
  match err with
  | Some _ => UpdateTicker b p assetType w
  | None => ((tick, None), w)
  end.

(** The two loops of UpdateOrderbook: each level is appended in turn. *)
Definition appendBids (orderBook : orderbook.Base) (levels : list OrderbookBase.t)
    : orderbook.Base :=
  foldl (fun orderBook data =>
           orderbook.with_Bids
             (orderbook.Bids orderBook ++
              [ {| orderbook.Amount := OrderbookBase.Amount data;
                   orderbook.Price := OrderbookBase.Price data |} ])
             orderBook)
        orderBook levels.
Definition appendAsks (orderBook : orderbook.Base) (levels : list OrderbookBase.t)
    : orderbook.Base :=
  foldl (fun orderBook data =>
           orderbook.with_Asks
             (orderbook.Asks orderBook ++
              [ {| orderbook.Amount := OrderbookBase.Amount data;
                   orderbook.Price := OrderbookBase.Price data |} ])
             orderBook)
        orderBook levels.

(** UpdateOrderbook updates and returns the orderbook for a currency pair *)
Definition UpdateOrderbook (b : exchange.Base.t) (p : pair.CurrencyPair)
    (assetType : string) (w : World) : result orderbook.Base * World :=
  let orderBook := orderbook.zero in
  let '(orderbookNew, err, w) :=
    rest GetOrderbook (exchange.Base.Name b) "order_book" (pairString p) w in
  match err with
  | Some err => ((orderBook, Some err), w)
  | None =>
    let orderBook := appendBids orderBook (Orderbook.Bids orderbookNew) in
    let orderBook := appendAsks orderBook (Orderbook.Asks orderbookNew) in
    let w :=
      set_Orderbooks
        (orderbook.ProcessOrderbook (Orderbooks w) (exchange.GetName b) p orderBook
           assetType) w in
    (orderbook.GetOrderbook (Orderbooks w) (exchange.Base.Name b) p assetType, w)
  end.

(** FetchOrderbook returns the orderbook for a currency pair *)
Definition FetchOrderbook (b : exchange.Base.t) (p : pair.CurrencyPair)
    (assetType : string) (w : World) : result orderbook.Base * World :=
  let '(ob, err) :=
    orderbook.GetOrderbook (Orderbooks w) (exchange.GetName b) p assetType in
  match err with
  | Some _ => UpdateOrderbook b p assetType w
  | None => ((ob, None), w)
  end.

(** GetExchangeFundTransferHistory returns funding history, deposits and
    withdrawals *)
Definition GetExchangeFundTransferHistory (b : exchange.Base.t)
    : result (list exchange.FundHistory.t) :=
  let fundHistory := [] in
  (fundHistory, Some (errors.New "not supported on exchange")).

(** GetExchangeHistory returns historic trade data since exchange opening. *)
Definition GetExchangeHistory (b : exchange.Base.t) (p : pair.CurrencyPair)
    (assetType : string) : result (list exchange.TradeHistory.t) :=
  let resp := [] in
  (resp, Some (errors.New "trade history not yet implemented")).

(** SubmitExchangeOrder submits a new order *)
Definition SubmitExchangeOrder (b : exchange.Base.t) (p : pair.CurrencyPair)
    (side : OrderSide) (orderType : OrderType) (amount price : float64)
    (clientID : string) : result Z :=
  (0, Some (errors.New "not yet implemented")).

(** ModifyExchangeOrder will allow of changing orderbook placement and limit
    to market conversion *)
Definition ModifyExchangeOrder (b : exchange.Base.t) (orderID : Z)
    (action : ModifyOrder) : result Z :=
  (0, Some (errors.New "not yet implemented")).

(** CancelExchangeOrder cancels an order by its corresponding ID number *)
Definition CancelExchangeOrder (b : exchange.Base.t) (orderID : Z) : option error :=
  Some (errors.New "not yet implemented").

(** CancelAllExchangeOrders cancels all orders associated with a currency pair *)
Definition CancelAllExchangeOrders (b : exchange.Base.t) : option error :=
  Some (errors.New "not yet implemented").

(** GetExchangeOrderInfo returns information on a current open order *)
Definition GetExchangeOrderInfo (b : exchange.Base.t) (orderID : Z)
    : result exchange.OrderDetail.t :=
  let orderDetail := exchange.OrderDetail.zero in
  (orderDetail, Some (errors.New "not yet implemented")).

(** GetExchangeDepositAddress returns a deposit address for a specified
    currency *)
Definition GetExchangeDepositAddress (b : exchange.Base.t) (cryptocurrency : string)
    : result string :=
  ("", Some (errors.New "not yet implemented")).

(** WithdrawCryptoExchangeFunds returns a withdrawal ID when a withdrawal is
    submitted *)
Definition WithdrawCryptoExchangeFunds (b : exchange.Base.t) (address : string)
    (cryptocurrency : string) (amount : float64) : result string :=
  ("", Some (errors.New "not yet implemented")).

(** WithdrawFiatExchangeFunds returns a withdrawal ID when a withdrawal is
    submitted *)
Definition WithdrawFiatExchangeFunds (b : exchange.Base.t) (currency : string)
    (amount : float64) : result string :=
  ("", Some (errors.New "not yet implemented")).

(** WithdrawFiatExchangeFundsToInternationalBank returns a withdrawal ID when
    a withdrawal is submitted *)
Definition WithdrawFiatExchangeFundsToInternationalBank (b : exchange.Base.t)
    (currency : string) (amount : float64) : result string :=
  ("", Some (errors.New "not yet implemented")).

(** GetWebsocket returns a pointer to the exchange websocket *)
Definition GetWebsocket (b : exchange.Base.t) : result (option exchange.Websocket.t) :=
  (exchange.Base.Websocket b, None).

(** GetWithdrawCapabilities returns the types of withdrawal methods permitted
    by the exchange *)
Definition GetWithdrawCapabilities (b : exchange.Base.t) : Z :=
  exchange.GetWithdrawPermissions b.

(** What Run and GetExchangeAccountInfo take from elsewhere: two more
    requests, [strings.Split] of Go's library, the method of the base that
    replaces a list of pairs and the formatting of the two lines printed
    when verbose. *)
Variable GetBalance : Venue Balance.t.
Variable GetTradingPairs : Venue (list TradingPair.t).
Variable Split : string -> string -> list string.
Variable UpdateCurrencies :
  list string -> bool -> bool -> exchange.Base.t -> exchange.Base.t * option error.
Variable websocketLine : string -> option exchange.Websocket.t -> string.
Variable currenciesEnabledLine : string -> nat -> list string -> string.

(** The loop of Run: a pair that is not trading is skipped; the name of a
    trading pair is split at the slash and its first two parts are joined.
    Indexing a part that is not there panics. *)
Fixpoint tradingCurrencies (pairs : list TradingPair.t) (currencies : list string)
    : outcome (list string) :=
  match pairs with
  | [] => Returns currencies
  | x :: pairs =>
    if negb (String.eqb (TradingPair.Trading x) "Enabled") then
      tradingCurrencies pairs currencies
    else
      let pair := Split (TradingPair.Name x) "/" in
      match pair !! 0%nat, pair !! 1%nat with
      | Some first, Some second =>
        tradingCurrencies pairs (currencies ++ [first +:+ second])
      | _, _ => Panics "index out of range"
      end
  end.

(** Run implements the Bitstamp wrapper *)
Definition Run (b : exchange.Base.t) (w : World) : outcome exchange.Base.t * World :=
  let w :=
    if exchange.Base.Verbose b then
      let w :=
        log_Printf (websocketLine (exchange.GetName b) (exchange.Base.Websocket b)) w in
      log_Printf (currenciesEnabledLine (exchange.GetName b)
                    (length (exchange.Base.EnabledPairs b))
                    (exchange.Base.EnabledPairs b)) w
    else w in
  let '(pairs, err, w) :=
    rest GetTradingPairs (exchange.Base.Name b) "trading-pairs-info" "" w in
  match err with
  | Some err =>
    (Returns b,
     log_Printf (exchange.Base.Name b +:+ " failed to get trading pairs. Err: "
                 +:+ errors.Error err) w)
  | None =>
    match tradingCurrencies pairs [] with
    | Returns currencies =>
      let '(b, err) := UpdateCurrencies currencies false false b in
      match err with
      | Some _ =>
        (Returns b,
         log_Printf (exchange.Base.Name b +:+ " Failed to update available currencies."
                     +:+ newline) w)
      | None => (Returns b, w)
      end
    | Fatal err => (Fatal err, w)
    | Panics msg => (Panics msg, w)
    end
  end.

(** GetExchangeAccountInfo retrieves balances for all enabled currencies for
    the Bitstamp exchange *)
Definition GetExchangeAccountInfo (b : exchange.Base.t) (w : World)
    : result exchange.AccountInfo.t * World :=
  let response :=
    {| exchange.AccountInfo.ExchangeName := exchange.GetName b;
       exchange.AccountInfo.Currencies := [] |} in
  let '(accountBalance, err, w) :=
    rest GetBalance (exchange.Base.Name b) "balance" "" w in
  match err with
  | Some err => ((response, Some err), w)
  | None =>
    let append (c : exchange.AccountCurrencyInfo.t) (response : exchange.AccountInfo.t) :=
      {| exchange.AccountInfo.ExchangeName := exchange.AccountInfo.ExchangeName response;
         exchange.AccountInfo.Currencies :=
           exchange.AccountInfo.Currencies response ++ [c] |} in
    let response :=
      append {| exchange.AccountCurrencyInfo.CurrencyName := "BTC";
                exchange.AccountCurrencyInfo.TotalValue := Balance.BTCAvailable accountBalance;
                exchange.AccountCurrencyInfo.Hold := Balance.BTCReserved accountBalance |}
             response in
    let response :=
      append {| exchange.AccountCurrencyInfo.CurrencyName := "XRP";
                exchange.AccountCurrencyInfo.TotalValue := Balance.XRPAvailable accountBalance;
                exchange.AccountCurrencyInfo.Hold := Balance.XRPReserved accountBalance |}
             response in
    let response :=
      append {| exchange.AccountCurrencyInfo.CurrencyName := "USD";
                exchange.AccountCurrencyInfo.TotalValue := Balance.USDAvailable accountBalance;
                exchange.AccountCurrencyInfo.Hold := Balance.USDReserved accountBalance |}
             response in
    let response :=
      append {| exchange.AccountCurrencyInfo.CurrencyName := "EUR";
                exchange.AccountCurrencyInfo.TotalValue := Balance.EURAvailable accountBalance;
                exchange.AccountCurrencyInfo.Hold := Balance.EURReserved accountBalance |}
             response in
    ((response, None), w)
  end.

End Wrapper.
End Bitstamp.

(** ** The BTCC wrapper (btcc_wrapper.go) *)

Module BTCC.
Section Wrapper.
Context {tickerStore : ticker.Store} {orderbookStore : orderbook.Store}.
Context {methods : exchange.Methods}.
Variable SetupDefaults :
  config.ExchangeConfig -> exchange.Base.t -> exchange.Base.t * option error.
Variable WebsocketInit : exchange.Base.t -> exchange.Base.t.
Variable WebsocketSetup :
  string -> bool -> string -> string -> exchange.Base.t -> exchange.Base.t * option error.
Variable btccSocketioAddress : string.
Variables btccAuthRate btccUnauthRate DefaultHTTPTimeout : Z.
Variables OrderSide OrderType ModifyOrder : Type.

(** SetDefaults sets default values for the exchange *)
Definition SetDefaults (b : exchange.Base.t) : exchange.Base.t :=
  let Name := "BTCC" in
  let b :=
  {| exchange.Base.Name := Name;
     exchange.Base.Enabled := false;
     exchange.Base.Fee := 0;
     exchange.Base.Verbose := false;
     exchange.Base.APIWithdrawPermissions := exchange.NoAPIWithdrawalMethods;
     exchange.Base.RequestCurrencyPairFormat :=
       {| config.Delimiter := ""; config.Uppercase := true |};
     exchange.Base.ConfigCurrencyPairFormat :=
       {| config.Delimiter := ""; config.Uppercase := true |};
     exchange.Base.AssetTypes := [ticker.Spot];
     exchange.Base.Features :=
       {| exchange.Features.Supports :=
            {| exchange.FeaturesSupported.AutoPairUpdates := true;
               exchange.FeaturesSupported.RESTTickerBatching := false;
               exchange.FeaturesSupported.REST := false;
               exchange.FeaturesSupported.Websocket := true |};
          exchange.Features.Enabled :=
            {| exchange.FeaturesEnabled.AutoPairUpdates := true |} |};
     exchange.Base.Requester :=
       Some (request.New Name
               (request.NewRateLimit time.Second btccAuthRate)
               (request.NewRateLimit time.Second btccUnauthRate)
               DefaultHTTPTimeout);
     exchange.Base.API := exchange.Base.API b;
     exchange.Base.TakerFee := exchange.Base.TakerFee b;
     exchange.Base.MakerFee := exchange.Base.MakerFee b;
     exchange.Base.Nonce := exchange.Base.Nonce b;
     exchange.Base.BaseCurrencies := exchange.Base.BaseCurrencies b;
     exchange.Base.AvailablePairs := exchange.Base.AvailablePairs b;
     exchange.Base.EnabledPairs := exchange.Base.EnabledPairs b;
     exchange.Base.PairsLastUpdated := exchange.Base.PairsLastUpdated b;
     exchange.Base.HTTPTimeout := exchange.Base.HTTPTimeout b;
     exchange.Base.HTTPUserAgent := exchange.Base.HTTPUserAgent b;
     exchange.Base.WebsocketURL := exchange.Base.WebsocketURL b;
     exchange.Base.Websocket := exchange.Base.Websocket b |} in
  WebsocketInit b.

(** Setup is run on startup to setup exchange with config values *)
Definition Setup (b : exchange.Base.t) (exch : config.ExchangeConfig)
    : outcome exchange.Base.t :=
  if negb (config.Enabled exch) then
    Returns (exchange.SetEnabled false b)
  else
    let '(b, err) := SetupDefaults exch b in
    match err with
    | Some err => Fatal err
    | None =>
      let '(b, err) :=
        WebsocketSetup (config.Name exch) (config.Features_Enabled_Websocket exch)
          btccSocketioAddress (config.API_Endpoints_WebsocketURL exch) b in
      match err with
      | Some err => Fatal err
      | None => Returns b
      end
    end.

(** UpdateTicker updates and returns the ticker for a currency pair *)
Definition UpdateTicker (b : exchange.Base.t) (p : pair.CurrencyPair)
    (assetType : string) (w : World) : result ticker.Price * World :=
  ((ticker.zero, Some (errors.New "REST NOT SUPPORTED")), w).

(** FetchTicker returns the ticker for a currency pair *)
Definition FetchTicker (b : exchange.Base.t) (p : pair.CurrencyPair)
    (assetType : string) (w : World) : result ticker.Price * World :=
  ((ticker.zero, Some (errors.New "REST NOT SUPPORTED")), w).

(** FetchOrderbook returns the orderbook for a currency pair *)
Definition FetchOrderbook (b : exchange.Base.t) (p : pair.CurrencyPair)
    (assetType : string) (w : World) : result orderbook.Base * World :=
  ((orderbook.zero, Some (errors.New "REST NOT SUPPORTED")), w).

(** UpdateOrderbook updates and returns the orderbook for a currency pair *)
Definition UpdateOrderbook (b : exchange.Base.t) (p : pair.CurrencyPair)
    (assetType : string) (w : World) : result orderbook.Base * World :=
  ((orderbook.zero, Some (errors.New "REST NOT SUPPORTED")), w).

(** GetExchangeAccountInfo : Retrieves balances for all enabled currencies
    for the Kraken exchange - TODO *)
Definition GetExchangeAccountInfo (b : exchange.Base.t) : result exchange.AccountInfo.t :=
  (exchange.AccountInfo.zero, Some (errors.New "REST NOT SUPPORTED")).

(** GetExchangeFundTransferHistory returns funding history, deposits and
    withdrawals *)
Definition GetExchangeFundTransferHistory (b : exchange.Base.t)
    : result (list exchange.FundHistory.t) :=
  ([], Some (errors.New "REST NOT SUPPORTED")).

(** GetExchangeHistory returns historic trade data since exchange opening. *)
Definition GetExchangeHistory (b : exchange.Base.t) (p : pair.CurrencyPair)
    (assetType : string) : result (list exchange.TradeHistory.t) :=
  ([], Some (errors.New "REST NOT SUPPORTED")).

(** SubmitExchangeOrder submits a new order *)
Definition SubmitExchangeOrder (b : exchange.Base.t) (p : pair.CurrencyPair)
    (side : OrderSide) (orderType : OrderType) (amount price : float64)
    (clientID : string) : result Z :=
  (0, Some (errors.New "not yet implemented")).

(** ModifyExchangeOrder will allow of changing orderbook placement and limit
    to market conversion *)
Definition ModifyExchangeOrder (b : exchange.Base.t) (orderID : Z)
    (action : ModifyOrder) : result Z :=
  (0, Some (errors.New "not yet implemented")).

(** CancelExchangeOrder cancels an order by its corresponding ID number *)
Definition CancelExchangeOrder (b : exchange.Base.t) (orderID : Z) : option error :=
  Some (errors.New "not yet implemented").

(** CancelAllExchangeOrders cancels all orders associated with a currency pair *)
Definition CancelAllExchangeOrders (b : exchange.Base.t) : option error :=
  Some (errors.New "not yet implemented").

(** GetExchangeOrderInfo returns information on a current open order *)
Definition GetExchangeOrderInfo (b : exchange.Base.t) (orderID : Z)
    : result exchange.OrderDetail.t :=
  let orderDetail := exchange.OrderDetail.zero in
  (orderDetail, Some (errors.New "not yet implemented")).

(** GetExchangeDepositAddress returns a deposit address for a specified
    currency *)
Definition GetExchangeDepositAddress (b : exchange.Base.t) (cryptocurrency : string)
    : result string :=
  ("", Some (errors.New "not yet implemented")).

(** WithdrawCryptoExchangeFunds returns a withdrawal ID when a withdrawal is
    submitted *)
Definition WithdrawCryptoExchangeFunds (b : exchange.Base.t) (address : string)
    (cryptocurrency : string) (amount : float64) : result string :=
  ("", Some (errors.New "not yet implemented")).

(** WithdrawFiatExchangeFunds returns a withdrawal ID when a withdrawal is
    submitted *)
Definition WithdrawFiatExchangeFunds (b : exchange.Base.t) (currency : string)
    (amount : float64) : result string :=
  ("", Some (errors.New "not yet implemented")).

(** WithdrawFiatExchangeFundsToInternationalBank returns a withdrawal ID when
    a withdrawal is submitted *)
Definition WithdrawFiatExchangeFundsToInternationalBank (b : exchange.Base.t)
    (currency : string) (amount : float64) : result string :=
  ("", Some (errors.New "not yet implemented")).

(** GetWebsocket returns a pointer to the exchange websocket *)
Definition GetWebsocket (b : exchange.Base.t) : result (option exchange.Websocket.t) :=
  (exchange.Base.Websocket b, None).

(** GetWithdrawCapabilities returns the types of withdrawal methods permitted
    by the exchange *)
Definition GetWithdrawCapabilities (b : exchange.Base.t) : Z :=
  exchange.GetWithdrawPermissions b.

(** What Run takes from elsewhere: [common.StringDataContains], the
    process-wide configuration of package config (its state, the two
    methods that read and write the entry of an exchange, and the
    assignment of the three currency fields of an entry), the method of
    the base that replaces a list of pairs, and the formatting of the two
    lines printed when verbose. *)
Variable StringDataContains : list string -> string -> bool.
Variable Config : Type.
Variable GetExchangeConfig : Config -> string -> config.ExchangeConfig * option error.
Variable UpdateExchangeConfig : Config -> config.ExchangeConfig -> Config * option error.
(** [exchCfg.BaseCurrencies = base; exchCfg.AvailablePairs = available;
    exchCfg.EnabledPairs = enabled] *)
Variable setCurrencies :
  string -> string -> string -> config.ExchangeConfig -> config.ExchangeConfig.
Variable UpdateCurrencies :
  list string -> bool -> bool -> exchange.Base.t -> exchange.Base.t * option error.
Variable websocketLine : string -> option exchange.Websocket.t -> string.
Variable currenciesEnabledLine : string -> nat -> list string -> string.

(** Run implements the BTCC wrapper *)
Definition Run (b : exchange.Base.t) (cfg : Config) (w : World)
    : (exchange.Base.t * Config) * World :=
  let w :=
    if exchange.Base.Verbose b then
      let w :=
        log_Printf (websocketLine (exchange.GetName b) (exchange.Base.Websocket b)) w in
      log_Printf (currenciesEnabledLine (exchange.GetName b)
                    (length (exchange.Base.EnabledPairs b))
                    (exchange.Base.EnabledPairs b)) w
    else w in
  if StringDataContains (exchange.Base.EnabledPairs b) "CNY"
     || StringDataContains (exchange.Base.AvailablePairs b) "CNY"
     || StringDataContains (exchange.Base.BaseCurrencies b) "CNY"
  then
    let w :=
      log_Printf ("WARNING: BTCC only supports BTCUSD now, upgrading available, "
                  +:+ "enabled and base currencies to BTCUSD/USD") w in
    let pairs := ["BTCUSD"] in
    let '(exchCfg, err) := GetExchangeConfig cfg (exchange.Base.Name b) in
    match err with
    | Some err =>
      ((b, cfg),
       log_Printf (exchange.Base.Name b +:+ " failed to get exchange config. "
                   +:+ errors.Error err +:+ newline) w)
    | None =>
      let exchCfg := setCurrencies "USD" (nth 0 pairs "") (nth 0 pairs "") exchCfg in
      let b := exchange.Base.set_BaseCurrencies ["USD"] b in
      let '(b, err) := UpdateCurrencies pairs false true b in
      let w :=
        match err with
        | Some err =>
          log_Printf (exchange.Base.Name b +:+ " failed to update available currencies. "
                      +:+ errors.Error err +:+ newline) w
        | None => w
        end in
      let '(b, err) := UpdateCurrencies pairs true true b in
      let w :=
        match err with
        | Some err =>
          log_Printf (exchange.Base.Name b +:+ " failed to update enabled currencies. "
                      +:+ errors.Error err +:+ newline) w
        | None => w
        end in
      let '(cfg, err) := UpdateExchangeConfig cfg exchCfg in
      match err with
      | Some err =>
        ((b, cfg),
         log_Printf (exchange.Base.Name b +:+ " failed to update config. "
                     +:+ errors.Error err +:+ newline) w)
      | None => ((b, cfg), w)
      end
    end
  else ((b, cfg), w).

End Wrapper.
End BTCC.

(** ** The ItBit wrapper (itbit_wrapper.go) *)

Module ItBit.

Module Ticker.
Record t : Type := {
  Bid : float64;
  Ask : float64;
  LastPrice : float64;
  High24h : float64;
  Low24h : float64;
  Volume24h : float64;
}.
End Ticker.

Module OrderbookResponse.
(** A level arrives as a sequence of strings, indexed as [data[0]] (price)
    and [data[1]] (amount). *)
Record t : Type := {
  Bids : list (list string);
  Asks : list (list string);
}.
End OrderbookResponse.

Section Wrapper.
Context {tickerStore : ticker.Store} {orderbookStore : orderbook.Store}.
Context {methods : exchange.Methods}.
(** [exchange.FormatExchangeCurrency(name, p).String()] *)
Variable FormatExchangeCurrency : string -> pair.CurrencyPair -> string.
Variable GetTicker : Venue Ticker.t.
Variable GetOrderbook : Venue OrderbookResponse.t.
(** [strconv.ParseFloat(s, 64)] of Go's library: the value and the error
    it returns. *)
Variable ParseFloat : string -> result float64.
Variable SetupDefaults :
  config.ExchangeConfig -> exchange.Base.t -> exchange.Base.t * option error.
Variable itbitAPIURL : string.
Variables itbitAuthRate itbitUnauthRate DefaultHTTPTimeout : Z.
Variables OrderSide OrderType ModifyOrder : Type.

(** SetDefaults sets the defaults for the exchange *)
Definition SetDefaults (i : exchange.Base.t) : exchange.Base.t :=
  let Name := "ITBIT" in
  {| exchange.Base.Name := Name;
     exchange.Base.Enabled := false;
     exchange.Base.MakerFee := (-0.10)%float;
     exchange.Base.TakerFee := 0.50%float;
     exchange.Base.Verbose := false;
     exchange.Base.APIWithdrawPermissions :=
       Z.lor exchange.WithdrawCryptoViaWebsiteOnly exchange.WithdrawFiatViaWebsiteOnly;
     exchange.Base.RequestCurrencyPairFormat :=
       {| config.Delimiter := ""; config.Uppercase := true |};
     exchange.Base.ConfigCurrencyPairFormat :=
       {| config.Delimiter := ""; config.Uppercase := true |};
     exchange.Base.AssetTypes := [ticker.Spot];
     exchange.Base.Features :=
       {| exchange.Features.Supports :=
            {| exchange.FeaturesSupported.AutoPairUpdates := false;
               exchange.FeaturesSupported.RESTTickerBatching := false;
               exchange.FeaturesSupported.REST := true;
               exchange.FeaturesSupported.Websocket := false |};
          exchange.Features.Enabled :=
            {| exchange.FeaturesEnabled.AutoPairUpdates := true |} |};
     exchange.Base.Requester :=
       Some (request.New Name
               (request.NewRateLimit time.Second itbitAuthRate)
               (request.NewRateLimit time.Second itbitUnauthRate)
               DefaultHTTPTimeout);
     exchange.Base.API :=
       (let api := exchange.API.set_URLDefault itbitAPIURL (exchange.Base.API i) in
        let api :=
          exchange.API.set_URL
            (exchange.Endpoints.URLDefault (exchange.API.Endpoints api)) api in
        exchange.API.set_RequiresClientID true api);
     exchange.Base.Fee := exchange.Base.Fee i;
     exchange.Base.Nonce := exchange.Base.Nonce i;
     exchange.Base.BaseCurrencies := exchange.Base.BaseCurrencies i;
     exchange.Base.AvailablePairs := exchange.Base.AvailablePairs i;
     exchange.Base.EnabledPairs := exchange.Base.EnabledPairs i;
     exchange.Base.PairsLastUpdated := exchange.Base.PairsLastUpdated i;
     exchange.Base.HTTPTimeout := exchange.Base.HTTPTimeout i;
     exchange.Base.HTTPUserAgent := exchange.Base.HTTPUserAgent i;
     exchange.Base.WebsocketURL := exchange.Base.WebsocketURL i;
     exchange.Base.Websocket := exchange.Base.Websocket i |}.

(** Setup sets the exchange parameters from exchange config *)
Definition Setup (i : exchange.Base.t) (exch : config.ExchangeConfig)
    : outcome exchange.Base.t :=
  if negb (config.Enabled exch) then
    Returns (exchange.SetEnabled false i)
  else
    let '(i, err) := SetupDefaults exch i in
    match err with
    | Some err => Fatal err
    | None => Returns i
    end.

(** UpdateTicker updates and returns the ticker for a currency pair *)
Definition UpdateTicker (i : exchange.Base.t) (p : pair.CurrencyPair)
    (assetType : string) (w : World) : result ticker.Price * World :=
  let tickerPrice := ticker.zero in
  let '(tick, err, w) :=
    rest GetTicker (exchange.Base.Name i) "ticker"
      (FormatExchangeCurrency (exchange.Base.Name i) p) w in
  match err with
  | Some err => ((tickerPrice, Some err), w)
  | None =>
    let tickerPrice :=
      {| ticker.Pair := p;
         ticker.Ask := Ticker.Ask tick;
         ticker.Bid := Ticker.Bid tick;
         ticker.Last := Ticker.LastPrice tick;
         ticker.High := Ticker.High24h tick;
         ticker.Low := Ticker.Low24h tick;
         ticker.Volume := Ticker.Volume24h tick;
         ticker.LastUpdated := ticker.LastUpdated tickerPrice |} in
    let w :=
      set_Tickers
        (ticker.ProcessTicker (Tickers w) (exchange.GetName i) p tickerPrice assetType) w in
    (ticker.GetTicker (Tickers w) (exchange.Base.Name i) p assetType, w)
  end.

(** FetchTicker returns the ticker for a currency pair *)
Definition FetchTicker (i : exchange.Base.t) (p : pair.CurrencyPair)
    (assetType : string) (w : World) : result ticker.Price * World :=
  let '(tickerNew, err) :=
    ticker.GetTicker (Tickers w) (exchange.GetName i) p assetType in
  match err with
  | Some _ => UpdateTicker i p assetType w
  | None => ((tickerNew, None), w)
  end.

(** The body of the two loops of UpdateOrderbook up to the [append]: both
    fields of the level are parsed, a parse error is printed and the value
    [ParseFloat] returned with it is used.  Indexing a level that has no
    such field panics. *)
Definition parseLevel (data : list string) (w : World) : outcome orderbook.Item * World :=
  match data !! 0%nat with
  | None => (Panics "index out of range", w)
  | Some s0 =>
    let '(price, err) := ParseFloat s0 in
    let w := match err with Some err => log_Println err w | None => w end in
    match data !! 1%nat with
    | None => (Panics "index out of range", w)
    | Some s1 =>
      let '(amount, err) := ParseFloat s1 in
      let w := match err with Some err => log_Println err w | None => w end in
      (Returns {| orderbook.Amount := amount; orderbook.Price := price |}, w)
    end
  end.

Fixpoint appendBids (orderBook : orderbook.Base) (levels : list (list string))
    (w : World) : outcome orderbook.Base * World :=
  match levels with
  | [] => (Returns orderBook, w)
  | data :: levels =>
    match parseLevel data w with
    | (Returns item, w) =>
      appendBids
        (orderbook.with_Bids (orderbook.Bids orderBook ++ [item]) orderBook) levels w
    | (Fatal err, w) => (Fatal err, w)
    | (Panics msg, w) => (Panics msg, w)
    end
  end.

Fixpoint appendAsks (orderBook : orderbook.Base) (levels : list (list string))
    (w : World) : outcome orderbook.Base * World :=
  match levels with
  | [] => (Returns orderBook, w)
  | data :: levels =>
    match parseLevel data w with
    | (Returns item, w) =>
      appendAsks
        (orderbook.with_Asks (orderbook.Asks orderBook ++ [item]) orderBook) levels w
    | (Fatal err, w) => (Fatal err, w)
    | (Panics msg, w) => (Panics msg, w)
    end
  end.

(** UpdateOrderbook updates and returns the orderbook for a currency pair *)
Definition UpdateOrderbook (i : exchange.Base.t) (p : pair.CurrencyPair)
    (assetType : string) (w : World) : outcome (result orderbook.Base) * World :=
  let orderBook := orderbook.zero in
  let '(orderbookNew, err, w) :=
    rest GetOrderbook (exchange.Base.Name i) "order_book"
      (FormatExchangeCurrency (exchange.Base.Name i) p) w in
  match err with
  | Some err => (Returns (orderBook, Some err), w)
  | None =>
    match appendBids orderBook (OrderbookResponse.Bids orderbookNew) w with
    | (Returns orderBook, w) =>
      match appendAsks orderBook (OrderbookResponse.Asks orderbookNew) w with
      | (Returns orderBook, w) =>
        let w :=
          set_Orderbooks
            (orderbook.ProcessOrderbook (Orderbooks w) (exchange.GetName i) p orderBook
               assetType) w in
        (Returns (orderbook.GetOrderbook (Orderbooks w) (exchange.Base.Name i) p assetType),
         w)
      | (Fatal err, w) => (Fatal err, w)
      | (Panics msg, w) => (Panics msg, w)
      end
    | (Fatal err, w) => (Fatal err, w)
    | (Panics msg, w) => (Panics msg, w)
    end
  end.

(** FetchOrderbook returns orderbook base on the currency pair *)
Definition FetchOrderbook (i : exchange.Base.t) (p : pair.CurrencyPair)
    (assetType : string) (w : World) : outcome (result orderbook.Base) * World :=
  let '(ob, err) :=
    orderbook.GetOrderbook (Orderbooks w) (exchange.GetName i) p assetType in
  match err with
  | Some _ => UpdateOrderbook i p assetType w
  | None => (Returns (ob, None), w)
  end.

(** GetExchangeAccountInfo retrieves balances for all enabled currencies for
    the ItBit exchange - to-do *)
Definition GetExchangeAccountInfo (i : exchange.Base.t) : result exchange.AccountInfo.t :=
  let response :=
    {| exchange.AccountInfo.ExchangeName := exchange.GetName i;
       exchange.AccountInfo.Currencies := [] |} in
  (response, None).

(** GetExchangeFundTransferHistory returns funding history, deposits and
    withdrawals *)
Definition GetExchangeFundTransferHistory (i : exchange.Base.t)
    : result (list exchange.FundHistory.t) :=
  let fundHistory := [] in
  (fundHistory, Some (errors.New "not supported on exchange")).

(** GetExchangeHistory returns historic trade data since exchange opening. *)
Definition GetExchangeHistory (i : exchange.Base.t) (p : pair.CurrencyPair)
    (assetType : string) : result (list exchange.TradeHistory.t) :=
  let resp := [] in
  (resp, Some (errors.New "trade history not yet implemented")).

(** SubmitExchangeOrder submits a new order *)
Definition SubmitExchangeOrder (i : exchange.Base.t) (p : pair.CurrencyPair)
    (side : OrderSide) (orderType : OrderType) (amount price : float64)
    (clientID : string) : result Z :=
  (0, Some (errors.New "not yet implemented")).

(** ModifyExchangeOrder will allow of changing orderbook placement and limit
    to market conversion *)
Definition ModifyExchangeOrder (i : exchange.Base.t) (orderID : Z)
    (action : ModifyOrder) : result Z :=
  (0, Some (errors.New "not yet implemented")).

(** CancelExchangeOrder cancels an order by its corresponding ID number *)
Definition CancelExchangeOrder (i : exchange.Base.t) (orderID : Z) : option error :=
  Some (errors.New "not yet implemented").

(** CancelAllExchangeOrders cancels all orders associated with a currency pair *)
Definition CancelAllExchangeOrders (i : exchange.Base.t) : option error :=
  Some (errors.New "not yet implemented").

(** GetExchangeOrderInfo returns information on a current open order *)
Definition GetExchangeOrderInfo (i : exchange.Base.t) (orderID : Z)
    : result exchange.OrderDetail.t :=
  let orderDetail := exchange.OrderDetail.zero in
  (orderDetail, Some (errors.New "not yet implemented")).

(** GetExchangeDepositAddress returns a deposit address for a specified
    currency *)
Definition GetExchangeDepositAddress (i : exchange.Base.t) (cryptocurrency : string)
    : result string :=
  ("", Some (errors.New "not yet implemented")).

(** WithdrawCryptoExchangeFunds returns a withdrawal ID when a withdrawal is
    submitted *)
Definition WithdrawCryptoExchangeFunds (i : exchange.Base.t) (address : string)
    (cryptocurrency : string) (amount : float64) : result string :=
  ("", Some (errors.New "not yet implemented")).

(** WithdrawFiatExchangeFunds returns a withdrawal ID when a withdrawal is
    submitted *)
Definition WithdrawFiatExchangeFunds (i : exchange.Base.t) (currency : string)
    (amount : float64) : result string :=
  ("", Some (errors.New "not yet implemented")).

(** WithdrawFiatExchangeFundsToInternationalBank returns a withdrawal ID when
    a withdrawal is submitted *)
Definition WithdrawFiatExchangeFundsToInternationalBank (i : exchange.Base.t)
    (currency : string) (amount : float64) : result string :=
  ("", Some (errors.New "not yet implemented")).

(** GetWebsocket returns a pointer to the exchange websocket *)
Definition GetWebsocket (i : exchange.Base.t) : result (option exchange.Websocket.t) :=
  (None, Some (errors.New "not yet implemented")).

(** GetWithdrawCapabilities returns the types of withdrawal methods permitted
    by the exchange *)
Definition GetWithdrawCapabilities (i : exchange.Base.t) : Z :=
  exchange.GetWithdrawPermissions i.

(** The formatting of the line "name n currencies enabled: pairs". *)
Variable currenciesEnabledLine : string -> nat -> list string -> string.

(** Run implements the ItBit wrapper *)
Definition Run (i : exchange.Base.t) (w : World) : World :=
  if exchange.Base.Verbose i then
    log_Printf (currenciesEnabledLine (exchange.GetName i)
                  (length (exchange.Base.EnabledPairs i))
                  (exchange.Base.EnabledPairs i)) w
  else w.

End Wrapper.
End ItBit.

(** ** The rate limiter of the request dispatcher *)

Module dispatcher.

(** Modelled from the spec: the state of one rate limiter (spec 2: a
    token-refill counter bound to a time window and a maximum call count).
    The limiter is part of package request, which is not among the
    sources; the wrappers only configure it, with
    [request.NewRateLimit(window, max)].  Time is an instant in
    nanoseconds, as [time.Duration] counts them. *)
Record Limiter : Type := {
  WindowStart : option Z;     (* start of the current window, once a call was admitted *)
  Used : Z;                   (* calls admitted in the current window *)
}.
Definition idle : Limiter := {| WindowStart := None; Used := 0 |}.

(** Modelled from the spec: admission of spec 4.1 for one class.  A
    request made at [now] is admitted at the returned instant: at once
    while the
    current window has a slot left, or when that window has rolled over;
    otherwise the caller waits for the window to roll over, and is the
    first call of the next window. *)
Definition admit_call (limit : request.RateLimit) (now : Z) (l : Limiter) : Z * Limiter :=
  match WindowStart l with
  | None => (now, {| WindowStart := Some now; Used := 1 |})
  | Some start =>
    if start + request.Duration limit <=? now then
      (now, {| WindowStart := Some now; Used := 1 |})
    else if Used l <? request.Rate limit then
      (now, {| WindowStart := Some start; Used := Used l + 1 |})
    else
      (start + request.Duration limit,
       {| WindowStart := Some (start + request.Duration limit); Used := 1 |})
  end.

Inductive Admission : Type :=
| Acquired (instant : Z)
| Timeout.

(** Modelled from the spec: [admit] with the optional deadline of spec
    4.1: a call that would be admitted after the deadline fails with
    Timeout and takes no slot. *)
Definition admit_by (limit : request.RateLimit) (now : Z) (deadline : option Z)
    (l : Limiter) : Admission * Limiter :=
  let '(instant, l') := admit_call limit now l in
  match deadline with
  | Some d => if d <? instant then (Timeout, l) else (Acquired instant, l')
  | None => (Acquired instant, l')
  end.

(** Modelled from the spec: one caller issuing requests back-to-back: a
    request is made at its arrival time or, if later, as soon as the
    previous one was admitted.  The trace lists, for every request, the
    instant it was admitted at and the start of the window it was counted
    in. *)
Fixpoint serve (limit : request.RateLimit) (arrivals : list Z) (clock : Z)
    (l : Limiter) : list (Z * Z) :=
  match arrivals with
  | [] => []
  | arrival :: arrivals =>
    let now := Z.max arrival clock in
    let '(instant, l') := admit_call limit now l in
    (instant, default instant (WindowStart l')) :: serve limit arrivals instant l'
  end.

(** The number of calls of a trace counted in the window starting at [s]. *)
Definition admitted_in (s : Z) (trace : list (Z * Z)) : nat :=
  count_occ Z.eq_dec trace.*2 s.

(** The invariant of a limiter at its caller's clock, and the slots of
    the window starting at [s] it can still give out. *)
Definition consistent (limit : request.RateLimit) (clock : Z) (l : Limiter) : Prop :=
  match WindowStart l with
  | None => True
  | Some start => start <= clock /\ 1 <= Used l <= request.Rate limit
  end.
Definition slots_left (limit : request.RateLimit) (s : Z) (l : Limiter) : Z :=
  match WindowStart l with
  | None => request.Rate limit
  | Some start =>
    if s <? start then 0
    else if s =? start then request.Rate limit - Used l
    else request.Rate limit
  end.

End dispatcher.

(** The limit a wrapper configured for its unauthenticated class. *)
Definition unauth_limit (b : exchange.Base.t) : option request.RateLimit :=
  request.UnauthLimit <$> exchange.Base.Requester b.

(** ** Vocabulary of the statements *)

Section Vocabulary.
Context {tickerStore : ticker.Store} {orderbookStore : orderbook.Store}.

(** A call that always returns. *)
Definition returning {A : Type} (f : World -> A * World) (w : World)
    : outcome A * World :=
  let '(a, w) := f w in (Returns a, w).

(** Reading each store at a key. *)
Definition readTicker (exchangeName : string) (p : pair.CurrencyPair)
    (assetType : string) (w : World) : result ticker.Price :=
  ticker.GetTicker (Tickers w) exchangeName p assetType.
Definition readOrderbook (exchangeName : string) (p : pair.CurrencyPair)
    (assetType : string) (w : World) : result orderbook.Base :=
  orderbook.GetOrderbook (Orderbooks w) exchangeName p assetType.

(** The snapshot each wrapper builds from a venue's answer. *)
Definition gemini_price (p : pair.CurrencyPair) (tick : Gemini.Ticker.t) : ticker.Price :=
  {| ticker.Pair := p;
     ticker.Last := Gemini.Ticker.Last tick;
     ticker.High := 0;
     ticker.Low := 0;
     ticker.Bid := Gemini.Ticker.Bid tick;
     ticker.Ask := Gemini.Ticker.Ask tick;
     ticker.Volume := Gemini.TickerVolume.USD (Gemini.Ticker.Volume tick);
     ticker.LastUpdated := 0 |}.
Definition bitstamp_price (p : pair.CurrencyPair) (tick : Bitstamp.Ticker.t) : ticker.Price :=
  {| ticker.Pair := p;
     ticker.Last := Bitstamp.Ticker.Last tick;
     ticker.High := Bitstamp.Ticker.High tick;
     ticker.Low := Bitstamp.Ticker.Low tick;
     ticker.Bid := Bitstamp.Ticker.Bid tick;
     ticker.Ask := Bitstamp.Ticker.Ask tick;
     ticker.Volume := Bitstamp.Ticker.Volume tick;
     ticker.LastUpdated := 0 |}.
Definition itbit_price (p : pair.CurrencyPair) (tick : ItBit.Ticker.t) : ticker.Price :=
  {| ticker.Pair := p;
     ticker.Last := ItBit.Ticker.LastPrice tick;
     ticker.High := ItBit.Ticker.High24h tick;
     ticker.Low := ItBit.Ticker.Low24h tick;
     ticker.Bid := ItBit.Ticker.Bid tick;
     ticker.Ask := ItBit.Ticker.Ask tick;
     ticker.Volume := ItBit.Ticker.Volume24h tick;
     ticker.LastUpdated := 0 |}.

(** An order book with the given levels and nothing else set. *)
Definition book (bids asks : list orderbook.Item) : orderbook.Base :=
  {| orderbook.Pair := pair.zero; orderbook.Bids := bids; orderbook.Asks := asks;
     orderbook.AssetType := ""; orderbook.LastUpdated := 0 |}.

Definition gemini_item (level : Gemini.OrderbookEntry.t) : orderbook.Item :=
  {| orderbook.Amount := Gemini.OrderbookEntry.Amount level;
     orderbook.Price := Gemini.OrderbookEntry.Price level |}.
Definition gemini_book (ob : Gemini.Orderbook.t) : orderbook.Base :=
  book (map gemini_item (Gemini.Orderbook.Bids ob))
       (map gemini_item (Gemini.Orderbook.Asks ob)).

Definition bitstamp_item (level : Bitstamp.OrderbookBase.t) : orderbook.Item :=
  {| orderbook.Amount := Bitstamp.OrderbookBase.Amount level;
     orderbook.Price := Bitstamp.OrderbookBase.Price level |}.
Definition bitstamp_book (ob : Bitstamp.Orderbook.t) : orderbook.Base :=
  book (map bitstamp_item (Bitstamp.Orderbook.Bids ob))
       (map bitstamp_item (Bitstamp.Orderbook.Asks ob)).

(** ItBit: a level has a price and an amount field; each stored field is
    the value [ParseFloat] returns for its string, error or not. *)
Definition has_both_fields (data : list string) : Prop := (2 <= length data)%nat.
Definition itbit_item (ParseFloat : string -> result float64) (data : list string)
    : orderbook.Item :=
  {| orderbook.Amount := (ParseFloat (nth 1 data "")).1;
     orderbook.Price := (ParseFloat (nth 0 data "")).1 |}.
Definition itbit_book (ParseFloat : string -> result float64)
    (ob : ItBit.OrderbookResponse.t) : orderbook.Base :=
  book (map (itbit_item ParseFloat) (ItBit.OrderbookResponse.Bids ob))
       (map (itbit_item ParseFloat) (ItBit.OrderbookResponse.Asks ob)).
Definition well_shaped (ob : ItBit.OrderbookResponse.t) : Prop :=
  Forall has_both_fields (ItBit.OrderbookResponse.Bids ob)
  /\ Forall has_both_fields (ItBit.OrderbookResponse.Asks ob).
(** The parse errors of one level, in the order they are printed. *)
Definition itbit_errors (ParseFloat : string -> result float64) (data : list string)
    : list error :=
  option_list (ParseFloat (nth 0 data "")).2 ++ option_list (ParseFloat (nth 1 data "")).2.

(** The world after [log.Println] of each of a list of errors in turn. *)
Definition logging (errs : list error) (w : World) : World :=
  {| Tickers := Tickers w; Orderbooks := Orderbooks w; Sent := Sent w;
     Logged := Logged w ++ errs |}.

Section Contracts.
Context {V Snap : Type}.
(** Reading the store at the key, the fetch and the update operation on
    that key, the venue's next answer, the answers the wrapper can use and
    the snapshot it builds from one. *)
Variable read : World -> result Snap.
Variables fetch update : World -> outcome (result Snap) * World.
Variable answer : World -> result V.
Variable usable : V -> Prop.
Variable conv : V -> Snap.

(** Get-or-refresh: a hit is returned as read and nothing is sent or
    written; a miss runs the update, which on a usable answer sends one
    request, stores the snapshot and returns it, after which a fetch is a
    hit on that snapshot. *)
Definition get_or_refresh : Prop :=
  forall w : World,
    (forall s, read w = (s, None) -> fetch w = (Returns (s, None), w))
    /\ (forall s e, read w = (s, Some e) -> fetch w = update w)
    /\ (forall v, answer w = (v, None) -> usable v ->
          exists w',
            update w = (Returns (conv v, None), w')
            /\ length (Sent w') = S (length (Sent w))
            /\ read w' = (conv v, None)
            /\ fetch w' = (Returns (conv v, None), w')).

(** A failed upstream fetch is returned with the zero snapshot and leaves
    both stores as they were. *)
Definition failure_leaves_stores (zero : Snap) : Prop :=
  forall (w : World) (v : V) (e : error),
    answer w = (v, Some e) ->
    exists w',
      update w = (Returns (zero, Some e), w')
      /\ Tickers w' = Tickers w
      /\ Orderbooks w' = Orderbooks w.
End Contracts.

End Vocabulary.

(** ** Sample data

    A BTC/USD pair, the four wrappers after [SetDefaults], an empty world,
    and venues that answer with a fixed quote, a fixed book, or an error. *)

(** The key of both stores: exchange name, the pair's two symbols, asset
    type (spec 3: TickerKey, OrderBookKey). *)
Definition Key : Type := (string * (string * string) * string)%type.
Definition key_of (exchangeName : string) (p : pair.CurrencyPair)
    (assetType : string) : Key :=
  (exchangeName, (pair.FirstCurrency p, pair.SecondCurrency p), assetType).

(** Modelled from the spec: the two stores as finite maps from keys to
    snapshots, with [get] and [put] as spec 4.2 words them: a get returns
    the stored snapshot or NotFound, a put overwrites the entry. *)
#[export] Instance map_tickers : ticker.Store :=
  {| ticker.Registry := gmap Key ticker.Price;
     ticker.GetTicker tickers exchangeName p tickerType :=
       match tickers !! key_of exchangeName p tickerType with
       | Some price => (price, None)
       | None => (ticker.zero, Some (errors.New "ticker not found"))
       end;
     ticker.ProcessTicker tickers exchangeName p tickerNew tickerType :=
       <[key_of exchangeName p tickerType := tickerNew]> tickers |}.
#[export] Instance map_orderbooks : orderbook.Store :=
  {| orderbook.Registry := gmap Key orderbook.Base;
     orderbook.GetOrderbook orderbooks exchangeName p orderbookType :=
       match orderbooks !! key_of exchangeName p orderbookType with
       | Some ob => (ob, None)
       | None => (orderbook.zero, Some (errors.New "orderbook not found"))
       end;
     orderbook.ProcessOrderbook orderbooks exchangeName p orderbookNew orderbookType :=
       <[key_of exchangeName p orderbookType := orderbookNew]> orderbooks |}.
(** Modelled from the spec: the accessors of the base as field reads and
    writes. *)
#[export] Instance field_methods : exchange.Methods :=
  {| exchange.GetName e := exchange.Base.Name e;
     exchange.SetEnabled enabled e := exchange.Base.set_Enabled enabled e;
     exchange.GetWithdrawPermissions e := exchange.Base.APIWithdrawPermissions e |}.

Definition sample_pair : pair.CurrencyPair :=
  {| pair.Delimiter := "-"; pair.FirstCurrency := "BTC"; pair.SecondCurrency := "USD" |}.
Definition sample_pairString (p : pair.CurrencyPair) : string :=
  pair.FirstCurrency p +:+ pair.SecondCurrency p.
Definition sample_FormatExchangeCurrency (name : string) (p : pair.CurrencyPair) : string :=
  pair.FirstCurrency p +:+ pair.SecondCurrency p.

Definition zero_base : exchange.Base.t :=
  {| exchange.Base.Name := "";
     exchange.Base.Enabled := false;
     exchange.Base.Verbose := false;
     exchange.Base.APIWithdrawPermissions := 0;
     exchange.Base.API :=
       {| exchange.API.AuthenticatedSupport := false;
          exchange.API.PEMKeySupport := false;
          exchange.API.Endpoints :=
            {| exchange.Endpoints.URL := ""; exchange.Endpoints.URLDefault := "";
               exchange.Endpoints.URLSecondary := "";
               exchange.Endpoints.URLSecondaryDefault := "";
               exchange.Endpoints.WebsocketURL := "" |};
          exchange.API.Credentials :=
            {| exchange.Credentials.Key := ""; exchange.Credentials.Secret := "";
               exchange.Credentials.ClientID := ""; exchange.Credentials.PEMKey := "" |};
          exchange.API.CredentialsValidator :=
            {| exchange.CredentialsValidator.RequiresPEM := false;
               exchange.CredentialsValidator.RequiresClientID := false;
               exchange.CredentialsValidator.RequiresBase64DecodeSecret := false |} |};
     exchange.Base.Nonce := 0;
     exchange.Base.TakerFee := 0;
     exchange.Base.MakerFee := 0;
     exchange.Base.Fee := 0;
     exchange.Base.BaseCurrencies := [];
     exchange.Base.AvailablePairs := [];
     exchange.Base.EnabledPairs := [];
     exchange.Base.AssetTypes := [];
     exchange.Base.PairsLastUpdated := 0;
     exchange.Base.Features :=
       {| exchange.Features.Supports :=
            {| exchange.FeaturesSupported.REST := false;
               exchange.FeaturesSupported.Websocket := false;
               exchange.FeaturesSupported.AutoPairUpdates := false;
               exchange.FeaturesSupported.RESTTickerBatching := false |};
          exchange.Features.Enabled :=
            {| exchange.FeaturesEnabled.AutoPairUpdates := false |} |};
     exchange.Base.HTTPTimeout := 0;
     exchange.Base.HTTPUserAgent := "";
     exchange.Base.WebsocketURL := "";
     exchange.Base.RequestCurrencyPairFormat :=
       {| config.Uppercase := false; config.Delimiter := "" |};
     exchange.Base.ConfigCurrencyPairFormat :=
       {| config.Uppercase := false; config.Delimiter := "" |};
     exchange.Base.Websocket := None;
     exchange.Base.Requester := None |}.

Definition sample_gemini : exchange.Base.t :=
  Gemini.SetDefaults "https://api.gemini.com" 600 120 (15 * time.Second) zero_base.
Definition sample_bitstamp : exchange.Base.t :=
  Bitstamp.SetDefaults (fun b => b) "https://www.bitstamp.net/api" 8000 8000
    (15 * time.Second) zero_base.
Definition sample_btcc : exchange.Base.t :=
  BTCC.SetDefaults (fun b => b) 0 0 (15 * time.Second) zero_base.
Definition sample_itbit : exchange.Base.t :=
  ItBit.SetDefaults "https://api.itbit.com/v1" 2 2 (15 * time.Second) zero_base.

Definition empty_world : World :=
  {| Tickers := (∅ : gmap Key ticker.Price);
     Orderbooks := (∅ : gmap Key orderbook.Base);
     Sent := []; Logged := [] |}.

Definition gemini_quote : Gemini.Ticker.t :=
  {| Gemini.Ticker.Ask := 101; Gemini.Ticker.Bid := 100; Gemini.Ticker.Last := 100;
     Gemini.Ticker.Volume := {| Gemini.TickerVolume.USD := 5 |} |}.
Definition gemini_quotes : Venue Gemini.Ticker.t := fun _ _ => (gemini_quote, None).

(** Not sorted and crossed: the second bid is above the first, and above
    the lowest ask. *)
Definition gemini_levels : Gemini.Orderbook.t :=
  {| Gemini.Orderbook.Bids :=
       [ {| Gemini.OrderbookEntry.Price := 100; Gemini.OrderbookEntry.Amount := 1 |};
         {| Gemini.OrderbookEntry.Price := 103; Gemini.OrderbookEntry.Amount := 2 |} ];
     Gemini.Orderbook.Asks :=
       [ {| Gemini.OrderbookEntry.Price := 102; Gemini.OrderbookEntry.Amount := 1 |};
         {| Gemini.OrderbookEntry.Price := 101; Gemini.OrderbookEntry.Amount := 2 |} ] |}.
Definition gemini_books : Venue Gemini.Orderbook.t := fun _ _ => (gemini_levels, None).

Definition bitstamp_quote : Bitstamp.Ticker.t :=
  {| Bitstamp.Ticker.Last := 100; Bitstamp.Ticker.High := 110; Bitstamp.Ticker.Low := 90;
     Bitstamp.Ticker.Volume := 5; Bitstamp.Ticker.Bid := 100; Bitstamp.Ticker.Ask := 101 |}.
Definition bitstamp_quotes : Venue Bitstamp.Ticker.t := fun _ _ => (bitstamp_quote, None).
Definition bitstamp_levels : Bitstamp.Orderbook.t :=
  {| Bitstamp.Orderbook.Bids :=
       [ {| Bitstamp.OrderbookBase.Price := 100; Bitstamp.OrderbookBase.Amount := 1 |};
         {| Bitstamp.OrderbookBase.Price := 99; Bitstamp.OrderbookBase.Amount := 2 |} ];
     Bitstamp.Orderbook.Asks :=
       [ {| Bitstamp.OrderbookBase.Price := 101; Bitstamp.OrderbookBase.Amount := 1 |};
         {| Bitstamp.OrderbookBase.Price := 102; Bitstamp.OrderbookBase.Amount := 2 |} ] |}.
Definition bitstamp_books : Venue Bitstamp.Orderbook.t := fun _ _ => (bitstamp_levels, None).
Definition itbit_quote : ItBit.Ticker.t :=
  {| ItBit.Ticker.Bid := 100; ItBit.Ticker.Ask := 101; ItBit.Ticker.LastPrice := 100;
     ItBit.Ticker.High24h := 110; ItBit.Ticker.Low24h := 90; ItBit.Ticker.Volume24h := 5 |}.
Definition itbit_quotes : Venue ItBit.Ticker.t := fun _ _ => (itbit_quote, None).

Definition connection_refused : error := errors.New "connection refused".
(** A venue that is down for the first request and answers afterwards. *)
Definition gemini_down_once : Venue Gemini.Ticker.t :=
  fun n _ =>
    match n with
    | O => ({| Gemini.Ticker.Ask := 0; Gemini.Ticker.Bid := 0; Gemini.Ticker.Last := 0;
               Gemini.Ticker.Volume := {| Gemini.TickerVolume.USD := 0 |} |},
            Some connection_refused)
    | _ => (gemini_quote, None)
    end.

(** The values Go's [strconv.ParseFloat(s, 64)] returns on the strings of
    the examples: a decimal numeral parses; a string that is not a numeral
    gives 0 and a syntax error; a numeral beyond the largest binary64
    value gives an infinity and a range error.  Every other string is
    outside the samples and is read as malformed. *)
Definition ErrSyntax : error := errors.New "invalid syntax".
Definition ErrRange : error := errors.New "value out of range".
Definition sample_ParseFloat (s : string) : result float64 :=
  if bool_decide (s = "1") then (1%float, None)
  else if bool_decide (s = "2") then (2%float, None)
  else if bool_decide (s = "99") then (99%float, None)
  else if bool_decide (s = "100") then (100%float, None)
  else if bool_decide (s = "1e400") then (infinity, Some ErrRange)
  else (0%float, Some ErrSyntax).

Definition itbit_levels : ItBit.OrderbookResponse.t :=
  {| ItBit.OrderbookResponse.Bids := [ ["100"; "1"]; ["abc"; "2"]; ["99"; "2"] ];
     ItBit.OrderbookResponse.Asks := [ ["1e400"; "1"] ] |}.
Definition itbit_books : Venue ItBit.OrderbookResponse.t := fun _ _ => (itbit_levels, None).

Definition sample_SetupDefaults (exch : config.ExchangeConfig) (b : exchange.Base.t)
    : exchange.Base.t * option error :=
  (exchange.Base.set_Enabled true b, None).
Definition sample_WebsocketSetup (name : string) (enabled : bool)
    (defaultURL runningURL : string) (b : exchange.Base.t)
    : exchange.Base.t * option error :=
  (b, None).
(** A configuration that disables the exchange while asking for the
    sandbox. *)
Definition sample_disabled : config.ExchangeConfig :=
  {| config.Name := "Gemini"; config.Enabled := false; config.UseSandbox := true;
     config.Features_Enabled_Websocket := true;
     config.API_Endpoints_WebsocketURL := "wss://sandbox" |}.

(** Every field of the exchange base other than [Enabled] is the same. *)
Definition unchanged_but_Enabled (b b' : exchange.Base.t) : Prop :=
  exchange.Base.Name b' = exchange.Base.Name b
  /\ exchange.Base.Verbose b' = exchange.Base.Verbose b
  /\ exchange.Base.APIWithdrawPermissions b' = exchange.Base.APIWithdrawPermissions b
  /\ exchange.Base.API b' = exchange.Base.API b
  /\ exchange.Base.Nonce b' = exchange.Base.Nonce b
  /\ exchange.Base.TakerFee b' = exchange.Base.TakerFee b
  /\ exchange.Base.MakerFee b' = exchange.Base.MakerFee b
  /\ exchange.Base.Fee b' = exchange.Base.Fee b
  /\ exchange.Base.BaseCurrencies b' = exchange.Base.BaseCurrencies b
  /\ exchange.Base.AvailablePairs b' = exchange.Base.AvailablePairs b
  /\ exchange.Base.EnabledPairs b' = exchange.Base.EnabledPairs b
  /\ exchange.Base.AssetTypes b' = exchange.Base.AssetTypes b
  /\ exchange.Base.PairsLastUpdated b' = exchange.Base.PairsLastUpdated b
  /\ exchange.Base.Features b' = exchange.Base.Features b
  /\ exchange.Base.HTTPTimeout b' = exchange.Base.HTTPTimeout b
  /\ exchange.Base.HTTPUserAgent b' = exchange.Base.HTTPUserAgent b
  /\ exchange.Base.WebsocketURL b' = exchange.Base.WebsocketURL b
  /\ exchange.Base.RequestCurrencyPairFormat b' = exchange.Base.RequestCurrencyPairFormat b
  /\ exchange.Base.ConfigCurrencyPairFormat b' = exchange.Base.ConfigCurrencyPairFormat b
  /\ exchange.Base.Websocket b' = exchange.Base.Websocket b
  /\ exchange.Base.Requester b' = exchange.Base.Requester b.

(** ** Vocabulary and samples of the further properties *)

Section Retry.
Context {tickerStore : ticker.Store} {orderbookStore : orderbook.Store}.
Context {V Snap : Type}.
Variable read : World -> result Snap.
Variables fetch update : World -> outcome (result Snap) * World.
Variable answer : World -> result V.

(** A failed refresh is not cached: a fetch that misses and whose request
    fails returns the zero snapshot with the venue's error, the key is a
    miss afterwards as it was before, and the next fetch runs the update
    again. *)
Definition failure_not_cached (zero : Snap) : Prop :=
  forall (w : World) (s : Snap) (e : error) (v : V) (e1 : error),
    read w = (s, Some e) ->
    answer w = (v, Some e1) ->
    exists w1 : World,
      fetch w = (Returns (zero, Some e1), w1)
      /\ read w1 = (s, Some e)
      /\ fetch w1 = update w1.
End Retry.

(** An ItBit answer whose bid is complete and whose ask lacks the amount. *)
Definition itbit_short_levels : ItBit.OrderbookResponse.t :=
  {| ItBit.OrderbookResponse.Bids := [ ["100"; "1"] ];
     ItBit.OrderbookResponse.Asks := [ ["100"] ] |}.
Definition itbit_short_books : Venue ItBit.OrderbookResponse.t :=
  fun _ _ => (itbit_short_levels, None).

(** The entry Gemini's account information holds for one balance: the
    amount as total value, the available part as hold. *)
Definition gemini_currency (b : Gemini.Balance.t) : exchange.AccountCurrencyInfo.t :=
  {| exchange.AccountCurrencyInfo.CurrencyName := Gemini.Balance.Currency b;
     exchange.AccountCurrencyInfo.TotalValue := Gemini.Balance.Amount b;
     exchange.AccountCurrencyInfo.Hold := Gemini.Balance.Available b |}.

(** Bitstamp's Run: the pairs it keeps, and what it makes of a name. *)
Definition is_trading (x : Bitstamp.TradingPair.t) : bool :=
  String.eqb (Bitstamp.TradingPair.Trading x) "Enabled".
Definition splits_in_two (Split : string -> string -> list string)
    (x : Bitstamp.TradingPair.t) : Prop :=
  (2 <= length (Split (Bitstamp.TradingPair.Name x) "/"))%nat.
Definition joined_name (Split : string -> string -> list string)
    (x : Bitstamp.TradingPair.t) : string :=
  nth 0 (Split (Bitstamp.TradingPair.Name x) "/") ""
  +:+ nth 1 (Split (Bitstamp.TradingPair.Name x) "/") "".

Section Touched.
Context {tickerStore : ticker.Store} {orderbookStore : orderbook.Store}.
(** Nothing but printing happened between two worlds. *)
Definition only_printed (w w' : World) : Prop :=
  Tickers w' = Tickers w /\ Orderbooks w' = Orderbooks w /\ Sent w' = Sent w.
(** One request was sent between two worlds, and neither store written. *)
Definition only_asked (w w' : World) : Prop :=
  Tickers w' = Tickers w /\ Orderbooks w' = Orderbooks w
  /\ length (Sent w') = S (length (Sent w)).
End Touched.

(** BTCC's Run: whether one of the three currency lists of the base still
    mentions CNY. *)
Definition mentions_CNY (StringDataContains : list string -> string -> bool)
    (b : exchange.Base.t) : bool :=
  StringDataContains (exchange.Base.EnabledPairs b) "CNY"
  || StringDataContains (exchange.Base.AvailablePairs b) "CNY"
  || StringDataContains (exchange.Base.BaseCurrencies b) "CNY".

(** Samples: balances, trading pairs of which one is not trading and has
    no slash in its name, and a list in which a trading pair has none. *)
Definition gemini_balances : list Gemini.Balance.t :=
  [ {| Gemini.Balance.Currency := "BTC"; Gemini.Balance.Amount := 2;
       Gemini.Balance.Available := 1 |};
    {| Gemini.Balance.Currency := "USD"; Gemini.Balance.Amount := 100;
       Gemini.Balance.Available := 100 |} ].
Definition gemini_account : Venue (list Gemini.Balance.t) :=
  fun _ _ => (gemini_balances, None).
Definition bitstamp_balance : Bitstamp.Balance.t :=
  {| Bitstamp.Balance.BTCReserved := 1; Bitstamp.Balance.BTCAvailable := 2;
     Bitstamp.Balance.XRPReserved := 0; Bitstamp.Balance.XRPAvailable := 0;
     Bitstamp.Balance.USDReserved := 5; Bitstamp.Balance.USDAvailable := 100;
     Bitstamp.Balance.EURReserved := 0; Bitstamp.Balance.EURAvailable := 99 |}.
Definition bitstamp_account : Venue Bitstamp.Balance.t :=
  fun _ _ => (bitstamp_balance, None).
Definition bitstamp_pairs : list Bitstamp.TradingPair.t :=
  [ {| Bitstamp.TradingPair.Name := "BTC/USD"; Bitstamp.TradingPair.Trading := "Enabled" |};
    {| Bitstamp.TradingPair.Name := "XRPEUR"; Bitstamp.TradingPair.Trading := "Disabled" |};
    {| Bitstamp.TradingPair.Name := "ETH/EUR"; Bitstamp.TradingPair.Trading := "Enabled" |} ].
Definition bitstamp_unsplit_pairs : list Bitstamp.TradingPair.t :=
  [ {| Bitstamp.TradingPair.Name := "BTC/USD"; Bitstamp.TradingPair.Trading := "Enabled" |};
    {| Bitstamp.TradingPair.Name := "XRPEUR"; Bitstamp.TradingPair.Trading := "Enabled" |} ].

(** Go's [strings.Split] for a separator of one character, which is all
    the wrappers use: the parts between the occurrences of the separator,
    the whole string when there is none. *)
Fixpoint split_at (c : Ascii.ascii) (s part : string) : list string :=
  match s with
  | EmptyString => [part]
  | String a s =>
    if Ascii.eqb a c then part :: split_at c s ""
    else split_at c s (part +:+ String a EmptyString)
  end.
Definition sample_Split (s sep : string) : list string :=
  match sep with
  | String c EmptyString => split_at c s ""
  | _ => [s]
  end.

(** A stand-in for [UpdateCurrencies]: the list of enabled or of available
    pairs is replaced by the products. *)
Definition sample_UpdateCurrencies (products : list string) (enabled force : bool)
    (b : exchange.Base.t) : exchange.Base.t * option error :=
  ({| exchange.Base.Name := exchange.Base.Name b;
      exchange.Base.Enabled := exchange.Base.Enabled b;
      exchange.Base.Verbose := exchange.Base.Verbose b;
      exchange.Base.APIWithdrawPermissions := exchange.Base.APIWithdrawPermissions b;
      exchange.Base.API := exchange.Base.API b;
      exchange.Base.Nonce := exchange.Base.Nonce b;
      exchange.Base.TakerFee := exchange.Base.TakerFee b;
      exchange.Base.MakerFee := exchange.Base.MakerFee b;
      exchange.Base.Fee := exchange.Base.Fee b;
      exchange.Base.BaseCurrencies := exchange.Base.BaseCurrencies b;
      exchange.Base.AvailablePairs :=
        if enabled then exchange.Base.AvailablePairs b else products;
      exchange.Base.EnabledPairs :=
        if enabled then products else exchange.Base.EnabledPairs b;
      exchange.Base.AssetTypes := exchange.Base.AssetTypes b;
      exchange.Base.PairsLastUpdated := exchange.Base.PairsLastUpdated b;
      exchange.Base.Features := exchange.Base.Features b;
      exchange.Base.HTTPTimeout := exchange.Base.HTTPTimeout b;
      exchange.Base.HTTPUserAgent := exchange.Base.HTTPUserAgent b;
      exchange.Base.WebsocketURL := exchange.Base.WebsocketURL b;
      exchange.Base.RequestCurrencyPairFormat := exchange.Base.RequestCurrencyPairFormat b;
      exchange.Base.ConfigCurrencyPairFormat := exchange.Base.ConfigCurrencyPairFormat b;
      exchange.Base.Websocket := exchange.Base.Websocket b;
      exchange.Base.Requester := exchange.Base.Requester b |}, None).

(** Stand-ins for the two lines printed when verbose. *)
Definition sample_currenciesEnabledLine (name : string) (n : nat) (pairs : list string)
    : string :=
  name +:+ " currencies enabled: " +:+ String.concat " " pairs.
Definition sample_websocketLine (name : string) (ws : option exchange.Websocket.t)
    : string :=
  name +:+ " Websocket: "
  +:+ match ws with Some _ => "Enabled" | None => "Disabled" end.

(** [common.StringDataContains]: some element of the list contains the
    needle. *)
Fixpoint contains (needle s : string) : bool :=
  String.prefix needle s
  || match s with
     | EmptyString => false
     | String _ s => contains needle s
     end.
Definition sample_StringDataContains (haystack : list string) (needle : string) : bool :=
  existsb (contains needle) haystack.

(** A configuration that holds no exchange, and a BTCC base that still
    lists a CNY pair. *)
Definition ErrExchangeNotFound : error := errors.New "exchange not found".
Definition no_exchange_config (cfg : unit) (name : string)
    : config.ExchangeConfig * option error :=
  (sample_disabled, Some ErrExchangeNotFound).
Definition keep_config (cfg : unit) (exchCfg : config.ExchangeConfig)
    : unit * option error :=
  (cfg, None).
Definition keep_currencies (base available enabled : string)
    (exchCfg : config.ExchangeConfig) : config.ExchangeConfig :=
  exchCfg.
Definition btcc_with_CNY : exchange.Base.t :=
  (sample_UpdateCurrencies ["BTCCNY"] true false sample_btcc).1.

(** * Theorems *)

(** ** Capability model *)

Section CapabilityFacts.
Import exchange.

Lemma testbit_mask_of (flags : list Z) (j : Z) :
  Z.testbit (mask_of flags) j = existsb (fun f => Z.testbit f j) flags.
Proof.
  induction flags as [|f flags IH]; simpl.
  - apply Z.testbit_0_l.
  - now rewrite Z.lor_spec, IH.
Qed.

Lemma mask_of_app (l1 l2 : list Z) :
  mask_of (l1 ++ l2) = Z.lor (mask_of l1) (mask_of l2).
Proof.
  induction l1 as [|f l1 IH]; simpl; [reflexivity|].
  now rewrite IH, Z.lor_assoc.
Qed.

Lemma testbit_shiftl_1 (i j : Z) :
  0 <= i -> 0 <= j -> Z.testbit (Z.shiftl 1 i) j = bool_decide (i = j).
Proof.
  intros Hi Hj. rewrite Z.shiftl_1_l.
  destruct (decide (i = j)) as [->|Hne].
  - rewrite Z.pow2_bits_true by lia. now rewrite bool_decide_eq_true_2.
  - rewrite Z.pow2_bits_false by lia. now rewrite bool_decide_eq_false_2.
Qed.

Lemma supports_bit (mask : Z) (i : Z) :
  0 <= i -> supports mask (Z.shiftl 1 i) = Z.testbit mask i.
Proof.
  intros Hi. unfold supports.
  destruct (Z.testbit mask i) eqn:Hb.
  - apply negb_true_iff, Z.eqb_neq. intros H0.
    assert (Z.testbit (Z.land mask (Z.shiftl 1 i)) i = true) as Ht.
    { rewrite Z.land_spec, Hb, testbit_shiftl_1 by lia.
      now rewrite bool_decide_eq_true_2. }
    rewrite H0, Z.testbit_0_l in Ht. discriminate.
  - apply negb_false_iff, Z.eqb_eq, Z.bits_inj'. intros j Hj.
    rewrite Z.land_spec, Z.testbit_0_l, testbit_shiftl_1 by lia.
    case_bool_decide; subst; [now rewrite Hb | apply andb_false_r].
Qed.

(** Bit [j] of the re-encoded decoding of positions [a .. a+n-1]. *)
Lemma testbit_decode_range (mask : Z) (a n : nat) (j : Z) :
  0 <= j ->
  Z.testbit (mask_of (flat_map (decode_bit mask) (seq a n)).*1) j
  = Z.testbit mask j && bool_decide (Z.of_nat a <= j < Z.of_nat a + Z.of_nat n).
Proof.
  intros Hj. revert a. induction n as [|n IH]; intros a; simpl.
  - rewrite Z.testbit_0_l, bool_decide_eq_false_2 by lia. now rewrite andb_false_r.
  - rewrite fmap_app, mask_of_app, Z.lor_spec, IH.
    unfold decode_bit. rewrite supports_bit by lia.
    destruct (Z.testbit mask (Z.of_nat a)) eqn:Hb; simpl.
    + rewrite Z.lor_0_r, testbit_shiftl_1 by lia.
      repeat case_bool_decide; subst; rewrite ?Hb, ?andb_true_r, ?andb_false_r;
        simpl; try reflexivity; try lia; now destruct (Z.testbit mask j).
    + rewrite Z.testbit_0_l. simpl.
      repeat case_bool_decide; rewrite ?andb_true_r, ?andb_false_r;
        try reflexivity; try lia.
      assert (j = Z.of_nat a) as -> by lia. now rewrite Hb.
Qed.

Lemma encode_all_bits (mask : Z) :
  is_uint32 mask ->
  mask_of (flat_map (decode_bit mask) (seq 0 (Z.to_nat uint32_bits))).*1 = mask.
Proof.
  intros [Hlo Hhi]. apply Z.bits_inj'. intros j Hj.
  rewrite testbit_decode_range by lia.
  case_bool_decide as Hr; [apply andb_true_r|].
  rewrite andb_false_r. symmetry.
  destruct (decide (mask = 0)) as [->|Hne]; [apply Z.testbit_0_l|].
  apply Z.bits_above_log2; [lia|].
  assert (Z.log2 mask < uint32_bits) by (apply Z.log2_lt_pow2; unfold uint32_bits in *; lia).
  unfold uint32_bits in *. simpl in Hr. lia.
Qed.

Lemma decode_nonempty (mask : Z) : decode mask <> [].
Proof. unfold decode. now destruct (flat_map _ _). Qed.

(** A flag of the table is [1 << i] for one position [i < 18]. *)
Lemma Flags_bits : Flags = map (fun i => Z.shiftl 1 (Z.of_nat i)) (seq 0 18).
Proof. reflexivity. Qed.

Lemma elem_of_Flags (f : Z) :
  f ∈ Flags <-> exists i : nat, (i < 18)%nat /\ f = Z.shiftl 1 (Z.of_nat i).
Proof.
  rewrite Flags_bits, list_elem_of_fmap. split.
  - intros (i & -> & Hi). apply elem_of_seq in Hi. exists i. split; [lia|reflexivity].
  - intros (i & Hi & ->). exists i. split; [reflexivity|]. apply elem_of_seq. lia.
Qed.

(** Within a collection of flags, a flag is present exactly when its bit
    is set in the collection's mask. *)
Lemma flag_in_mask (s : list Z) (i : nat) :
  s ⊆ Flags ->
  Z.shiftl 1 (Z.of_nat i) ∈ s <-> Z.testbit (mask_of s) (Z.of_nat i) = true.
Proof.
  intros Hs. rewrite testbit_mask_of, existsb_exists. split.
  - intros Hin. exists (Z.shiftl 1 (Z.of_nat i)). split.
    + now apply list_elem_of_In.
    + rewrite testbit_shiftl_1 by lia. now apply bool_decide_eq_true_2.
  - intros (f & Hin & Hbit). apply list_elem_of_In in Hin.
    destruct (proj1 (elem_of_Flags f) (Hs f Hin)) as (k & _ & ->).
    rewrite testbit_shiftl_1 in Hbit by lia.
    apply bool_decide_eq_true_1 in Hbit.
    now replace i with k by lia.
Qed.

Lemma mask_of_inj (s t : list Z) :
  s ⊆ Flags -> t ⊆ Flags -> mask_of s = mask_of t -> forall f, f ∈ s -> f ∈ t.
Proof.
  intros Hs Ht Heq f Hf.
  destruct (proj1 (elem_of_Flags f) (Hs f Hf)) as (i & _ & ->).
  apply (flag_in_mask t i Ht). rewrite <- Heq. now apply (flag_in_mask s i Hs).
Qed.

End CapabilityFacts.

(** ** Fetch and update on the two stores *)

Section StoreFacts.
Context {tickerStore : ticker.Store} {orderbookStore : orderbook.Store}.

Lemma get_or_refresh_intro {V Snap : Type} (read : World -> result Snap)
    (fetch update : World -> outcome (result Snap) * World)
    (answer : World -> result V) (usable : V -> Prop) (conv : V -> Snap) :
  (forall w s, read w = (s, None) -> fetch w = (Returns (s, None), w)) ->
  (forall w s e, read w = (s, Some e) -> fetch w = update w) ->
  (forall w v, answer w = (v, None) -> usable v ->
     exists w', update w = (Returns (conv v, None), w')
       /\ length (Sent w') = S (length (Sent w))
       /\ read w' = (conv v, None)) ->
  get_or_refresh read fetch update answer usable conv.
Proof.
  intros Hhit Hmiss Hupd w. split; [apply Hhit|]. split; [apply Hmiss|].
  intros v Hans Hv. destruct (Hupd w v Hans Hv) as (w' & Hu & Hlen & Hl).
  exists w'. repeat split; try assumption. now apply Hhit.
Qed.

Lemma returning_inv {A : Type} (f : World -> A * World) (w w' : World) (a : A) :
  returning f w = (Returns a, w') -> f w = (a, w').
Proof. unfold returning. destruct (f w) as [a0 w0]. now intros [= -> ->]. Qed.

Lemma logging_nil (w : World) : logging [] w = w.
Proof. destruct w. unfold logging. simpl. now rewrite app_nil_r. Qed.

Lemma logging_app (errs1 errs2 : list error) (w : World) :
  logging errs2 (logging errs1 w) = logging (errs1 ++ errs2) w.
Proof. unfold logging. simpl. now rewrite app_assoc. Qed.

Lemma log_option (err : option error) (w : World) :
  match err with Some err => log_Println err w | None => w end
  = logging (option_list err) w.
Proof. destruct err; [reflexivity|]. now rewrite logging_nil. Qed.

End StoreFacts.

(** A fetch on a hit or on a miss: it only reads the store. *)
Ltac fetch_reads_store fetch :=
  intros; unfold returning, fetch; rewrite exchange.GetName_Name;
  unfold readTicker, readOrderbook in *;
  match goal with H : _ = (_, _) |- _ => rewrite H end; reflexivity.

(** An update on an answer without error: one request, one write, one read
    of what was written. *)
Ltac update_stores update answer_eq :=
  eexists; unfold returning, update, rest; rewrite answer_eq;
  rewrite exchange.GetName_Name; simpl;
  rewrite ?ticker.GetTicker_ProcessTicker, ?orderbook.GetOrderbook_ProcessOrderbook;
  split; [reflexivity|]; unfold readTicker, readOrderbook; simpl;
  split; [rewrite length_app; simpl; lia|];
  first [apply ticker.GetTicker_ProcessTicker
        |apply orderbook.GetOrderbook_ProcessOrderbook].

(** An update on a failed answer: one request, no write. *)
Ltac update_fails update answer_eq :=
  eexists; unfold returning, update, rest; rewrite answer_eq;
  split; [reflexivity|]; split; reflexivity.

Section GeminiFacts.
Context {tickerStore : ticker.Store} {orderbookStore : orderbook.Store}.
Context {methods : exchange.Methods}.
Context {tickerLaws : ticker.StoreLaws tickerStore}.
Context {orderbookLaws : orderbook.StoreLaws orderbookStore}.
Context {methodsLaws : exchange.MethodsLaws methods}.
Variable pairString : pair.CurrencyPair -> string.
Variable GetTicker : Venue Gemini.Ticker.t.
Variable GetOrderbook : Venue Gemini.Orderbook.t.
Variables (g : exchange.Base.t) (p : pair.CurrencyPair) (assetType : string).

Lemma Gemini_ticker_get_or_refresh :
  get_or_refresh
    (readTicker (exchange.Base.Name g) p assetType)
    (returning (Gemini.FetchTicker pairString GetTicker g p assetType))
    (returning (Gemini.UpdateTicker pairString GetTicker g p assetType))
    (fun w => GetTicker (length (Sent w)) (pairString p))
    (fun _ => True)
    (gemini_price p).
Proof.
  apply get_or_refresh_intro.
  - fetch_reads_store (@Gemini.FetchTicker).
  - fetch_reads_store (@Gemini.FetchTicker).
  - intros w tick Hans _. update_stores (@Gemini.UpdateTicker) Hans.
Qed.

Lemma Gemini_ticker_failure :
  failure_leaves_stores
    (returning (Gemini.UpdateTicker pairString GetTicker g p assetType))
    (fun w => GetTicker (length (Sent w)) (pairString p))
    ticker.zero.
Proof. intros w tick e Hans. update_fails (@Gemini.UpdateTicker) Hans. Qed.

Lemma Gemini_appendBids (levels : list Gemini.OrderbookEntry.t) (ob : orderbook.Base) :
  Gemini.appendBids ob levels
  = orderbook.with_Bids (orderbook.Bids ob ++ map gemini_item levels) ob.
Proof.
  unfold Gemini.appendBids. revert ob.
  induction levels as [|level levels IH]; intros ob; simpl.
  - destruct ob. unfold orderbook.with_Bids. simpl. now rewrite app_nil_r.
  - rewrite IH. unfold orderbook.with_Bids. simpl. now rewrite <- app_assoc.
Qed.

Lemma Gemini_appendAsks (levels : list Gemini.OrderbookEntry.t) (ob : orderbook.Base) :
  Gemini.appendAsks ob levels
  = orderbook.with_Asks (orderbook.Asks ob ++ map gemini_item levels) ob.
Proof.
  unfold Gemini.appendAsks. revert ob.
  induction levels as [|level levels IH]; intros ob; simpl.
  - destruct ob. unfold orderbook.with_Asks. simpl. now rewrite app_nil_r.
  - rewrite IH. unfold orderbook.with_Asks. simpl. now rewrite <- app_assoc.
Qed.

Lemma Gemini_book_built (ob : Gemini.Orderbook.t) :
  Gemini.appendAsks (Gemini.appendBids orderbook.zero (Gemini.Orderbook.Bids ob))
    (Gemini.Orderbook.Asks ob)
  = gemini_book ob.
Proof. now rewrite Gemini_appendBids, Gemini_appendAsks. Qed.

Lemma Gemini_orderbook_get_or_refresh :
  get_or_refresh
    (readOrderbook (exchange.Base.Name g) p assetType)
    (returning (Gemini.FetchOrderbook pairString GetOrderbook g p assetType))
    (returning (Gemini.UpdateOrderbook pairString GetOrderbook g p assetType))
    (fun w => GetOrderbook (length (Sent w)) (pairString p))
    (fun _ => True)
    gemini_book.
Proof.
  apply get_or_refresh_intro.
  - fetch_reads_store (@Gemini.FetchOrderbook).
  - fetch_reads_store (@Gemini.FetchOrderbook).
  - intros w ob Hans _. eexists.
    unfold returning, Gemini.UpdateOrderbook, rest. rewrite Hans, Gemini_book_built.
    rewrite exchange.GetName_Name. simpl.
    rewrite orderbook.GetOrderbook_ProcessOrderbook.
    split; [reflexivity|]. unfold readOrderbook. simpl.
    split; [rewrite length_app; simpl; lia|].
    apply orderbook.GetOrderbook_ProcessOrderbook.
Qed.

Lemma Gemini_orderbook_failure :
  failure_leaves_stores
    (returning (Gemini.UpdateOrderbook pairString GetOrderbook g p assetType))
    (fun w => GetOrderbook (length (Sent w)) (pairString p))
    orderbook.zero.
Proof. intros w ob e Hans. update_fails (@Gemini.UpdateOrderbook) Hans. Qed.

End GeminiFacts.

Section BitstampFacts.
Context {tickerStore : ticker.Store} {orderbookStore : orderbook.Store}.
Context {methods : exchange.Methods}.
Context {tickerLaws : ticker.StoreLaws tickerStore}.
Context {orderbookLaws : orderbook.StoreLaws orderbookStore}.
Context {methodsLaws : exchange.MethodsLaws methods}.
Variable pairString : pair.CurrencyPair -> string.
Variable GetTicker : Venue Bitstamp.Ticker.t.
Variable GetOrderbook : Venue Bitstamp.Orderbook.t.
Variables (b : exchange.Base.t) (p : pair.CurrencyPair) (assetType : string).

Lemma Bitstamp_ticker_get_or_refresh :
  get_or_refresh
    (readTicker (exchange.Base.Name b) p assetType)
    (returning (Bitstamp.FetchTicker pairString GetTicker b p assetType))
    (returning (Bitstamp.UpdateTicker pairString GetTicker b p assetType))
    (fun w => GetTicker (length (Sent w)) (pairString p))
    (fun _ => True)
    (bitstamp_price p).
Proof.
  apply get_or_refresh_intro.
  - fetch_reads_store (@Bitstamp.FetchTicker).
  - fetch_reads_store (@Bitstamp.FetchTicker).
  - intros w tick Hans _. update_stores (@Bitstamp.UpdateTicker) Hans.
Qed.

Lemma Bitstamp_ticker_failure :
  failure_leaves_stores
    (returning (Bitstamp.UpdateTicker pairString GetTicker b p assetType))
    (fun w => GetTicker (length (Sent w)) (pairString p))
    ticker.zero.
Proof. intros w tick e Hans. update_fails (@Bitstamp.UpdateTicker) Hans. Qed.

Lemma Bitstamp_appendBids (levels : list Bitstamp.OrderbookBase.t) (ob : orderbook.Base) :
  Bitstamp.appendBids ob levels
  = orderbook.with_Bids (orderbook.Bids ob ++ map bitstamp_item levels) ob.
Proof.
  unfold Bitstamp.appendBids. revert ob.
  induction levels as [|level levels IH]; intros ob; simpl.
  - destruct ob. unfold orderbook.with_Bids. simpl. now rewrite app_nil_r.
  - rewrite IH. unfold orderbook.with_Bids. simpl. now rewrite <- app_assoc.
Qed.

Lemma Bitstamp_appendAsks (levels : list Bitstamp.OrderbookBase.t) (ob : orderbook.Base) :
  Bitstamp.appendAsks ob levels
  = orderbook.with_Asks (orderbook.Asks ob ++ map bitstamp_item levels) ob.
Proof.
  unfold Bitstamp.appendAsks. revert ob.
  induction levels as [|level levels IH]; intros ob; simpl.
  - destruct ob. unfold orderbook.with_Asks. simpl. now rewrite app_nil_r.
  - rewrite IH. unfold orderbook.with_Asks. simpl. now rewrite <- app_assoc.
Qed.

Lemma Bitstamp_book_built (ob : Bitstamp.Orderbook.t) :
  Bitstamp.appendAsks (Bitstamp.appendBids orderbook.zero (Bitstamp.Orderbook.Bids ob))
    (Bitstamp.Orderbook.Asks ob)
  = bitstamp_book ob.
Proof. now rewrite Bitstamp_appendBids, Bitstamp_appendAsks. Qed.

Lemma Bitstamp_orderbook_get_or_refresh :
  get_or_refresh
    (readOrderbook (exchange.Base.Name b) p assetType)
    (returning (Bitstamp.FetchOrderbook pairString GetOrderbook b p assetType))
    (returning (Bitstamp.UpdateOrderbook pairString GetOrderbook b p assetType))
    (fun w => GetOrderbook (length (Sent w)) (pairString p))
    (fun _ => True)
    bitstamp_book.
Proof.
  apply get_or_refresh_intro.
  - fetch_reads_store (@Bitstamp.FetchOrderbook).
  - fetch_reads_store (@Bitstamp.FetchOrderbook).
  - intros w ob Hans _. eexists.
    unfold returning, Bitstamp.UpdateOrderbook, rest. rewrite Hans, Bitstamp_book_built.
    rewrite exchange.GetName_Name. simpl.
    rewrite orderbook.GetOrderbook_ProcessOrderbook.
    split; [reflexivity|]. unfold readOrderbook. simpl.
    split; [rewrite length_app; simpl; lia|].
    apply orderbook.GetOrderbook_ProcessOrderbook.
Qed.

Lemma Bitstamp_orderbook_failure :
  failure_leaves_stores
    (returning (Bitstamp.UpdateOrderbook pairString GetOrderbook b p assetType))
    (fun w => GetOrderbook (length (Sent w)) (pairString p))
    orderbook.zero.
Proof. intros w ob e Hans. update_fails (@Bitstamp.UpdateOrderbook) Hans. Qed.

End BitstampFacts.

Section ItBitFacts.
Context {tickerStore : ticker.Store} {orderbookStore : orderbook.Store}.
Context {methods : exchange.Methods}.
Context {tickerLaws : ticker.StoreLaws tickerStore}.
Context {orderbookLaws : orderbook.StoreLaws orderbookStore}.
Context {methodsLaws : exchange.MethodsLaws methods}.
Variable FormatExchangeCurrency : string -> pair.CurrencyPair -> string.
Variable GetTicker : Venue ItBit.Ticker.t.
Variable GetOrderbook : Venue ItBit.OrderbookResponse.t.
Variable ParseFloat : string -> result float64.
Variables (i : exchange.Base.t) (p : pair.CurrencyPair) (assetType : string).

Lemma ItBit_ticker_get_or_refresh :
  get_or_refresh
    (readTicker (exchange.Base.Name i) p assetType)
    (returning (ItBit.FetchTicker FormatExchangeCurrency GetTicker i p assetType))
    (returning (ItBit.UpdateTicker FormatExchangeCurrency GetTicker i p assetType))
    (fun w => GetTicker (length (Sent w)) (FormatExchangeCurrency (exchange.Base.Name i) p))
    (fun _ => True)
    (itbit_price p).
Proof.
  apply get_or_refresh_intro.
  - fetch_reads_store (@ItBit.FetchTicker).
  - fetch_reads_store (@ItBit.FetchTicker).
  - intros w tick Hans _. update_stores (@ItBit.UpdateTicker) Hans.
Qed.

Lemma ItBit_ticker_failure :
  failure_leaves_stores
    (returning (ItBit.UpdateTicker FormatExchangeCurrency GetTicker i p assetType))
    (fun w => GetTicker (length (Sent w)) (FormatExchangeCurrency (exchange.Base.Name i) p))
    ticker.zero.
Proof. intros w tick e Hans. update_fails (@ItBit.UpdateTicker) Hans. Qed.

(** One level with both fields: never a panic; the two values returned by
    [ParseFloat] are stored and its errors printed. *)
Lemma ItBit_parseLevel (data : list string) (w : World) :
  has_both_fields data ->
  ItBit.parseLevel ParseFloat data w
  = (Returns (itbit_item ParseFloat data), logging (itbit_errors ParseFloat data) w).
Proof.
  unfold has_both_fields. intros Hlen.
  destruct data as [|s0 [|s1 data]]; simpl in Hlen; try lia.
  unfold ItBit.parseLevel, itbit_item, itbit_errors. simpl.
  destruct (ParseFloat s0) as [price err0], (ParseFloat s1) as [amount err1]. simpl.
  now rewrite !log_option, logging_app.
Qed.

(** A level without both fields panics. *)
Lemma ItBit_parseLevel_short (data : list string) (w : World) :
  ~ has_both_fields data ->
  exists msg w', ItBit.parseLevel ParseFloat data w = (Panics msg, w').
Proof.
  unfold has_both_fields. intros Hlen.
  destruct data as [|s0 [|s1 data]]; simpl in Hlen; try lia;
    unfold ItBit.parseLevel; simpl.
  - now eexists _, _.
  - destruct (ParseFloat s0) as [price err0]. now eexists _, _.
Qed.

Lemma ItBit_appendBids (levels : list (list string)) (ob : orderbook.Base) (w : World) :
  Forall has_both_fields levels ->
  ItBit.appendBids ParseFloat ob levels w
  = (Returns (orderbook.with_Bids
                (orderbook.Bids ob ++ map (itbit_item ParseFloat) levels) ob),
     logging (flat_map (itbit_errors ParseFloat) levels) w).
Proof.
  intros Hall. revert ob w.
  induction Hall as [|data levels Hdata _ IH]; intros ob w; simpl.
  - rewrite logging_nil, app_nil_r. now destruct ob.
  - rewrite (ItBit_parseLevel data w Hdata), IH, logging_app.
    unfold orderbook.with_Bids. simpl. now rewrite <- app_assoc.
Qed.

Lemma ItBit_appendAsks (levels : list (list string)) (ob : orderbook.Base) (w : World) :
  Forall has_both_fields levels ->
  ItBit.appendAsks ParseFloat ob levels w
  = (Returns (orderbook.with_Asks
                (orderbook.Asks ob ++ map (itbit_item ParseFloat) levels) ob),
     logging (flat_map (itbit_errors ParseFloat) levels) w).
Proof.
  intros Hall. revert ob w.
  induction Hall as [|data levels Hdata _ IH]; intros ob w; simpl.
  - rewrite logging_nil, app_nil_r. now destruct ob.
  - rewrite (ItBit_parseLevel data w Hdata), IH, logging_app.
    unfold orderbook.with_Asks. simpl. now rewrite <- app_assoc.
Qed.

(** The update on a well-shaped answer, in full. *)
Lemma ItBit_UpdateOrderbook_ok (w : World) (resp : ItBit.OrderbookResponse.t) :
  GetOrderbook (length (Sent w)) (FormatExchangeCurrency (exchange.Base.Name i) p)
  = (resp, None) ->
  well_shaped resp ->
  ItBit.UpdateOrderbook FormatExchangeCurrency GetOrderbook ParseFloat i p assetType w
  = (Returns (itbit_book ParseFloat resp, None),
     set_Orderbooks
       (orderbook.ProcessOrderbook (Orderbooks w) (exchange.Base.Name i) p
          (itbit_book ParseFloat resp) assetType)
       (logging
          (flat_map (itbit_errors ParseFloat) (ItBit.OrderbookResponse.Bids resp)
           ++ flat_map (itbit_errors ParseFloat) (ItBit.OrderbookResponse.Asks resp))
          (send {| Exchange := exchange.Base.Name i; Endpoint := "order_book";
                   Symbol := FormatExchangeCurrency (exchange.Base.Name i) p |} w))).
Proof.
  intros Hans [Hbids Hasks]. unfold ItBit.UpdateOrderbook, rest. rewrite Hans.
  rewrite (ItBit_appendBids _ _ _ Hbids), (ItBit_appendAsks _ _ _ Hasks), logging_app.
  rewrite exchange.GetName_Name. simpl.
  now rewrite orderbook.GetOrderbook_ProcessOrderbook.
Qed.

Lemma ItBit_orderbook_get_or_refresh :
  get_or_refresh
    (readOrderbook (exchange.Base.Name i) p assetType)
    (ItBit.FetchOrderbook FormatExchangeCurrency GetOrderbook ParseFloat i p assetType)
    (ItBit.UpdateOrderbook FormatExchangeCurrency GetOrderbook ParseFloat i p assetType)
    (fun w => GetOrderbook (length (Sent w)) (FormatExchangeCurrency (exchange.Base.Name i) p))
    well_shaped
    (itbit_book ParseFloat).
Proof.
  apply get_or_refresh_intro.
  - intros w s Hread. unfold ItBit.FetchOrderbook. rewrite exchange.GetName_Name.
    unfold readOrderbook in Hread. now rewrite Hread.
  - intros w s e Hread. unfold ItBit.FetchOrderbook. rewrite exchange.GetName_Name.
    unfold readOrderbook in Hread. now rewrite Hread.
  - intros w resp Hans Hshape. eexists.
    rewrite (ItBit_UpdateOrderbook_ok w resp Hans Hshape).
    split; [reflexivity|]. unfold readOrderbook. simpl.
    split; [rewrite length_app; simpl; lia|].
    apply orderbook.GetOrderbook_ProcessOrderbook.
Qed.

Lemma ItBit_orderbook_failure :
  failure_leaves_stores
    (ItBit.UpdateOrderbook FormatExchangeCurrency GetOrderbook ParseFloat i p assetType)
    (fun w => GetOrderbook (length (Sent w)) (FormatExchangeCurrency (exchange.Base.Name i) p))
    orderbook.zero.
Proof.
  intros w resp e Hans. eexists. unfold ItBit.UpdateOrderbook, rest. rewrite Hans.
  split; [reflexivity|]. split; reflexivity.
Qed.

End ItBitFacts.

(** ** The sample stores satisfy what is assumed of a store *)

Lemma map_tickers_laws : ticker.StoreLaws map_tickers.
Proof.
  split. intros tickers exchangeName p tickerNew tickerType. simpl.
  now rewrite lookup_insert_eq.
Qed.

Lemma map_orderbooks_laws : orderbook.StoreLaws map_orderbooks.
Proof.
  split. intros orderbooks exchangeName p orderbookNew orderbookType. simpl.
  now rewrite lookup_insert_eq.
Qed.

Lemma field_methods_laws : exchange.MethodsLaws field_methods.
Proof. split; reflexivity. Qed.

(** * The claims *)

(** ** Capability masks *)

(** C4: decoding the zero capability mask yields exactly one entry, the
    sentinel label "NONE, WEBSITE ONLY"; no mask decodes to an empty set of
    labels. *)
Theorem decode_zero_is_sentinel :
  (exchange.decode exchange.NoAPIWithdrawalMethods).*2 = ["NONE, WEBSITE ONLY"%string]
  /\ exchange.decode 0 = [(exchange.NoAPIWithdrawalMethods, exchange.NoAPIWithdrawalMethodsText)]
  /\ forall mask : Z, exchange.decode mask <> [].
Proof.
  split; [reflexivity|]. split; [reflexivity|]. apply decode_nonempty.
Qed.

(** C5: for every 32-bit capability mask, decoding it into its active flags
    and or-ing the returned flags together gives the mask back. *)
Theorem decode_encode_roundtrip (mask : Z) :
  is_uint32 mask -> exchange.encode (exchange.decode mask) = mask.
Proof.
  intros Hm. pose proof (encode_all_bits mask Hm) as Hall.
  unfold exchange.encode, exchange.decode.
  destruct (flat_map _ _) as [|e l] eqn:Hl; [|exact Hall].
  simpl in *. now rewrite <- Hall.
Qed.

Lemma decode_encode_roundtrip_witness :
  is_uint32 (Z.lor exchange.AutoWithdrawCrypto exchange.AutoWithdrawFiat)
  /\ exchange.encode
       (exchange.decode (Z.lor exchange.AutoWithdrawCrypto exchange.AutoWithdrawFiat))
     = Z.lor exchange.AutoWithdrawCrypto exchange.AutoWithdrawFiat.
Proof.
  assert (is_uint32 (Z.lor exchange.AutoWithdrawCrypto exchange.AutoWithdrawFiat)) as H
    by (unfold is_uint32; vm_compute; split; [discriminate|reflexivity]).
  split; [exact H|]. apply (decode_encode_roundtrip _ H).
Defined.

(** C9: the eighteen flag constants are the powers of two 2^0 .. 2^17, one
    per bit position and without repetition, all inside the 32-bit mask;
    therefore two sets of flags with the same mask are the same set. *)
Theorem flags_are_distinct_bits :
  exchange.Flags = map (fun i : nat => 2 ^ Z.of_nat i) (seq 0 18)
  /\ length exchange.Flags = 18%nat
  /\ NoDup exchange.Flags
  /\ Forall is_uint32 exchange.Flags
  /\ forall s t : gset Z,
       s ⊆ list_to_set exchange.Flags ->
       t ⊆ list_to_set exchange.Flags ->
       exchange.mask_of (elements s) = exchange.mask_of (elements t) ->
       s = t.
Proof.
  split; [reflexivity|]. split; [reflexivity|].
  split; [apply NoDup_ListNoDup; vm_compute; repeat constructor; simpl; intuition discriminate|].
  split.
  { apply Forall_forall. intros f Hf. apply elem_of_Flags in Hf as (i & Hi & ->).
    rewrite Z.shiftl_1_l. unfold is_uint32, uint32_bits. split; [lia|].
    apply Z.pow_lt_mono_r; lia. }
  intros s t Hs Ht Heq.
  assert (forall u : gset Z, u ⊆ list_to_set exchange.Flags -> elements u ⊆ exchange.Flags)
    as Hsub.
  { intros u Hu f Hf. apply elem_of_elements in Hf.
    apply Hu in Hf. now apply elem_of_list_to_set in Hf. }
  apply set_eq. intros f. rewrite <- !elem_of_elements. split.
  - apply mask_of_inj; auto.
  - apply mask_of_inj; auto.
Qed.

Lemma flags_are_distinct_bits_witness :
  ({[exchange.AutoWithdrawCrypto; exchange.AutoWithdrawFiat]} : gset Z)
  = {[exchange.AutoWithdrawFiat; exchange.AutoWithdrawCrypto]}.
Proof.
  apply (proj2 (proj2 (proj2 (proj2 flags_are_distinct_bits)))).
  - intros f Hf. apply elem_of_list_to_set.
    apply elem_of_union in Hf as [Hf|Hf]; apply elem_of_singleton in Hf; subst;
      apply list_elem_of_In; vm_compute; tauto.
  - intros f Hf. apply elem_of_list_to_set.
    apply elem_of_union in Hf as [Hf|Hf]; apply elem_of_singleton in Hf; subst;
      apply list_elem_of_In; vm_compute; tauto.
  - vm_compute. reflexivity.
Defined.

(** ** The market-data cache *)

(** C1: for every pair and asset type, on each of the three REST wrappers
    (Gemini, Bitstamp, ItBit), FetchTicker and FetchOrderbook on a key
    whose snapshot is cached return that snapshot and send nothing; on a
    miss they run UpdateTicker / UpdateOrderbook, which on an answer of the
    venue sends one request, stores the snapshot built from the answer and
    returns it; a fetch after that returns the same snapshot and sends
    nothing.  Assumed of what is outside the sources: a get on a store
    returns what the last put on the key wrote, and GetName reads the
    name. *)
Theorem fetch_is_get_or_refresh
    {tickerStore : ticker.Store} {orderbookStore : orderbook.Store}
    {methods : exchange.Methods}
    (tickerLaws : ticker.StoreLaws tickerStore)
    (orderbookLaws : orderbook.StoreLaws orderbookStore)
    (methodsLaws : exchange.MethodsLaws methods)
    (pairString : pair.CurrencyPair -> string)
    (FormatExchangeCurrency : string -> pair.CurrencyPair -> string)
    (GetTickerG : Venue Gemini.Ticker.t) (GetOrderbookG : Venue Gemini.Orderbook.t)
    (GetTickerB : Venue Bitstamp.Ticker.t) (GetOrderbookB : Venue Bitstamp.Orderbook.t)
    (GetTickerI : Venue ItBit.Ticker.t) (GetOrderbookI : Venue ItBit.OrderbookResponse.t)
    (ParseFloat : string -> result float64)
    (x : exchange.Base.t) (p : pair.CurrencyPair) (assetType : string) :
  get_or_refresh
    (readTicker (exchange.Base.Name x) p assetType)
    (returning (Gemini.FetchTicker pairString GetTickerG x p assetType))
    (returning (Gemini.UpdateTicker pairString GetTickerG x p assetType))
    (fun w => GetTickerG (length (Sent w)) (pairString p))
    (fun _ => True) (gemini_price p)
  /\ get_or_refresh
    (readOrderbook (exchange.Base.Name x) p assetType)
    (returning (Gemini.FetchOrderbook pairString GetOrderbookG x p assetType))
    (returning (Gemini.UpdateOrderbook pairString GetOrderbookG x p assetType))
    (fun w => GetOrderbookG (length (Sent w)) (pairString p))
    (fun _ => True) gemini_book
  /\ get_or_refresh
    (readTicker (exchange.Base.Name x) p assetType)
    (returning (Bitstamp.FetchTicker pairString GetTickerB x p assetType))
    (returning (Bitstamp.UpdateTicker pairString GetTickerB x p assetType))
    (fun w => GetTickerB (length (Sent w)) (pairString p))
    (fun _ => True) (bitstamp_price p)
  /\ get_or_refresh
    (readOrderbook (exchange.Base.Name x) p assetType)
    (returning (Bitstamp.FetchOrderbook pairString GetOrderbookB x p assetType))
    (returning (Bitstamp.UpdateOrderbook pairString GetOrderbookB x p assetType))
    (fun w => GetOrderbookB (length (Sent w)) (pairString p))
    (fun _ => True) bitstamp_book
  /\ get_or_refresh
    (readTicker (exchange.Base.Name x) p assetType)
    (returning (ItBit.FetchTicker FormatExchangeCurrency GetTickerI x p assetType))
    (returning (ItBit.UpdateTicker FormatExchangeCurrency GetTickerI x p assetType))
    (fun w => GetTickerI (length (Sent w)) (FormatExchangeCurrency (exchange.Base.Name x) p))
    (fun _ => True) (itbit_price p)
  /\ get_or_refresh
    (readOrderbook (exchange.Base.Name x) p assetType)
    (ItBit.FetchOrderbook FormatExchangeCurrency GetOrderbookI ParseFloat x p assetType)
    (ItBit.UpdateOrderbook FormatExchangeCurrency GetOrderbookI ParseFloat x p assetType)
    (fun w => GetOrderbookI (length (Sent w)) (FormatExchangeCurrency (exchange.Base.Name x) p))
    well_shaped (itbit_book ParseFloat).
Proof.
  split; [apply Gemini_ticker_get_or_refresh|].
  split; [apply Gemini_orderbook_get_or_refresh|].
  split; [apply Bitstamp_ticker_get_or_refresh|].
  split; [apply Bitstamp_orderbook_get_or_refresh|].
  split; [apply ItBit_ticker_get_or_refresh|].
  apply ItBit_orderbook_get_or_refresh.
Qed.

(** The scenario of the spec: the ticker store is empty, the venue quotes
    bid 100 / ask 101; the first fetch sends one request and returns that
    quote, the second returns it from the store. *)
Lemma fetch_is_get_or_refresh_witness :
  exists w1 : World,
    returning (Gemini.FetchTicker sample_pairString gemini_quotes sample_gemini
                 sample_pair ticker.Spot) empty_world
    = (Returns (gemini_price sample_pair gemini_quote, None), w1)
    /\ length (Sent w1) = 1%nat
    /\ returning (Gemini.FetchTicker sample_pairString gemini_quotes sample_gemini
                    sample_pair ticker.Spot) w1
       = (Returns (gemini_price sample_pair gemini_quote, None), w1).
Proof.
  destruct (fetch_is_get_or_refresh map_tickers_laws map_orderbooks_laws field_methods_laws
              sample_pairString sample_FormatExchangeCurrency
              gemini_quotes gemini_books bitstamp_quotes bitstamp_books
              itbit_quotes itbit_books sample_ParseFloat
              sample_gemini sample_pair ticker.Spot) as [Hticker _].
  destruct (Hticker empty_world) as (_ & Hmiss & Hupdate).
  destruct (Hupdate gemini_quote eq_refl I) as (w1 & Hu & Hsent & _ & Hagain).
  exists w1. rewrite (Hmiss _ _ eq_refl). split; [exact Hu|]. split; [exact Hsent|exact Hagain].
Defined.

(** C3: on each of the three REST wrappers, when the venue's answer to the
    request of UpdateTicker / UpdateOrderbook is an error, the update
    returns that error with the zero snapshot and both stores are exactly
    as before the call: nothing is written, so the entry of the key, stale
    or absent, is untouched and a later call starts from the same stores.
    This holds for any store and any accessors. *)
Theorem failed_update_leaves_stores
    {tickerStore : ticker.Store} {orderbookStore : orderbook.Store}
    {methods : exchange.Methods}
    (pairString : pair.CurrencyPair -> string)
    (FormatExchangeCurrency : string -> pair.CurrencyPair -> string)
    (GetTickerG : Venue Gemini.Ticker.t) (GetOrderbookG : Venue Gemini.Orderbook.t)
    (GetTickerB : Venue Bitstamp.Ticker.t) (GetOrderbookB : Venue Bitstamp.Orderbook.t)
    (GetTickerI : Venue ItBit.Ticker.t) (GetOrderbookI : Venue ItBit.OrderbookResponse.t)
    (ParseFloat : string -> result float64)
    (x : exchange.Base.t) (p : pair.CurrencyPair) (assetType : string) :
  failure_leaves_stores
    (returning (Gemini.UpdateTicker pairString GetTickerG x p assetType))
    (fun w => GetTickerG (length (Sent w)) (pairString p)) ticker.zero
  /\ failure_leaves_stores
    (returning (Gemini.UpdateOrderbook pairString GetOrderbookG x p assetType))
    (fun w => GetOrderbookG (length (Sent w)) (pairString p)) orderbook.zero
  /\ failure_leaves_stores
    (returning (Bitstamp.UpdateTicker pairString GetTickerB x p assetType))
    (fun w => GetTickerB (length (Sent w)) (pairString p)) ticker.zero
  /\ failure_leaves_stores
    (returning (Bitstamp.UpdateOrderbook pairString GetOrderbookB x p assetType))
    (fun w => GetOrderbookB (length (Sent w)) (pairString p)) orderbook.zero
  /\ failure_leaves_stores
    (returning (ItBit.UpdateTicker FormatExchangeCurrency GetTickerI x p assetType))
    (fun w => GetTickerI (length (Sent w)) (FormatExchangeCurrency (exchange.Base.Name x) p))
    ticker.zero
  /\ failure_leaves_stores
    (ItBit.UpdateOrderbook FormatExchangeCurrency GetOrderbookI ParseFloat x p assetType)
    (fun w => GetOrderbookI (length (Sent w)) (FormatExchangeCurrency (exchange.Base.Name x) p))
    orderbook.zero.
Proof.
  split; [apply Gemini_ticker_failure|].
  split; [apply Gemini_orderbook_failure|].
  split; [apply Bitstamp_ticker_failure|].
  split; [apply Bitstamp_orderbook_failure|].
  split; [apply ItBit_ticker_failure|].
  apply ItBit_orderbook_failure.
Qed.

(** Gemini is down for the first request: the update returns the error and
    the stores of the empty world are still empty. *)
Lemma failed_update_leaves_stores_witness :
  exists w1 : World,
    returning (Gemini.UpdateTicker sample_pairString gemini_down_once sample_gemini
                 sample_pair ticker.Spot) empty_world
    = (Returns (ticker.zero, Some connection_refused), w1)
    /\ Tickers w1 = Tickers empty_world
    /\ Orderbooks w1 = Orderbooks empty_world.
Proof.
  destruct (failed_update_leaves_stores sample_pairString sample_FormatExchangeCurrency
              gemini_down_once gemini_books bitstamp_quotes bitstamp_books
              itbit_quotes itbit_books sample_ParseFloat
              sample_gemini sample_pair ticker.Spot) as [Hticker _].
  exact (Hticker empty_world _ connection_refused eq_refl).
Defined.

(** After that failure the next update is answered, and stores the quote:
    the failed call has not poisoned the entry. *)
Lemma retry_after_failure :
  exists w1 w2 : World,
    Gemini.UpdateTicker sample_pairString gemini_down_once sample_gemini
      sample_pair ticker.Spot empty_world
    = ((ticker.zero, Some connection_refused), w1)
    /\ Gemini.UpdateTicker sample_pairString gemini_down_once sample_gemini
         sample_pair ticker.Spot w1
       = ((gemini_price sample_pair gemini_quote, None), w2)
    /\ readTicker "Gemini" sample_pair ticker.Spot w2
       = (gemini_price sample_pair gemini_quote, None).
Proof. eexists _, _. repeat split. Qed.

(** C6: an order-book update stores the bid levels and the ask levels in
    the order the venue sent them, one stored level per received level
    (by [map], so without sorting and without a crossed-book check), and
    a get on the key afterwards returns that snapshot.  For ItBit, whose
    levels arrive as strings, every level must carry both fields.  Assumed
    of what is outside the sources: a get on the store returns what the
    last put on the key wrote, and GetName reads the name. *)
Theorem update_keeps_level_order
    {tickerStore : ticker.Store} {orderbookStore : orderbook.Store}
    {methods : exchange.Methods}
    (tickerLaws : ticker.StoreLaws tickerStore)
    (orderbookLaws : orderbook.StoreLaws orderbookStore)
    (methodsLaws : exchange.MethodsLaws methods)
    (pairString : pair.CurrencyPair -> string)
    (FormatExchangeCurrency : string -> pair.CurrencyPair -> string)
    (GetOrderbookG : Venue Gemini.Orderbook.t)
    (GetOrderbookB : Venue Bitstamp.Orderbook.t)
    (GetOrderbookI : Venue ItBit.OrderbookResponse.t)
    (ParseFloat : string -> result float64)
    (x : exchange.Base.t) (p : pair.CurrencyPair) (assetType : string) (w : World) :
  (forall ob : Gemini.Orderbook.t,
     GetOrderbookG (length (Sent w)) (pairString p) = (ob, None) ->
     exists (snap : orderbook.Base) (w' : World),
       Gemini.UpdateOrderbook pairString GetOrderbookG x p assetType w = ((snap, None), w')
       /\ orderbook.Bids snap = map gemini_item (Gemini.Orderbook.Bids ob)
       /\ orderbook.Asks snap = map gemini_item (Gemini.Orderbook.Asks ob)
       /\ orderbook.GetOrderbook (Orderbooks w') (exchange.Base.Name x) p assetType
          = (snap, None))
  /\ (forall ob : Bitstamp.Orderbook.t,
     GetOrderbookB (length (Sent w)) (pairString p) = (ob, None) ->
     exists (snap : orderbook.Base) (w' : World),
       Bitstamp.UpdateOrderbook pairString GetOrderbookB x p assetType w = ((snap, None), w')
       /\ orderbook.Bids snap = map bitstamp_item (Bitstamp.Orderbook.Bids ob)
       /\ orderbook.Asks snap = map bitstamp_item (Bitstamp.Orderbook.Asks ob)
       /\ orderbook.GetOrderbook (Orderbooks w') (exchange.Base.Name x) p assetType
          = (snap, None))
  /\ (forall ob : ItBit.OrderbookResponse.t,
     GetOrderbookI (length (Sent w)) (FormatExchangeCurrency (exchange.Base.Name x) p)
     = (ob, None) ->
     well_shaped ob ->
     exists (snap : orderbook.Base) (w' : World),
       ItBit.UpdateOrderbook FormatExchangeCurrency GetOrderbookI ParseFloat x p assetType w
       = (Returns (snap, None), w')
       /\ orderbook.Bids snap
          = map (itbit_item ParseFloat) (ItBit.OrderbookResponse.Bids ob)
       /\ orderbook.Asks snap
          = map (itbit_item ParseFloat) (ItBit.OrderbookResponse.Asks ob)
       /\ orderbook.GetOrderbook (Orderbooks w') (exchange.Base.Name x) p assetType
          = (snap, None)).
Proof.
  split; [|split].
  - intros ob Hans.
    destruct (Gemini_orderbook_get_or_refresh pairString GetOrderbookG x p assetType w)
      as (_ & _ & Hupd).
    destruct (Hupd ob Hans I) as (w' & Hu & _ & Hl & _).
    exists (gemini_book ob), w'. apply returning_inv in Hu.
    repeat split; assumption.
  - intros ob Hans.
    destruct (Bitstamp_orderbook_get_or_refresh pairString GetOrderbookB x p assetType w)
      as (_ & _ & Hupd).
    destruct (Hupd ob Hans I) as (w' & Hu & _ & Hl & _).
    exists (bitstamp_book ob), w'. apply returning_inv in Hu.
    repeat split; assumption.
  - intros ob Hans Hshape.
    destruct (ItBit_orderbook_get_or_refresh FormatExchangeCurrency GetOrderbookI
                ParseFloat x p assetType w) as (_ & _ & Hupd).
    destruct (Hupd ob Hans Hshape) as (w' & Hu & _ & Hl & _).
    exists (itbit_book ParseFloat ob), w'.
    repeat split; assumption.
Qed.

(** Gemini sends bids 100, 103 and asks 102, 101: neither side is sorted
    and the book is crossed; it is stored and read back as sent. *)
Lemma update_keeps_level_order_witness :
  exists (snap : orderbook.Base) (w' : World),
    Gemini.UpdateOrderbook sample_pairString gemini_books sample_gemini sample_pair
      ticker.Spot empty_world = ((snap, None), w')
    /\ orderbook.Bids snap
       = [ {| orderbook.Amount := 1; orderbook.Price := 100 |};
           {| orderbook.Amount := 2; orderbook.Price := 103 |} ]
    /\ orderbook.Asks snap
       = [ {| orderbook.Amount := 1; orderbook.Price := 102 |};
           {| orderbook.Amount := 2; orderbook.Price := 101 |} ]
    /\ orderbook.GetOrderbook (Orderbooks w') "Gemini" sample_pair ticker.Spot
       = (snap, None).
Proof.
  exact (proj1 (update_keeps_level_order map_tickers_laws map_orderbooks_laws
                  field_methods_laws sample_pairString sample_FormatExchangeCurrency
                  gemini_books bitstamp_books itbit_books sample_ParseFloat
                  sample_gemini sample_pair ticker.Spot empty_world)
           gemini_levels eq_refl).
Defined.

(** ** ItBit: levels that fail to parse *)

(** A level that lacks a field is the one malformation that is not
    recovered: indexing it panics, and nothing is stored. *)
Lemma ItBit_short_level_panics
    {tickerStore : ticker.Store} {orderbookStore : orderbook.Store}
    {methods : exchange.Methods}
    (FormatExchangeCurrency : string -> pair.CurrencyPair -> string)
    (GetOrderbook : Venue ItBit.OrderbookResponse.t)
    (ParseFloat : string -> result float64)
    (i : exchange.Base.t) (p : pair.CurrencyPair) (assetType : string) (w : World)
    (data : list string) (bids asks : list (list string)) :
  GetOrderbook (length (Sent w)) (FormatExchangeCurrency (exchange.Base.Name i) p)
  = ({| ItBit.OrderbookResponse.Bids := data :: bids;
        ItBit.OrderbookResponse.Asks := asks |}, None) ->
  ~ has_both_fields data ->
  exists (msg : string) (w' : World),
    ItBit.UpdateOrderbook FormatExchangeCurrency GetOrderbook ParseFloat i p assetType w
    = (Panics msg, w')
    /\ Orderbooks w' = Orderbooks w.
Proof.
  unfold has_both_fields. intros Hans Hshort.
  unfold ItBit.UpdateOrderbook, rest. rewrite Hans. simpl.
  destruct data as [|s0 [|s1 data]]; simpl in Hshort; try lia;
    unfold ItBit.parseLevel; simpl.
  - now eexists _, _.
  - destruct (ParseFloat s0) as [price [err|]]; now eexists _, _.
Qed.

(** C7 (as amended): for every order-book answer ItBit receives in which
    each level carries a price and an amount string, UpdateOrderbook
    returns a snapshot with exactly one entry per received level, in
    order; a field whose string fails to parse does not stop the update:
    the error is printed and the field takes the value ParseFloat returned
    with it, after which the remaining levels are processed.  The store
    and GetName are assumed as for the other updates. *)
Theorem itbit_parse_failure_is_local
    {tickerStore : ticker.Store} {orderbookStore : orderbook.Store}
    {methods : exchange.Methods}
    (tickerLaws : ticker.StoreLaws tickerStore)
    (orderbookLaws : orderbook.StoreLaws orderbookStore)
    (methodsLaws : exchange.MethodsLaws methods)
    (FormatExchangeCurrency : string -> pair.CurrencyPair -> string)
    (GetOrderbook : Venue ItBit.OrderbookResponse.t)
    (ParseFloat : string -> result float64)
    (i : exchange.Base.t) (p : pair.CurrencyPair) (assetType : string) (w : World)
    (resp : ItBit.OrderbookResponse.t) :
  GetOrderbook (length (Sent w)) (FormatExchangeCurrency (exchange.Base.Name i) p)
  = (resp, None) ->
  well_shaped resp ->
  exists (snap : orderbook.Base) (w' : World),
    ItBit.UpdateOrderbook FormatExchangeCurrency GetOrderbook ParseFloat i p assetType w
    = (Returns (snap, None), w')
    /\ length (orderbook.Bids snap) = length (ItBit.OrderbookResponse.Bids resp)
    /\ length (orderbook.Asks snap) = length (ItBit.OrderbookResponse.Asks resp)
    /\ (forall (k : nat) (data : list string),
          ItBit.OrderbookResponse.Bids resp !! k = Some data ->
          orderbook.Bids snap !! k
          = Some {| orderbook.Amount := (ParseFloat (nth 1 data "")).1;
                    orderbook.Price := (ParseFloat (nth 0 data "")).1 |})
    /\ (forall (k : nat) (data : list string),
          ItBit.OrderbookResponse.Asks resp !! k = Some data ->
          orderbook.Asks snap !! k
          = Some {| orderbook.Amount := (ParseFloat (nth 1 data "")).1;
                    orderbook.Price := (ParseFloat (nth 0 data "")).1 |})
    /\ Logged w'
       = Logged w
         ++ flat_map (itbit_errors ParseFloat) (ItBit.OrderbookResponse.Bids resp)
         ++ flat_map (itbit_errors ParseFloat) (ItBit.OrderbookResponse.Asks resp)
    /\ readOrderbook (exchange.Base.Name i) p assetType w' = (snap, None).
Proof.
  intros Hans Hshape.
  exists (itbit_book ParseFloat resp). eexists.
  split; [apply (ItBit_UpdateOrderbook_ok _ _ _ _ _ _ _ _ Hans Hshape)|].
  unfold readOrderbook. simpl.
  split; [apply length_map|]. split; [apply length_map|].
  split; [|split; [|split]].
  - intros k data Hk. now rewrite list_lookup_fmap, Hk.
  - intros k data Hk. now rewrite list_lookup_fmap, Hk.
  - reflexivity.
  - apply orderbook.GetOrderbook_ProcessOrderbook.
Qed.

(** Three bids, the second with a malformed price, and one ask: all four
    appear in the snapshot, the malformed price as the 0 it parsed to. *)
Lemma itbit_parse_failure_is_local_witness :
  exists (snap : orderbook.Base) (w' : World),
    ItBit.UpdateOrderbook sample_FormatExchangeCurrency itbit_books sample_ParseFloat
      sample_itbit sample_pair ticker.Spot empty_world
    = (Returns (snap, None), w')
    /\ length (orderbook.Bids snap) = 3%nat
    /\ length (orderbook.Asks snap) = 1%nat
    /\ orderbook.Bids snap !! 1%nat
       = Some {| orderbook.Amount := 2; orderbook.Price := 0 |}
    /\ orderbook.Bids snap !! 2%nat
       = Some {| orderbook.Amount := 2; orderbook.Price := 99 |}
    /\ Logged w' = [ErrSyntax; ErrRange].
Proof.
  assert (well_shaped itbit_levels) as Hshape
    by (split; repeat constructor; unfold has_both_fields; simpl; lia).
  destruct (itbit_parse_failure_is_local map_tickers_laws map_orderbooks_laws
              field_methods_laws sample_FormatExchangeCurrency itbit_books
              sample_ParseFloat sample_itbit sample_pair ticker.Spot empty_world
              itbit_levels eq_refl Hshape)
    as (snap & w' & Hu & Hb & Ha & Hbids & _ & Hlog & _).
  exists snap, w'. split; [exact Hu|]. split; [exact Hb|]. split; [exact Ha|].
  split; [exact (Hbids 1%nat ["abc"; "2"] eq_refl)|].
  split; [exact (Hbids 2%nat ["99"; "2"] eq_refl)|exact Hlog].
Defined.

(** C7 as stated fails: the ask price "1e400" fails to parse (a range
    error), the update carries on, and the stored price is the infinity
    ParseFloat returned, not zero. *)
Lemma itbit_failed_field_not_zero :
  exists (snap : orderbook.Base) (w' : World),
    ItBit.UpdateOrderbook sample_FormatExchangeCurrency itbit_books sample_ParseFloat
      sample_itbit sample_pair ticker.Spot empty_world
    = (Returns (snap, None), w')
    /\ (sample_ParseFloat "1e400").2 = Some ErrRange
    /\ orderbook.Asks snap
       = [ {| orderbook.Amount := 1; orderbook.Price := infinity |} ]
    /\ orderbook.Price <$> orderbook.Asks snap !! 0%nat <> Some 0%float.
Proof.
  eexists _, _. split; [reflexivity|]. split; [reflexivity|]. split; [reflexivity|].
  simpl. intros Heq.
  apply (f_equal (fun o => match o with
                           | Some f => PrimFloat.is_infinity f
                           | None => false
                           end)) in Heq.
  vm_compute in Heq. discriminate.
Qed.

(** ** Set-up *)

(** C10: on each of the four wrappers, Setup with a configuration whose
    Enabled flag is false returns the base after SetEnabled(false) and
    nothing else: the flag is false and every other field (endpoints, pair
    formats, capability mask, requester, websocket, ...) is as before.
    Gemini's sandbox URL is written only on the enabled path, after
    SetupDefaults succeeded, and only when UseSandbox is set.  Assumed of
    SetEnabled, which is outside the sources: it writes the Enabled field
    and no other. *)
Theorem disabled_setup_only_disables
    {methods : exchange.Methods} (methodsLaws : exchange.MethodsLaws methods)
    (SetupDefaultsG SetupDefaultsB SetupDefaultsC SetupDefaultsI :
       config.ExchangeConfig -> exchange.Base.t -> exchange.Base.t * option error)
    (WebsocketSetupB WebsocketSetupC :
       string -> bool -> string -> string -> exchange.Base.t -> exchange.Base.t * option error)
    (geminiSandboxAPIURL BitstampPusherKey btccSocketioAddress : string)
    (b : exchange.Base.t) (exch : config.ExchangeConfig) :
  (config.Enabled exch = false ->
     Gemini.Setup SetupDefaultsG geminiSandboxAPIURL b exch
     = Returns (exchange.SetEnabled false b)
     /\ Bitstamp.Setup SetupDefaultsB WebsocketSetupB BitstampPusherKey b exch
        = Returns (exchange.SetEnabled false b)
     /\ BTCC.Setup SetupDefaultsC WebsocketSetupC btccSocketioAddress b exch
        = Returns (exchange.SetEnabled false b)
     /\ ItBit.Setup SetupDefaultsI b exch = Returns (exchange.SetEnabled false b)
     /\ exchange.Base.Enabled (exchange.SetEnabled false b) = false
     /\ unchanged_but_Enabled b (exchange.SetEnabled false b))
  /\ (config.Enabled exch = true ->
      forall g' : exchange.Base.t,
        SetupDefaultsG exch b = (g', None) ->
        Gemini.Setup SetupDefaultsG geminiSandboxAPIURL b exch
        = Returns (if config.UseSandbox exch
                   then exchange.Base.set_API
                          (exchange.API.set_URL geminiSandboxAPIURL (exchange.Base.API g')) g'
                   else g')).
Proof.
  split.
  - intros Hoff.
    unfold Gemini.Setup, Bitstamp.Setup, BTCC.Setup, ItBit.Setup. rewrite Hoff. simpl.
    rewrite exchange.SetEnabled_Enabled. repeat split.
  - intros Hon g' Hdefaults. unfold Gemini.Setup. rewrite Hon, Hdefaults. simpl.
    now destruct (config.UseSandbox exch).
Qed.

(** Gemini after SetDefaults, set up with a disabled configuration that
    asks for the sandbox: the endpoint is still the default one. *)
Lemma disabled_setup_only_disables_witness :
  Gemini.Setup sample_SetupDefaults "https://api.sandbox.gemini.com" sample_gemini
    sample_disabled
  = Returns (exchange.SetEnabled false sample_gemini)
  /\ exchange.Endpoints.URL
       (exchange.API.Endpoints
          (exchange.Base.API (exchange.SetEnabled false sample_gemini)))
     = "https://api.gemini.com"
  /\ unchanged_but_Enabled sample_gemini (exchange.SetEnabled false sample_gemini).
Proof.
  destruct (proj1 (disabled_setup_only_disables field_methods_laws
                     sample_SetupDefaults sample_SetupDefaults sample_SetupDefaults
                     sample_SetupDefaults sample_WebsocketSetup sample_WebsocketSetup
                     "https://api.sandbox.gemini.com" "key" "address"
                     sample_gemini sample_disabled) eq_refl)
    as (Hg & _ & _ & _ & _ & Hframe).
  split; [exact Hg|]. split; [reflexivity|exact Hframe].
Defined.

(** ** Operations a wrapper does not back *)

Section Unbacked.
Context {tickerStore : ticker.Store} {orderbookStore : orderbook.Store}.
Context {methods : exchange.Methods}.
Variables OrderSide OrderType ModifyOrder : Type.
Variables (x : exchange.Base.t) (p : pair.CurrencyPair) (assetType : string).
Variables (side : OrderSide) (orderType : OrderType) (action : ModifyOrder).
Variables (amount price : float64) (clientID address currency : string) (orderID : Z).
Variable w : World.

Let not_yet_implemented : option error := Some (errors.New "not yet implemented").
Let not_supported : option error := Some (errors.New "not supported on exchange").
Let no_trade_history : option error := Some (errors.New "trade history not yet implemented").
Let rest_not_supported : option error := Some (errors.New "REST NOT SUPPORTED").

(** The order, funds and history operations of Gemini, and its websocket
    handle: each is a total function that returns the zero value of its
    result type with an error, whatever the arguments. *)
Lemma Gemini_unbacked :
  Gemini.GetExchangeFundTransferHistory x = ([], not_supported)
  /\ Gemini.GetExchangeHistory x p assetType = ([], no_trade_history)
  /\ Gemini.SubmitExchangeOrder OrderSide OrderType x p side orderType amount price clientID
     = (0, not_yet_implemented)
  /\ Gemini.ModifyExchangeOrder ModifyOrder x orderID action = (0, not_yet_implemented)
  /\ Gemini.CancelExchangeOrder x orderID = not_yet_implemented
  /\ Gemini.CancelAllExchangeOrders x = not_yet_implemented
  /\ Gemini.GetExchangeOrderInfo x orderID = (exchange.OrderDetail.zero, not_yet_implemented)
  /\ Gemini.GetExchangeDepositAddress x currency = (""%string, not_yet_implemented)
  /\ Gemini.WithdrawCryptoExchangeFunds x address currency amount
     = (""%string, not_yet_implemented)
  /\ Gemini.WithdrawFiatExchangeFunds x currency amount = (""%string, not_yet_implemented)
  /\ Gemini.WithdrawFiatExchangeFundsToInternationalBank x currency amount
     = (""%string, not_yet_implemented)
  /\ Gemini.GetWebsocket x = (None, not_yet_implemented).
Proof. repeat split. Qed.

Lemma Bitstamp_unbacked :
  Bitstamp.GetExchangeFundTransferHistory x = ([], not_supported)
  /\ Bitstamp.GetExchangeHistory x p assetType = ([], no_trade_history)
  /\ Bitstamp.SubmitExchangeOrder OrderSide OrderType x p side orderType amount price clientID
     = (0, not_yet_implemented)
  /\ Bitstamp.ModifyExchangeOrder ModifyOrder x orderID action = (0, not_yet_implemented)
  /\ Bitstamp.CancelExchangeOrder x orderID = not_yet_implemented
  /\ Bitstamp.CancelAllExchangeOrders x = not_yet_implemented
  /\ Bitstamp.GetExchangeOrderInfo x orderID = (exchange.OrderDetail.zero, not_yet_implemented)
  /\ Bitstamp.GetExchangeDepositAddress x currency = (""%string, not_yet_implemented)
  /\ Bitstamp.WithdrawCryptoExchangeFunds x address currency amount
     = (""%string, not_yet_implemented)
  /\ Bitstamp.WithdrawFiatExchangeFunds x currency amount = (""%string, not_yet_implemented)
  /\ Bitstamp.WithdrawFiatExchangeFundsToInternationalBank x currency amount
     = (""%string, not_yet_implemented).
Proof. repeat split. Qed.

(** BTCC has no REST transport: besides the order and funds operations,
    its market-data and account operations return an error, read no store
    and send nothing. *)
Lemma BTCC_unbacked :
  BTCC.UpdateTicker x p assetType w = ((ticker.zero, rest_not_supported), w)
  /\ BTCC.FetchTicker x p assetType w = ((ticker.zero, rest_not_supported), w)
  /\ BTCC.FetchOrderbook x p assetType w = ((orderbook.zero, rest_not_supported), w)
  /\ BTCC.UpdateOrderbook x p assetType w = ((orderbook.zero, rest_not_supported), w)
  /\ BTCC.GetExchangeAccountInfo x = (exchange.AccountInfo.zero, rest_not_supported)
  /\ BTCC.GetExchangeFundTransferHistory x = ([], rest_not_supported)
  /\ BTCC.GetExchangeHistory x p assetType = ([], rest_not_supported)
  /\ BTCC.SubmitExchangeOrder OrderSide OrderType x p side orderType amount price clientID
     = (0, not_yet_implemented)
  /\ BTCC.ModifyExchangeOrder ModifyOrder x orderID action = (0, not_yet_implemented)
  /\ BTCC.CancelExchangeOrder x orderID = not_yet_implemented
  /\ BTCC.CancelAllExchangeOrders x = not_yet_implemented
  /\ BTCC.GetExchangeOrderInfo x orderID = (exchange.OrderDetail.zero, not_yet_implemented)
  /\ BTCC.GetExchangeDepositAddress x currency = (""%string, not_yet_implemented)
  /\ BTCC.WithdrawCryptoExchangeFunds x address currency amount
     = (""%string, not_yet_implemented)
  /\ BTCC.WithdrawFiatExchangeFunds x currency amount = (""%string, not_yet_implemented)
  /\ BTCC.WithdrawFiatExchangeFundsToInternationalBank x currency amount
     = (""%string, not_yet_implemented).
Proof. repeat split. Qed.

Lemma ItBit_unbacked :
  ItBit.GetExchangeFundTransferHistory x = ([], not_supported)
  /\ ItBit.GetExchangeHistory x p assetType = ([], no_trade_history)
  /\ ItBit.SubmitExchangeOrder OrderSide OrderType x p side orderType amount price clientID
     = (0, not_yet_implemented)
  /\ ItBit.ModifyExchangeOrder ModifyOrder x orderID action = (0, not_yet_implemented)
  /\ ItBit.CancelExchangeOrder x orderID = not_yet_implemented
  /\ ItBit.CancelAllExchangeOrders x = not_yet_implemented
  /\ ItBit.GetExchangeOrderInfo x orderID = (exchange.OrderDetail.zero, not_yet_implemented)
  /\ ItBit.GetExchangeDepositAddress x currency = (""%string, not_yet_implemented)
  /\ ItBit.WithdrawCryptoExchangeFunds x address currency amount
     = (""%string, not_yet_implemented)
  /\ ItBit.WithdrawFiatExchangeFunds x currency amount = (""%string, not_yet_implemented)
  /\ ItBit.WithdrawFiatExchangeFundsToInternationalBank x currency amount
     = (""%string, not_yet_implemented)
  /\ ItBit.GetWebsocket x = (None, not_yet_implemented).
Proof. repeat split. Qed.

End Unbacked.

(** C2 (where the code departs from the claim): ItBit's
    GetExchangeAccountInfo is marked "to-do" and retrieves no balance, yet
    it returns no error and a result that is not the zero value: the
    account info carries the exchange name and no currency.  BTCC's
    operation of the same name returns the zero value with an error. *)
Theorem itbit_account_info_reports_no_error :
  (forall (methods : exchange.Methods) (i : exchange.Base.t),
     ItBit.GetExchangeAccountInfo i
     = ({| exchange.AccountInfo.ExchangeName := exchange.GetName i;
           exchange.AccountInfo.Currencies := [] |}, None)
     /\ BTCC.GetExchangeAccountInfo i
        = (exchange.AccountInfo.zero, Some (errors.New "REST NOT SUPPORTED")))
  /\ ItBit.GetExchangeAccountInfo sample_itbit
     = ({| exchange.AccountInfo.ExchangeName := "ITBIT";
           exchange.AccountInfo.Currencies := [] |}, None)
  /\ (ItBit.GetExchangeAccountInfo sample_itbit).1 <> exchange.AccountInfo.zero.
Proof.
  split; [intros methods i; split; reflexivity|]. split; [reflexivity|].
  simpl. intros Heq. discriminate Heq.
Qed.

(** ** The rate limiter *)

Section LimiterFacts.
Import dispatcher.
Variable limit : request.RateLimit.
Hypothesis window_positive : 0 < request.Duration limit.
Hypothesis rate_positive : 1 <= request.Rate limit.

Ltac compare_cases :=
  repeat match goal with
         | |- context [?a <=? ?b] => destruct (Z.leb_spec a b); simpl in *
         | |- context [?a <? ?b] => destruct (Z.ltb_spec a b); simpl in *
         | |- context [?a =? ?b] => destruct (Z.eqb_spec a b); simpl in *
         | |- context [Z.eq_dec ?a ?b] => destruct (Z.eq_dec a b); simpl in *
         | H : context [?a <? ?b] |- _ => destruct (Z.ltb_spec a b); simpl in *
         | H : context [?a =? ?b] |- _ => destruct (Z.eqb_spec a b); simpl in *
         end.

Ltac limiter_cases l :=
  unfold admit_call, consistent, slots_left in *; destruct l as [[?|] ?]; simpl in *;
  compare_cases.

Lemma admit_call_consistent (now clock : Z) (l : Limiter) :
  consistent limit clock l -> clock <= now ->
  consistent limit (admit_call limit now l).1 (admit_call limit now l).2.
Proof. intros Hl Hnow. limiter_cases l; lia. Qed.

(** An admission is never before the request, and lies in its window. *)
Lemma admit_call_instant (now clock : Z) (l : Limiter) :
  consistent limit clock l -> clock <= now ->
  let instant := (admit_call limit now l).1 in
  let window := default instant (WindowStart (admit_call limit now l).2) in
  now <= instant /\ window <= instant < window + request.Duration limit.
Proof. intros Hl Hnow. limiter_cases l; lia. Qed.

(** One step of the count: the slots of window [s] before a call cover the
    call itself, if it is counted in [s], and the slots left after it. *)
Lemma admit_call_slots (now clock s : Z) (l : Limiter) :
  consistent limit clock l -> clock <= now ->
  let instant := (admit_call limit now l).1 in
  let window := default instant (WindowStart (admit_call limit now l).2) in
  (if Z.eq_dec window s then 1 else 0) + slots_left limit s (admit_call limit now l).2
  <= slots_left limit s l
  /\ 0 <= slots_left limit s (admit_call limit now l).2.
Proof. intros Hl Hnow. limiter_cases l; lia. Qed.

Lemma serve_slots (arrivals : list Z) (s : Z) :
  forall (clock : Z) (l : Limiter),
    consistent limit clock l ->
    0 <= slots_left limit s l ->
    Z.of_nat (admitted_in s (serve limit arrivals clock l)) <= slots_left limit s l.
Proof.
  unfold admitted_in.
  induction arrivals as [|arrival arrivals IH]; intros clock l Hl Hslots; simpl.
  - exact Hslots.
  - pose proof (admit_call_consistent (Z.max arrival clock) clock l Hl ltac:(lia)) as Hl'.
    pose proof (admit_call_slots (Z.max arrival clock) clock s l Hl ltac:(lia)) as [Hstep Hpos].
    destruct (admit_call limit (Z.max arrival clock) l) as [instant l'].
    simpl in *. specialize (IH instant l' Hl' Hpos).
    change (list_fmap (Z * Z)%type Z snd (serve limit arrivals instant l'))
      with ((serve limit arrivals instant l').*2).
    destruct (Z.eq_dec (default instant (WindowStart l')) s); lia.
Qed.

Lemma serve_instants (arrivals : list Z) :
  forall (clock : Z) (l : Limiter),
    consistent limit clock l ->
    Forall2 (fun arrival entry =>
               arrival <= entry.1 /\ entry.2 <= entry.1 < entry.2 + request.Duration limit)
            arrivals (serve limit arrivals clock l).
Proof.
  induction arrivals as [|arrival arrivals IH]; intros clock l Hl; simpl.
  - constructor.
  - pose proof (admit_call_consistent (Z.max arrival clock) clock l Hl ltac:(lia)) as Hl'.
    pose proof (admit_call_instant (Z.max arrival clock) clock l Hl ltac:(lia)) as Hi.
    destruct (admit_call limit (Z.max arrival clock) l) as [instant l'].
    simpl in *. constructor; [simpl; lia|]. now apply IH.
Qed.

End LimiterFacts.

(** C8: ItBit configures its unauthenticated class with a window of one
    second; with a maximum of two calls, three requests issued
    back-to-back at [t] are admitted at [t], [t] and [t + 1s].  In
    general, for a positive window and a maximum of at least one, no window
    has more than the maximum counted in it, every admission lies in the
    window it is counted in and is not before its request, a request that
    finds the window full is admitted when the window ends, and with a
    deadline before that instant it times out without taking a slot. *)
Theorem third_call_waits_for_window :
  (forall (url : string) (authRate timeout : Z) (b : exchange.Base.t),
     unauth_limit (ItBit.SetDefaults url authRate 2 timeout b)
     = Some (request.NewRateLimit time.Second 2))
  /\ (forall t : Z,
        dispatcher.serve (request.NewRateLimit time.Second 2) [t; t; t] t dispatcher.idle
        = [(t, t); (t, t); (t + time.Second, t + time.Second)])
  /\ (forall (limit : request.RateLimit) (arrivals : list Z) (clock s : Z),
        0 < request.Duration limit ->
        1 <= request.Rate limit ->
        Z.of_nat (dispatcher.admitted_in s
                    (dispatcher.serve limit arrivals clock dispatcher.idle))
        <= request.Rate limit
        /\ Forall2 (fun arrival entry =>
                      arrival <= entry.1
                      /\ entry.2 <= entry.1 < entry.2 + request.Duration limit)
                   arrivals (dispatcher.serve limit arrivals clock dispatcher.idle))
  /\ (forall (limit : request.RateLimit) (now start : Z),
        start <= now < start + request.Duration limit ->
        (dispatcher.admit_call limit now
           {| dispatcher.WindowStart := Some start;
              dispatcher.Used := request.Rate limit |}).1
        = start + request.Duration limit)
  /\ (forall (limit : request.RateLimit) (now d : Z) (l : dispatcher.Limiter),
        d < (dispatcher.admit_call limit now l).1 ->
        dispatcher.admit_by limit now (Some d) l = (dispatcher.Timeout, l)).
Proof.
  split; [reflexivity|]. split; [|split; [|split]].
  - intros t. unfold dispatcher.serve, dispatcher.admit_call, time.Second, time.Nanosecond.
    simpl. rewrite !Z.max_id.
    destruct (Z.leb_spec (t + 1000000000 * 1) t); [lia|]. simpl.
    rewrite !Z.max_id.
    destruct (Z.leb_spec (t + 1000000000 * 1) t); [lia|]. reflexivity.
  - intros limit arrivals clock s Hwindow Hrate. split.
    + apply (serve_slots limit Hwindow Hrate arrivals s clock dispatcher.idle); simpl; [exact I|].
      unfold dispatcher.slots_left. simpl. lia.
    + now apply serve_instants.
  - intros limit now start Hnow. unfold dispatcher.admit_call. simpl.
    destruct (Z.leb_spec (start + request.Duration limit) now); [lia|].
    now rewrite Z.ltb_irrefl.
  - intros limit now d l Hd. unfold dispatcher.admit_by.
    destruct (dispatcher.admit_call limit now l) as [instant l']. simpl in Hd.
    destruct (Z.ltb_spec d instant); [reflexivity|lia].
Qed.

(** Five requests at instant 0 against two calls per second: at most two
    of them are counted in the window that starts at 0. *)
Lemma third_call_waits_for_window_witness :
  Z.of_nat (dispatcher.admitted_in 0
              (dispatcher.serve (request.NewRateLimit time.Second 2) [0; 0; 0; 0; 0] 0
                 dispatcher.idle)) <= 2.
Proof.
  apply (proj1 (proj2 (proj2 third_call_waits_for_window))
           (request.NewRateLimit time.Second 2) [0; 0; 0; 0; 0] 0 0).
  - reflexivity.
  - discriminate.
Defined.

(** * Further properties of the code *)

(** ** Masks built from the flag constants *)

Section MaskFacts.
Import exchange.

Lemma land_bit (m i : Z) :
  0 <= i -> Z.land m (Z.shiftl 1 i) = if Z.testbit m i then Z.shiftl 1 i else 0.
Proof.
  intros Hi. apply Z.bits_inj'. intros j Hj.
  rewrite Z.land_spec, testbit_shiftl_1 by lia.
  destruct (Z.testbit m i) eqn:Hb.
  - rewrite testbit_shiftl_1 by lia. case_bool_decide; subst.
    + now rewrite Hb.
    + apply andb_false_r.
  - rewrite Z.testbit_0_l. case_bool_decide; subst.
    + now rewrite Hb.
    + apply andb_false_r.
Qed.

Lemma shiftl_1_pos (i : Z) : 0 <= i -> 0 < Z.shiftl 1 i.
Proof. intros Hi. rewrite Z.shiftl_1_l. now apply Z.pow_pos_nonneg. Qed.

(** Testing a mask of flags with one flag: the flag itself when it was
    or-ed in, zero otherwise. *)
Lemma land_mask_of_flag (s : list Z) (f : Z) :
  s ⊆ Flags -> f ∈ Flags ->
  Z.land (mask_of s) f = if bool_decide (f ∈ s) then f else 0.
Proof.
  intros Hs Hf. apply elem_of_Flags in Hf as (i & _ & ->).
  rewrite land_bit by lia.
  pose proof (flag_in_mask s i Hs) as Hin.
  destruct (Z.testbit (mask_of s) (Z.of_nat i)) eqn:Hb.
  - rewrite bool_decide_eq_true_2; [reflexivity|]. now apply Hin.
  - rewrite bool_decide_eq_false_2; [reflexivity|].
    intros Hc. apply Hin in Hc. discriminate.
Qed.

Lemma mask_of_nonneg (s : list Z) : s ⊆ Flags -> 0 <= mask_of s.
Proof.
  induction s as [|f s IH]; intros Hs; simpl; [lia|].
  apply Z.lor_nonneg. split.
  - assert (f ∈ Flags) as Hf by (apply Hs; left).
    apply elem_of_Flags in Hf as (i & _ & ->).
    pose proof (shiftl_1_pos (Z.of_nat i)). lia.
  - apply IH. intros g Hg. apply Hs. now right.
Qed.

End MaskFacts.

(** X1: on a mask built by or-ing flag constants, the test [mask & flag]
    with one of the eighteen flags tells whether that flag was or-ed in:
    the result is the flag itself when it was, and zero when it was not. *)
Theorem flag_test_is_membership (s : list Z) (f : Z) :
  s ⊆ exchange.Flags -> f ∈ exchange.Flags ->
  (Z.land (exchange.mask_of s) f = f <-> f ∈ s)
  /\ (Z.land (exchange.mask_of s) f = 0 <-> f ∉ s).
Proof.
  intros Hs Hf. rewrite (land_mask_of_flag s f Hs Hf).
  assert (f <> 0) as Hnz.
  { apply elem_of_Flags in Hf as (i & _ & ->).
    pose proof (shiftl_1_pos (Z.of_nat i)). lia. }
  case_bool_decide; split; split; intros; try reflexivity; try assumption;
    try congruence.
Qed.

Lemma flag_test_is_membership_witness :
  Z.land (exchange.mask_of [exchange.AutoWithdrawCrypto; exchange.AutoWithdrawFiat])
         exchange.AutoWithdrawFiat = exchange.AutoWithdrawFiat
  /\ Z.land (exchange.mask_of [exchange.AutoWithdrawCrypto; exchange.AutoWithdrawFiat])
            exchange.WithdrawFiatViaWebsiteOnly = 0.
Proof.
  assert ([exchange.AutoWithdrawCrypto; exchange.AutoWithdrawFiat] ⊆ exchange.Flags) as Hs.
  { intros f Hf. apply list_elem_of_In in Hf. apply list_elem_of_In.
    vm_compute in Hf. vm_compute. tauto. }
  split.
  - apply (flag_test_is_membership _ exchange.AutoWithdrawFiat Hs).
    + apply list_elem_of_In. vm_compute. tauto.
    + apply list_elem_of_In. vm_compute. tauto.
  - apply (flag_test_is_membership _ exchange.WithdrawFiatViaWebsiteOnly Hs).
    + apply list_elem_of_In. vm_compute. tauto.
    + intros Hc. apply list_elem_of_In in Hc. vm_compute in Hc.
      destruct Hc as [Hc|[Hc|[]]]; discriminate Hc.
Defined.

(** X2: every mask built by or-ing flag constants lies in [0, 2^18), so it
    fits the 32-bit field with the upper fourteen bits clear. *)
Theorem mask_of_flags_bound (s : list Z) :
  s ⊆ exchange.Flags -> 0 <= exchange.mask_of s < 2 ^ 18.
Proof.
  intros Hs. pose proof (mask_of_nonneg s Hs) as Hnn. split; [exact Hnn|].
  destruct (decide (exchange.mask_of s = 0)) as [->|Hne]; [reflexivity|].
  apply Z.log2_lt_pow2; [lia|].
  destruct (Z.lt_ge_cases (Z.log2 (exchange.mask_of s)) 18) as [Hlt|Hge]; [exact Hlt|].
  exfalso.
  assert (Z.testbit (exchange.mask_of s) (Z.log2 (exchange.mask_of s)) = true) as Hbit
    by (apply Z.bit_log2; lia).
  rewrite testbit_mask_of in Hbit. apply existsb_exists in Hbit as (f & Hin & Hf).
  apply list_elem_of_In in Hin.
  destruct (proj1 (elem_of_Flags f) (Hs f Hin)) as (i & Hi & ->).
  rewrite testbit_shiftl_1 in Hf by lia.
  apply bool_decide_eq_true_1 in Hf. lia.
Qed.

Lemma mask_of_flags_bound_witness :
  0 <= exchange.mask_of exchange.Flags < 2 ^ 18.
Proof. apply mask_of_flags_bound. intros f Hf. exact Hf. Defined.

(** X3: a mask built from flag constants is NoAPIWithdrawalMethods (zero)
    exactly when no flag was or-ed in. *)
Theorem mask_of_zero_iff_no_flag (s : list Z) :
  s ⊆ exchange.Flags ->
  exchange.mask_of s = exchange.NoAPIWithdrawalMethods <-> s = [].
Proof.
  intros Hs. split; [|now intros ->].
  intros Hz. destruct s as [|f s]; [reflexivity|]. exfalso.
  assert (f ∈ exchange.Flags) as Hf by (apply Hs; left).
  apply elem_of_Flags in Hf as (i & _ & ->).
  assert (Z.testbit (exchange.mask_of (Z.shiftl 1 (Z.of_nat i) :: s)) (Z.of_nat i) = true)
    as Hbit.
  { rewrite testbit_mask_of. simpl. rewrite testbit_shiftl_1 by lia.
    now rewrite bool_decide_eq_true_2. }
  rewrite Hz in Hbit. unfold exchange.NoAPIWithdrawalMethods in Hbit.
  rewrite Z.testbit_0_l in Hbit. discriminate.
Qed.

Lemma mask_of_zero_iff_no_flag_witness :
  exchange.mask_of [exchange.WithdrawCryptoViaWebsiteOnly] = exchange.NoAPIWithdrawalMethods
  <-> [exchange.WithdrawCryptoViaWebsiteOnly] = [].
Proof.
  apply mask_of_zero_iff_no_flag.
  intros f Hf. apply list_elem_of_singleton in Hf as ->.
  apply list_elem_of_In. vm_compute. tauto.
Defined.

(** ** Defaults and set-up *)

(** X4: Gemini's and ItBit's SetDefaults are idempotent, and what they
    leave of the base they are given is independent of its endpoint: the
    REST endpoint in use is reset to the default one, which is the
    wrapper's constant, whatever the base carried before (a sandbox URL
    for instance), while the credentials are kept. *)
Theorem SetDefaults_idempotent
    (geminiAPIURL itbitAPIURL : string)
    (geminiAuthRate geminiUnauthRate itbitAuthRate itbitUnauthRate DefaultHTTPTimeout : Z)
    (x : exchange.Base.t) :
  let gemini := Gemini.SetDefaults geminiAPIURL geminiAuthRate geminiUnauthRate
                  DefaultHTTPTimeout in
  let itbit := ItBit.SetDefaults itbitAPIURL itbitAuthRate itbitUnauthRate
                 DefaultHTTPTimeout in
  gemini (gemini x) = gemini x
  /\ itbit (itbit x) = itbit x
  /\ (forall url : string,
        gemini (exchange.Base.set_API (exchange.API.set_URL url (exchange.Base.API x)) x)
        = gemini x
        /\ itbit (exchange.Base.set_API (exchange.API.set_URL url (exchange.Base.API x)) x)
           = itbit x)
  /\ exchange.Endpoints.URL (exchange.API.Endpoints (exchange.Base.API (gemini x)))
     = geminiAPIURL
  /\ exchange.Endpoints.URL (exchange.API.Endpoints (exchange.Base.API (itbit x)))
     = itbitAPIURL
  /\ exchange.API.Credentials (exchange.Base.API (gemini x))
     = exchange.API.Credentials (exchange.Base.API x)
  /\ exchange.API.Credentials (exchange.Base.API (itbit x))
     = exchange.API.Credentials (exchange.Base.API x).
Proof.
  intros gemini itbit. subst gemini itbit.
  split; [reflexivity|]. split; [reflexivity|].
  split; [intros url; split; reflexivity|]. repeat split.
Qed.

(** X5: the capabilities a wrapper declares in SetDefaults, as its
    GetWithdrawCapabilities reports them: of the eighteen flags Gemini
    supports exactly automatic crypto withdrawal with API permission and
    with set-up and fiat withdrawal via the website; ItBit supports
    exactly crypto and fiat withdrawal via the website.  Assumed of
    GetWithdrawPermissions, which is outside the sources: it reads the
    mask of the base. *)
Theorem declared_capabilities
    {methods : exchange.Methods} (methodsLaws : exchange.MethodsLaws methods)
    (geminiAPIURL itbitAPIURL : string)
    (geminiAuthRate geminiUnauthRate itbitAuthRate itbitUnauthRate DefaultHTTPTimeout : Z)
    (x : exchange.Base.t) (f : Z) :
  f ∈ exchange.Flags ->
  (Z.land (Gemini.GetWithdrawCapabilities
             (Gemini.SetDefaults geminiAPIURL geminiAuthRate geminiUnauthRate
                DefaultHTTPTimeout x)) f = f
   <-> f ∈ [exchange.AutoWithdrawCryptoWithAPIPermission;
            exchange.AutoWithdrawCryptoWithSetup;
            exchange.WithdrawFiatViaWebsiteOnly])
  /\ (Z.land (ItBit.GetWithdrawCapabilities
                (ItBit.SetDefaults itbitAPIURL itbitAuthRate itbitUnauthRate
                   DefaultHTTPTimeout x)) f = f
      <-> f ∈ [exchange.WithdrawCryptoViaWebsiteOnly;
               exchange.WithdrawFiatViaWebsiteOnly]).
Proof.
  intros Hf.
  assert (f <> 0) as Hnz.
  { apply elem_of_Flags in Hf as (i & _ & ->).
    pose proof (shiftl_1_pos (Z.of_nat i)). lia. }
  unfold Gemini.GetWithdrawCapabilities, ItBit.GetWithdrawCapabilities.
  rewrite !exchange.GetWithdrawPermissions_mask. simpl.
  split.
  - change (Z.lor (Z.lor exchange.AutoWithdrawCryptoWithAPIPermission
                         exchange.AutoWithdrawCryptoWithSetup)
                  exchange.WithdrawFiatViaWebsiteOnly)
      with (exchange.mask_of [exchange.AutoWithdrawCryptoWithAPIPermission;
                              exchange.AutoWithdrawCryptoWithSetup;
                              exchange.WithdrawFiatViaWebsiteOnly]).
    rewrite land_mask_of_flag; [|
      intros h Hh; apply list_elem_of_In in Hh; apply list_elem_of_In;
      vm_compute in Hh; vm_compute; tauto | exact Hf].
    case_bool_decide; split; intros; try assumption; try reflexivity; congruence.
  - change (Z.lor exchange.WithdrawCryptoViaWebsiteOnly exchange.WithdrawFiatViaWebsiteOnly)
      with (exchange.mask_of [exchange.WithdrawCryptoViaWebsiteOnly;
                              exchange.WithdrawFiatViaWebsiteOnly]).
    rewrite land_mask_of_flag; [|
      intros h Hh; apply list_elem_of_In in Hh; apply list_elem_of_In;
      vm_compute in Hh; vm_compute; tauto | exact Hf].
    case_bool_decide; split; intros; try assumption; try reflexivity; congruence.
Qed.

(** Gemini declares fiat withdrawal via the website. *)
Lemma declared_capabilities_witness :
  Z.land (Gemini.GetWithdrawCapabilities sample_gemini) exchange.WithdrawFiatViaWebsiteOnly
  = exchange.WithdrawFiatViaWebsiteOnly.
Proof.
  assert (exchange.WithdrawFiatViaWebsiteOnly ∈ exchange.Flags) as Hf
    by (apply list_elem_of_In; vm_compute; tauto).
  apply (proj1 (declared_capabilities field_methods_laws
                  "https://api.gemini.com" "https://api.itbit.com/v1"
                  600 120 2 2 (15 * time.Second) zero_base
                  exchange.WithdrawFiatViaWebsiteOnly Hf)).
  apply list_elem_of_In. vm_compute. tauto.
Defined.

(** X6: Setup ends the process through log.Fatal exactly when the
    configuration enables the exchange and a set-up step fails, with the
    error of that step: SetupDefaults on all four wrappers, and on
    Bitstamp and BTCC also WebsocketSetup, which runs on the base that
    SetupDefaults returned and only when SetupDefaults succeeded.  Setup
    never panics. *)
Theorem setup_is_fatal_iff_a_step_fails
    {methods : exchange.Methods}
    (SetupDefaults :
       config.ExchangeConfig -> exchange.Base.t -> exchange.Base.t * option error)
    (WebsocketSetup :
       string -> bool -> string -> string -> exchange.Base.t -> exchange.Base.t * option error)
    (geminiSandboxAPIURL BitstampPusherKey btccSocketioAddress : string)
    (b : exchange.Base.t) (exch : config.ExchangeConfig) (err : error) :
  let websocket (key : string) :=
    WebsocketSetup (config.Name exch) (config.Features_Enabled_Websocket exch) key
      (config.API_Endpoints_WebsocketURL exch) (SetupDefaults exch b).1 in
  let two_steps (key : string) :=
    config.Enabled exch = true
    /\ ((SetupDefaults exch b).2 = Some err
        \/ (SetupDefaults exch b).2 = None /\ (websocket key).2 = Some err) in
  (Gemini.Setup SetupDefaults geminiSandboxAPIURL b exch = Fatal err
   <-> config.Enabled exch = true /\ (SetupDefaults exch b).2 = Some err)
  /\ (ItBit.Setup SetupDefaults b exch = Fatal err
      <-> config.Enabled exch = true /\ (SetupDefaults exch b).2 = Some err)
  /\ (Bitstamp.Setup SetupDefaults WebsocketSetup BitstampPusherKey b exch = Fatal err
      <-> two_steps BitstampPusherKey)
  /\ (BTCC.Setup SetupDefaults WebsocketSetup btccSocketioAddress b exch = Fatal err
      <-> two_steps btccSocketioAddress)
  /\ forall msg : string,
       Gemini.Setup SetupDefaults geminiSandboxAPIURL b exch <> Panics msg
       /\ ItBit.Setup SetupDefaults b exch <> Panics msg
       /\ Bitstamp.Setup SetupDefaults WebsocketSetup BitstampPusherKey b exch <> Panics msg
       /\ BTCC.Setup SetupDefaults WebsocketSetup btccSocketioAddress b exch <> Panics msg.
Proof.
  intros websocket two_steps. subst two_steps websocket.
  unfold Gemini.Setup, ItBit.Setup, Bitstamp.Setup, BTCC.Setup.
  destruct (config.Enabled exch); simpl.
  2: { repeat split; try discriminate; intros [H _]; discriminate H. }
  destruct (SetupDefaults exch b) as [b' [e|]]; simpl.
  - repeat split; try discriminate; intros; simpl in *; intuition congruence.
  - destruct (WebsocketSetup _ _ BitstampPusherKey _ b') as [b1 [e1|]];
      destruct (WebsocketSetup _ _ btccSocketioAddress _ b') as [b2 [e2|]];
      destruct (config.UseSandbox exch); simpl;
      repeat split; try discriminate; intros; simpl in *; intuition congruence.
Qed.

(** ** Market data: what a call touches *)

Section FrameFacts.
Context {tickerStore : ticker.Store} {orderbookStore : orderbook.Store}.
Context {methods : exchange.Methods}.
Variable ParseFloat : string -> result float64.

(** Parsing levels prints, and does nothing else to the world. *)
Lemma ItBit_parseLevel_frame (data : list string) (w : World) :
  let w' := (ItBit.parseLevel ParseFloat data w).2 in
  Tickers w' = Tickers w /\ Orderbooks w' = Orderbooks w /\ Sent w' = Sent w.
Proof.
  unfold ItBit.parseLevel.
  destruct (data !! 0%nat) as [s0|]; [|easy].
  destruct (ParseFloat s0) as [price [e0|]];
    (destruct (data !! 1%nat) as [s1|]; [|easy]);
    destruct (ParseFloat s1) as [amount [e1|]]; easy.
Qed.

Lemma ItBit_appendBids_frame (levels : list (list string)) (ob : orderbook.Base) (w : World) :
  let w' := (ItBit.appendBids ParseFloat ob levels w).2 in
  Tickers w' = Tickers w /\ Orderbooks w' = Orderbooks w /\ Sent w' = Sent w.
Proof.
  revert ob w. induction levels as [|data levels IH]; intros ob w; simpl; [easy|].
  pose proof (ItBit_parseLevel_frame data w) as Hf.
  destruct (ItBit.parseLevel ParseFloat data w) as [[item|err|msg] w1]; simpl in Hf;
    [|easy..].
  specialize (IH (orderbook.with_Bids (orderbook.Bids ob ++ [item]) ob) w1).
  simpl in IH. intuition congruence.
Qed.

Lemma ItBit_appendAsks_frame (levels : list (list string)) (ob : orderbook.Base) (w : World) :
  let w' := (ItBit.appendAsks ParseFloat ob levels w).2 in
  Tickers w' = Tickers w /\ Orderbooks w' = Orderbooks w /\ Sent w' = Sent w.
Proof.
  revert ob w. induction levels as [|data levels IH]; intros ob w; simpl; [easy|].
  pose proof (ItBit_parseLevel_frame data w) as Hf.
  destruct (ItBit.parseLevel ParseFloat data w) as [[item|err|msg] w1]; simpl in Hf;
    [|easy..].
  specialize (IH (orderbook.with_Asks (orderbook.Asks ob ++ [item]) ob) w1).
  simpl in IH. intuition congruence.
Qed.

(** A list of levels is parsed to the end when every level has both
    fields, and panics at the first level that has not. *)
Lemma ItBit_appendBids_cases (levels : list (list string)) (ob : orderbook.Base) (w : World) :
  (Forall has_both_fields levels
   /\ exists ob' w', ItBit.appendBids ParseFloat ob levels w = (Returns ob', w'))
  \/ (~ Forall has_both_fields levels
      /\ exists msg w', ItBit.appendBids ParseFloat ob levels w = (Panics msg, w')).
Proof.
  revert ob w. induction levels as [|data levels IH]; intros ob w; simpl.
  - left. split; [constructor|]. now eexists _, _.
  - destruct (decide (2 <= length data)%nat) as [Hdata|Hshort].
    + rewrite (ItBit_parseLevel ParseFloat data w Hdata).
      destruct (IH (orderbook.with_Bids
                      (orderbook.Bids ob ++ [itbit_item ParseFloat data]) ob)
                   (logging (itbit_errors ParseFloat data) w))
        as [[Hall Hret]|[Hnot Hpanic]].
      * left. split; [now constructor|exact Hret].
      * right. split; [|exact Hpanic]. intros Hc. apply Hnot. now inversion Hc.
    + right. split; [intros Hc; now inversion Hc|].
      destruct (ItBit_parseLevel_short ParseFloat data w Hshort) as (msg & w' & ->).
      now eexists _, _.
Qed.

Lemma ItBit_appendAsks_cases (levels : list (list string)) (ob : orderbook.Base) (w : World) :
  (Forall has_both_fields levels
   /\ exists ob' w', ItBit.appendAsks ParseFloat ob levels w = (Returns ob', w'))
  \/ (~ Forall has_both_fields levels
      /\ exists msg w', ItBit.appendAsks ParseFloat ob levels w = (Panics msg, w')).
Proof.
  revert ob w. induction levels as [|data levels IH]; intros ob w; simpl.
  - left. split; [constructor|]. now eexists _, _.
  - destruct (decide (2 <= length data)%nat) as [Hdata|Hshort].
    + rewrite (ItBit_parseLevel ParseFloat data w Hdata).
      destruct (IH (orderbook.with_Asks
                      (orderbook.Asks ob ++ [itbit_item ParseFloat data]) ob)
                   (logging (itbit_errors ParseFloat data) w))
        as [[Hall Hret]|[Hnot Hpanic]].
      * left. split; [now constructor|exact Hret].
      * right. split; [|exact Hpanic]. intros Hc. apply Hnot. now inversion Hc.
    + right. split; [intros Hc; now inversion Hc|].
      destruct (ItBit_parseLevel_short ParseFloat data w Hshort) as (msg & w' & ->).
      now eexists _, _.
Qed.

Variable FormatExchangeCurrency : string -> pair.CurrencyPair -> string.
Variable GetOrderbook : Venue ItBit.OrderbookResponse.t.
Variables (i : exchange.Base.t) (p : pair.CurrencyPair) (assetType : string).

(** Up to the write of the finished book, ItBit's update sends its one
    request and prints; on a panic the write is not reached. *)
Lemma ItBit_UpdateOrderbook_frame (w : World) :
  let r := ItBit.UpdateOrderbook FormatExchangeCurrency GetOrderbook ParseFloat i p
             assetType w in
  Tickers r.2 = Tickers w
  /\ Sent r.2
     = Sent w ++ [ {| Exchange := exchange.Base.Name i; Endpoint := "order_book";
                      Symbol := FormatExchangeCurrency (exchange.Base.Name i) p |} ]
  /\ (forall msg, r.1 = Panics msg -> Orderbooks r.2 = Orderbooks w).
Proof.
  unfold ItBit.UpdateOrderbook, rest.
  destruct (GetOrderbook _ _) as [resp [e|]]; simpl; [easy|].
  match goal with |- context [ItBit.appendBids _ ?ob ?levels ?w0] =>
    pose proof (ItBit_appendBids_frame levels ob w0) as Hb;
    destruct (ItBit.appendBids ParseFloat ob levels w0) as [[ob1|err|msg1] w1]
  end; simpl in Hb; [|easy|].
  - match goal with |- context [ItBit.appendAsks _ ?ob ?levels ?w0] =>
      pose proof (ItBit_appendAsks_frame levels ob w0) as Ha;
      destruct (ItBit.appendAsks ParseFloat ob levels w0) as [[ob2|err|msg2] w2]
    end; simpl in Ha; [| |]; simpl.
    + split; [intuition congruence|]. split; [intuition congruence|]. discriminate.
    + split; [intuition congruence|]. split; [intuition congruence|]. discriminate.
    + split; [intuition congruence|]. split; [intuition congruence|].
      intros _ _. intuition congruence.
  - simpl. split; [intuition congruence|]. split; [intuition congruence|].
    intros _ _. intuition congruence.
Qed.

End FrameFacts.

(** X7: the two stores are kept apart.  On Gemini, Bitstamp and ItBit a
    ticker operation (UpdateTicker, FetchTicker) never changes the
    order-book store and prints nothing, whatever the venue answers; an
    order-book operation (UpdateOrderbook, FetchOrderbook) never changes
    the ticker store, also when ItBit's panics. *)
Theorem ticker_and_orderbook_stores_are_separate
    {tickerStore : ticker.Store} {orderbookStore : orderbook.Store}
    {methods : exchange.Methods}
    (pairString : pair.CurrencyPair -> string)
    (FormatExchangeCurrency : string -> pair.CurrencyPair -> string)
    (GetTickerG : Venue Gemini.Ticker.t) (GetOrderbookG : Venue Gemini.Orderbook.t)
    (GetTickerB : Venue Bitstamp.Ticker.t) (GetOrderbookB : Venue Bitstamp.Orderbook.t)
    (GetTickerI : Venue ItBit.Ticker.t) (GetOrderbookI : Venue ItBit.OrderbookResponse.t)
    (ParseFloat : string -> result float64)
    (x : exchange.Base.t) (p : pair.CurrencyPair) (assetType : string) (w : World) :
  Forall (fun w' : World => Orderbooks w' = Orderbooks w /\ Logged w' = Logged w)
    [ (Gemini.UpdateTicker pairString GetTickerG x p assetType w).2;
      (Gemini.FetchTicker pairString GetTickerG x p assetType w).2;
      (Bitstamp.UpdateTicker pairString GetTickerB x p assetType w).2;
      (Bitstamp.FetchTicker pairString GetTickerB x p assetType w).2;
      (ItBit.UpdateTicker FormatExchangeCurrency GetTickerI x p assetType w).2;
      (ItBit.FetchTicker FormatExchangeCurrency GetTickerI x p assetType w).2 ]
  /\ Forall (fun w' : World => Tickers w' = Tickers w)
       [ (Gemini.UpdateOrderbook pairString GetOrderbookG x p assetType w).2;
         (Gemini.FetchOrderbook pairString GetOrderbookG x p assetType w).2;
         (Bitstamp.UpdateOrderbook pairString GetOrderbookB x p assetType w).2;
         (Bitstamp.FetchOrderbook pairString GetOrderbookB x p assetType w).2;
         (ItBit.UpdateOrderbook FormatExchangeCurrency GetOrderbookI ParseFloat x p
            assetType w).2;
         (ItBit.FetchOrderbook FormatExchangeCurrency GetOrderbookI ParseFloat x p
            assetType w).2 ].
Proof.
  pose proof (ItBit_UpdateOrderbook_frame ParseFloat FormatExchangeCurrency GetOrderbookI
                x p assetType w) as (Hitbit & _ & _).
  split; repeat apply Forall_cons_2; try apply Forall_nil_2;
    unfold Gemini.FetchTicker, Bitstamp.FetchTicker, ItBit.FetchTicker,
      Gemini.FetchOrderbook, Bitstamp.FetchOrderbook, ItBit.FetchOrderbook;
    try exact Hitbit;
    repeat match goal with
    | |- context [ticker.GetTicker (Tickers w) ?n ?q ?a] =>
      destruct (ticker.GetTicker (Tickers w) n q a) as [? [?|]]; simpl
    | |- context [orderbook.GetOrderbook (Orderbooks w) ?n ?q ?a] =>
      destruct (orderbook.GetOrderbook (Orderbooks w) n q a) as [? [?|]]; simpl
    end;
    try exact Hitbit; try easy;
    unfold Gemini.UpdateTicker, Bitstamp.UpdateTicker, ItBit.UpdateTicker,
      Gemini.UpdateOrderbook, Bitstamp.UpdateOrderbook, rest;
    match goal with
    | |- context [?venue (length (Sent w)) ?s] =>
      destruct (venue (length (Sent w)) s) as [? [?|]]; simpl; easy
    end.
Qed.

(** X8: every update sends exactly one request, which names the exchange
    and the pair's symbol, whether the venue answers, fails, or (ItBit)
    the answer makes the update panic; a fetch therefore sends one request
    or none. *)
Theorem update_sends_exactly_one_request
    {tickerStore : ticker.Store} {orderbookStore : orderbook.Store}
    {methods : exchange.Methods}
    (pairString : pair.CurrencyPair -> string)
    (FormatExchangeCurrency : string -> pair.CurrencyPair -> string)
    (GetTickerG : Venue Gemini.Ticker.t) (GetOrderbookG : Venue Gemini.Orderbook.t)
    (GetTickerB : Venue Bitstamp.Ticker.t) (GetOrderbookB : Venue Bitstamp.Orderbook.t)
    (GetTickerI : Venue ItBit.Ticker.t) (GetOrderbookI : Venue ItBit.OrderbookResponse.t)
    (ParseFloat : string -> result float64)
    (x : exchange.Base.t) (p : pair.CurrencyPair) (assetType : string) (w : World) :
  let one (symbol : string) (w' : World) :=
    exists r : Request,
      Sent w' = Sent w ++ [r]
      /\ Exchange r = exchange.Base.Name x /\ Symbol r = symbol in
  Forall (one (pairString p))
    [ (Gemini.UpdateTicker pairString GetTickerG x p assetType w).2;
      (Gemini.UpdateOrderbook pairString GetOrderbookG x p assetType w).2;
      (Bitstamp.UpdateTicker pairString GetTickerB x p assetType w).2;
      (Bitstamp.UpdateOrderbook pairString GetOrderbookB x p assetType w).2 ]
  /\ Forall (one (FormatExchangeCurrency (exchange.Base.Name x) p))
       [ (ItBit.UpdateTicker FormatExchangeCurrency GetTickerI x p assetType w).2;
         (ItBit.UpdateOrderbook FormatExchangeCurrency GetOrderbookI ParseFloat x p
            assetType w).2 ]
  /\ Forall (fun w' : World => (length (Sent w') <= S (length (Sent w)))%nat)
       [ (Gemini.FetchTicker pairString GetTickerG x p assetType w).2;
         (Gemini.FetchOrderbook pairString GetOrderbookG x p assetType w).2;
         (Bitstamp.FetchTicker pairString GetTickerB x p assetType w).2;
         (Bitstamp.FetchOrderbook pairString GetOrderbookB x p assetType w).2;
         (ItBit.FetchTicker FormatExchangeCurrency GetTickerI x p assetType w).2;
         (ItBit.FetchOrderbook FormatExchangeCurrency GetOrderbookI ParseFloat x p
            assetType w).2 ].
Proof.
  intros one.
  pose proof (ItBit_UpdateOrderbook_frame ParseFloat FormatExchangeCurrency GetOrderbookI
                x p assetType w) as (_ & Hitbit & _).
  assert (one (pairString p)
            (Gemini.UpdateTicker pairString GetTickerG x p assetType w).2) as HG.
  { unfold Gemini.UpdateTicker, rest.
    destruct (GetTickerG _ _) as [? [?|]]; simpl; now eexists. }
  assert (one (pairString p)
            (Gemini.UpdateOrderbook pairString GetOrderbookG x p assetType w).2) as HGo.
  { unfold Gemini.UpdateOrderbook, rest.
    destruct (GetOrderbookG _ _) as [? [?|]]; simpl; now eexists. }
  assert (one (pairString p)
            (Bitstamp.UpdateTicker pairString GetTickerB x p assetType w).2) as HB.
  { unfold Bitstamp.UpdateTicker, rest.
    destruct (GetTickerB _ _) as [? [?|]]; simpl; now eexists. }
  assert (one (pairString p)
            (Bitstamp.UpdateOrderbook pairString GetOrderbookB x p assetType w).2) as HBo.
  { unfold Bitstamp.UpdateOrderbook, rest.
    destruct (GetOrderbookB _ _) as [? [?|]]; simpl; now eexists. }
  assert (one (FormatExchangeCurrency (exchange.Base.Name x) p)
            (ItBit.UpdateTicker FormatExchangeCurrency GetTickerI x p assetType w).2) as HI.
  { unfold ItBit.UpdateTicker, rest.
    destruct (GetTickerI _ _) as [? [?|]]; simpl; now eexists. }
  assert (one (FormatExchangeCurrency (exchange.Base.Name x) p)
            (ItBit.UpdateOrderbook FormatExchangeCurrency GetOrderbookI ParseFloat x p
               assetType w).2) as HIo.
  { eexists. split; [exact Hitbit|]. now split. }
  assert (forall (symbol : string) (w' : World),
            one symbol w' -> (length (Sent w') <= S (length (Sent w)))%nat) as Hle.
  { intros symbol w' (r & -> & _). rewrite length_app. simpl. lia. }
  split; [repeat apply Forall_cons_2; try apply Forall_nil_2; assumption|].
  split; [repeat apply Forall_cons_2; try apply Forall_nil_2; assumption|].
  repeat apply Forall_cons_2; try apply Forall_nil_2;
    unfold Gemini.FetchTicker, Bitstamp.FetchTicker, ItBit.FetchTicker,
      Gemini.FetchOrderbook, Bitstamp.FetchOrderbook, ItBit.FetchOrderbook;
    match goal with
    | |- context [ticker.GetTicker (Tickers w) ?n ?q ?a] =>
      destruct (ticker.GetTicker (Tickers w) n q a) as [? [?|]]
    | |- context [orderbook.GetOrderbook (Orderbooks w) ?n ?q ?a] =>
      destruct (orderbook.GetOrderbook (Orderbooks w) n q a) as [? [?|]]
    end; simpl; try lia; eapply Hle; eassumption.
Qed.

(** ** Market data: failures *)

Section RetryFacts.
Context {tickerStore : ticker.Store} {orderbookStore : orderbook.Store}.

Lemma failure_not_cached_intro {V Snap : Type} (read : World -> result Snap)
    (fetch update : World -> outcome (result Snap) * World)
    (answer : World -> result V) (zero : Snap)
    (read_of : ticker.Registry -> orderbook.Registry -> result Snap) :
  (forall w, read w = read_of (Tickers w) (Orderbooks w)) ->
  (forall w s e, read w = (s, Some e) -> fetch w = update w) ->
  failure_leaves_stores update answer zero ->
  failure_not_cached read fetch update answer zero.
Proof.
  intros Hread Hmiss Hfail w s e v e1 Hr Ha.
  destruct (Hfail w v e1 Ha) as (w1 & Hu & HT & HO).
  exists w1. rewrite (Hmiss _ _ _ Hr). split; [exact Hu|].
  assert (read w1 = (s, Some e)) as Hr1 by (rewrite Hread, HT, HO, <- Hread; exact Hr).
  split; [exact Hr1|]. eapply Hmiss. exact Hr1.
Qed.

End RetryFacts.

(** X9: a failed refresh is not cached.  On Gemini, Bitstamp and ItBit,
    when FetchTicker or FetchOrderbook misses and the venue's request
    fails, the fetch returns the zero snapshot with the venue's error, the
    key is still a miss afterwards, and the next fetch on it asks the
    venue again.  Assumed of GetName, which is outside the sources: it
    reads the name. *)
Theorem failed_fetch_is_not_cached
    {tickerStore : ticker.Store} {orderbookStore : orderbook.Store}
    {methods : exchange.Methods} (methodsLaws : exchange.MethodsLaws methods)
    (pairString : pair.CurrencyPair -> string)
    (FormatExchangeCurrency : string -> pair.CurrencyPair -> string)
    (GetTickerG : Venue Gemini.Ticker.t) (GetOrderbookG : Venue Gemini.Orderbook.t)
    (GetTickerB : Venue Bitstamp.Ticker.t) (GetOrderbookB : Venue Bitstamp.Orderbook.t)
    (GetTickerI : Venue ItBit.Ticker.t) (GetOrderbookI : Venue ItBit.OrderbookResponse.t)
    (ParseFloat : string -> result float64)
    (x : exchange.Base.t) (p : pair.CurrencyPair) (assetType : string) :
  failure_not_cached
    (readTicker (exchange.Base.Name x) p assetType)
    (returning (Gemini.FetchTicker pairString GetTickerG x p assetType))
    (returning (Gemini.UpdateTicker pairString GetTickerG x p assetType))
    (fun w => GetTickerG (length (Sent w)) (pairString p))
    ticker.zero
  /\ failure_not_cached
       (readOrderbook (exchange.Base.Name x) p assetType)
       (returning (Gemini.FetchOrderbook pairString GetOrderbookG x p assetType))
       (returning (Gemini.UpdateOrderbook pairString GetOrderbookG x p assetType))
       (fun w => GetOrderbookG (length (Sent w)) (pairString p))
       orderbook.zero
  /\ failure_not_cached
       (readTicker (exchange.Base.Name x) p assetType)
       (returning (Bitstamp.FetchTicker pairString GetTickerB x p assetType))
       (returning (Bitstamp.UpdateTicker pairString GetTickerB x p assetType))
       (fun w => GetTickerB (length (Sent w)) (pairString p))
       ticker.zero
  /\ failure_not_cached
       (readOrderbook (exchange.Base.Name x) p assetType)
       (returning (Bitstamp.FetchOrderbook pairString GetOrderbookB x p assetType))
       (returning (Bitstamp.UpdateOrderbook pairString GetOrderbookB x p assetType))
       (fun w => GetOrderbookB (length (Sent w)) (pairString p))
       orderbook.zero
  /\ failure_not_cached
       (readTicker (exchange.Base.Name x) p assetType)
       (returning (ItBit.FetchTicker FormatExchangeCurrency GetTickerI x p assetType))
       (returning (ItBit.UpdateTicker FormatExchangeCurrency GetTickerI x p assetType))
       (fun w => GetTickerI (length (Sent w))
                   (FormatExchangeCurrency (exchange.Base.Name x) p))
       ticker.zero
  /\ failure_not_cached
       (readOrderbook (exchange.Base.Name x) p assetType)
       (ItBit.FetchOrderbook FormatExchangeCurrency GetOrderbookI ParseFloat x p assetType)
       (ItBit.UpdateOrderbook FormatExchangeCurrency GetOrderbookI ParseFloat x p assetType)
       (fun w => GetOrderbookI (length (Sent w))
                   (FormatExchangeCurrency (exchange.Base.Name x) p))
       orderbook.zero.
Proof.
  repeat split.
  - apply (failure_not_cached_intro _ _ _ _ _
             (fun tickers _ => ticker.GetTicker tickers (exchange.Base.Name x) p assetType));
      [reflexivity | fetch_reads_store (@Gemini.FetchTicker) | apply Gemini_ticker_failure].
  - apply (failure_not_cached_intro _ _ _ _ _
             (fun _ orderbooks =>
                orderbook.GetOrderbook orderbooks (exchange.Base.Name x) p assetType));
      [reflexivity | fetch_reads_store (@Gemini.FetchOrderbook)
      | apply Gemini_orderbook_failure].
  - apply (failure_not_cached_intro _ _ _ _ _
             (fun tickers _ => ticker.GetTicker tickers (exchange.Base.Name x) p assetType));
      [reflexivity | fetch_reads_store (@Bitstamp.FetchTicker)
      | apply Bitstamp_ticker_failure].
  - apply (failure_not_cached_intro _ _ _ _ _
             (fun _ orderbooks =>
                orderbook.GetOrderbook orderbooks (exchange.Base.Name x) p assetType));
      [reflexivity | fetch_reads_store (@Bitstamp.FetchOrderbook)
      | apply Bitstamp_orderbook_failure].
  - apply (failure_not_cached_intro _ _ _ _ _
             (fun tickers _ => ticker.GetTicker tickers (exchange.Base.Name x) p assetType));
      [reflexivity | fetch_reads_store (@ItBit.FetchTicker) | apply ItBit_ticker_failure].
  - apply (failure_not_cached_intro _ _ _ _ _
             (fun _ orderbooks =>
                orderbook.GetOrderbook orderbooks (exchange.Base.Name x) p assetType));
      [reflexivity | | apply ItBit_orderbook_failure].
    intros w s e Hread. unfold ItBit.FetchOrderbook. rewrite exchange.GetName_Name.
    unfold readOrderbook in Hread. now rewrite Hread.
Qed.

(** Gemini's venue is down for the first request: the fetch fails, the
    key stays a miss, and the second fetch stores and returns the quote. *)
Lemma failed_fetch_is_not_cached_witness :
  exists w1 w2 : World,
    Gemini.FetchTicker sample_pairString gemini_down_once sample_gemini sample_pair
      ticker.Spot empty_world
    = ((ticker.zero, Some connection_refused), w1)
    /\ (readTicker "Gemini" sample_pair ticker.Spot w1).2 <> None
    /\ Gemini.FetchTicker sample_pairString gemini_down_once sample_gemini sample_pair
         ticker.Spot w1
       = ((gemini_price sample_pair gemini_quote, None), w2).
Proof.
  destruct (proj1 (failed_fetch_is_not_cached field_methods_laws
                     sample_pairString sample_FormatExchangeCurrency
                     gemini_down_once gemini_books bitstamp_quotes bitstamp_books
                     itbit_quotes itbit_books sample_ParseFloat
                     sample_gemini sample_pair ticker.Spot)
             empty_world _ _ _ _ eq_refl eq_refl)
    as (w1 & Hfetch & Hmiss & Hnext).
  apply returning_inv in Hfetch.
  exists w1. eexists. split; [exact Hfetch|].
  split; [change "Gemini"%string with (exchange.Base.Name sample_gemini);
          rewrite Hmiss; discriminate|].
  injection Hfetch as <-. reflexivity.
Defined.

(** X10: ItBit's order-book update panics on every answer in which some
    level, a bid or an ask, lacks a price or an amount field; neither
    store is written, so the levels parsed before it are lost, and a
    fetch that misses panics in the same way.  An answered update thus
    returns exactly when every level of the answer is complete. *)
Theorem itbit_incomplete_level_panics
    {tickerStore : ticker.Store} {orderbookStore : orderbook.Store}
    {methods : exchange.Methods}
    (FormatExchangeCurrency : string -> pair.CurrencyPair -> string)
    (GetOrderbook : Venue ItBit.OrderbookResponse.t)
    (ParseFloat : string -> result float64)
    (i : exchange.Base.t) (p : pair.CurrencyPair) (assetType : string) (w : World)
    (resp : ItBit.OrderbookResponse.t) :
  GetOrderbook (length (Sent w)) (FormatExchangeCurrency (exchange.Base.Name i) p)
  = (resp, None) ->
  ~ well_shaped resp ->
  exists (msg : string) (w' : World),
    ItBit.UpdateOrderbook FormatExchangeCurrency GetOrderbook ParseFloat i p assetType w
    = (Panics msg, w')
    /\ Tickers w' = Tickers w
    /\ Orderbooks w' = Orderbooks w
    /\ (forall (s : orderbook.Base) (e : error),
          orderbook.GetOrderbook (Orderbooks w) (exchange.GetName i) p assetType
          = (s, Some e) ->
          ItBit.FetchOrderbook FormatExchangeCurrency GetOrderbook ParseFloat i p
            assetType w
          = (Panics msg, w')).
Proof.
  intros Hans Hshape.
  pose proof (ItBit_UpdateOrderbook_frame ParseFloat FormatExchangeCurrency GetOrderbook
                i p assetType w) as (HT & _ & HO).
  assert (exists msg w',
            ItBit.UpdateOrderbook FormatExchangeCurrency GetOrderbook ParseFloat i p
              assetType w = (Panics msg, w')) as (msg & w' & Hupd).
  { unfold ItBit.UpdateOrderbook, rest. rewrite Hans.
    match goal with |- context [ItBit.appendBids _ ?ob ?levels ?w0] =>
      destruct (ItBit_appendBids_cases ParseFloat levels ob w0)
        as [[Hbids (ob1 & w1 & ->)]|[_ (msg & w1 & ->)]]
    end; [|now eexists _, _].
    match goal with |- context [ItBit.appendAsks _ ?ob ?levels ?w0] =>
      destruct (ItBit_appendAsks_cases ParseFloat levels ob w0)
        as [[Hasks _]|[_ (msg & w2 & ->)]]
    end; [|now eexists _, _].
    exfalso. apply Hshape. now split. }
  exists msg, w'. rewrite Hupd in HT, HO. simpl in HT, HO.
  split; [exact Hupd|]. split; [exact HT|]. split; [now apply (HO msg)|].
  intros s e Hread. unfold ItBit.FetchOrderbook. rewrite Hread. exact Hupd.
Qed.

(** The bid is complete and the ask lacks its amount: the update panics
    after parsing the bid, and the store is still empty. *)
Lemma itbit_incomplete_level_panics_witness :
  exists (msg : string) (w' : World),
    ItBit.UpdateOrderbook sample_FormatExchangeCurrency itbit_short_books sample_ParseFloat
      sample_itbit sample_pair ticker.Spot empty_world
    = (Panics msg, w')
    /\ Orderbooks w' = Orderbooks empty_world.
Proof.
  assert (~ well_shaped itbit_short_levels) as Hshape.
  { intros [_ Hasks]. apply Forall_inv in Hasks.
    unfold has_both_fields in Hasks. simpl in Hasks. lia. }
  destruct (itbit_incomplete_level_panics sample_FormatExchangeCurrency itbit_short_books
              sample_ParseFloat sample_itbit sample_pair ticker.Spot empty_world
              itbit_short_levels eq_refl Hshape)
    as (msg & w' & Hupd & _ & Hbooks & _).
  now exists msg, w'.
Defined.

(** ** Account information *)

Section AccountFacts.

Lemma Gemini_currencies_appended (balances : list Gemini.Balance.t)
    (response : exchange.AccountInfo.t) :
  foldl (fun response b =>
           {| exchange.AccountInfo.ExchangeName :=
                exchange.AccountInfo.ExchangeName response;
              exchange.AccountInfo.Currencies :=
                exchange.AccountInfo.Currencies response ++
                [ {| exchange.AccountCurrencyInfo.CurrencyName := Gemini.Balance.Currency b;
                     exchange.AccountCurrencyInfo.TotalValue := Gemini.Balance.Amount b;
                     exchange.AccountCurrencyInfo.Hold := Gemini.Balance.Available b |} ] |})
        response balances
  = {| exchange.AccountInfo.ExchangeName := exchange.AccountInfo.ExchangeName response;
       exchange.AccountInfo.Currencies :=
         exchange.AccountInfo.Currencies response ++ map gemini_currency balances |}.
Proof.
  revert response. induction balances as [|b balances IH]; intros response; simpl.
  - rewrite app_nil_r. now destruct response.
  - rewrite IH. simpl. now rewrite <- app_assoc.
Qed.

End AccountFacts.

(** X11: Gemini's GetExchangeAccountInfo sends one balances request,
    writes no store and prints nothing.  The error it returns is the
    venue's.  When the request fails, the account information carries the
    exchange name and no currency; when it is answered, it lists one entry
    per balance in the venue's order, with the balance's amount as total
    value and its available part as hold. *)
Theorem gemini_account_info_lists_every_balance
    {tickerStore : ticker.Store} {orderbookStore : orderbook.Store}
    {methods : exchange.Methods}
    (GetBalances : Venue (list Gemini.Balance.t)) (g : exchange.Base.t) (w : World) :
  let answer := GetBalances (length (Sent w)) "" in
  let r := Gemini.GetExchangeAccountInfo GetBalances g w in
  exchange.AccountInfo.ExchangeName r.1.1 = exchange.GetName g
  /\ r.1.2 = answer.2
  /\ exchange.AccountInfo.Currencies r.1.1
     = match answer.2 with
       | Some _ => []
       | None => map gemini_currency answer.1
       end
  /\ only_asked w r.2
  /\ Logged r.2 = Logged w.
Proof.
  simpl. unfold Gemini.GetExchangeAccountInfo, rest, only_asked.
  destruct (GetBalances _ _) as [balances [e|]]; simpl.
  - rewrite length_app. simpl. repeat split; lia.
  - rewrite Gemini_currencies_appended, length_app. simpl. repeat split; lia.
Qed.

(** X12: Bitstamp's GetExchangeAccountInfo sends one balance request,
    writes no store and prints nothing; the error it returns is the
    venue's.  When the request fails there is no currency in the account
    information; when it is answered there are exactly four, BTC, XRP, USD
    and EUR in this order, each with the available balance as total value
    and the reserved balance as hold. *)
Theorem bitstamp_account_info_lists_four_currencies
    {tickerStore : ticker.Store} {orderbookStore : orderbook.Store}
    {methods : exchange.Methods}
    (GetBalance : Venue Bitstamp.Balance.t) (b : exchange.Base.t) (w : World) :
  let answer := GetBalance (length (Sent w)) "" in
  let r := Bitstamp.GetExchangeAccountInfo GetBalance b w in
  let currencies := exchange.AccountInfo.Currencies r.1.1 in
  exchange.AccountInfo.ExchangeName r.1.1 = exchange.GetName b
  /\ r.1.2 = answer.2
  /\ match answer.2 with
     | Some _ => currencies = []
     | None =>
       map exchange.AccountCurrencyInfo.CurrencyName currencies
       = ["BTC"; "XRP"; "USD"; "EUR"]%string
       /\ map exchange.AccountCurrencyInfo.TotalValue currencies
          = [ Bitstamp.Balance.BTCAvailable answer.1; Bitstamp.Balance.XRPAvailable answer.1;
              Bitstamp.Balance.USDAvailable answer.1; Bitstamp.Balance.EURAvailable answer.1 ]
       /\ map exchange.AccountCurrencyInfo.Hold currencies
          = [ Bitstamp.Balance.BTCReserved answer.1; Bitstamp.Balance.XRPReserved answer.1;
              Bitstamp.Balance.USDReserved answer.1; Bitstamp.Balance.EURReserved answer.1 ]
     end
  /\ only_asked w r.2
  /\ Logged r.2 = Logged w.
Proof.
  simpl. unfold Bitstamp.GetExchangeAccountInfo, rest, only_asked.
  destruct (GetBalance _ _) as [balance [e|]]; simpl;
    rewrite length_app; simpl; repeat split; lia.
Qed.

(** ** Run *)

Section RunFacts.
Variable Split : string -> string -> list string.

(** The loop of Bitstamp's Run when every trading pair's name has two
    parts: the joined names of the trading pairs, in order. *)
Lemma Bitstamp_tradingCurrencies_ok (pairs : list Bitstamp.TradingPair.t)
    (currencies : list string) :
  Forall (splits_in_two Split) (List.filter is_trading pairs) ->
  Bitstamp.tradingCurrencies Split pairs currencies
  = Returns (currencies ++ map (joined_name Split) (List.filter is_trading pairs)).
Proof.
  revert currencies. induction pairs as [|x pairs IH]; intros currencies Hall; simpl.
  - now rewrite app_nil_r.
  - simpl in Hall. unfold is_trading in Hall at 1. unfold is_trading at 1.
    destruct (String.eqb (Bitstamp.TradingPair.Trading x) "Enabled"); simpl.
    + apply Forall_cons in Hall as [Hx Hall]. unfold splits_in_two in Hx.
      unfold joined_name at 1.
      destruct (Split (Bitstamp.TradingPair.Name x) "/") as [|first [|second parts]];
        simpl in Hx; try lia. simpl.
      rewrite IH by exact Hall. now rewrite <- app_assoc.
    + now apply IH.
Qed.

(** The loop panics as soon as a trading pair's name has fewer than two
    parts. *)
Lemma Bitstamp_tradingCurrencies_panics (pairs : list Bitstamp.TradingPair.t)
    (currencies : list string) :
  ~ Forall (splits_in_two Split) (List.filter is_trading pairs) ->
  exists msg : string, Bitstamp.tradingCurrencies Split pairs currencies = Panics msg.
Proof.
  revert currencies. induction pairs as [|x pairs IH]; intros currencies Hnot; simpl.
  - exfalso. apply Hnot. constructor.
  - simpl in Hnot. unfold is_trading in Hnot at 1.
    destruct (String.eqb (Bitstamp.TradingPair.Trading x) "Enabled"); simpl.
    + destruct (decide (2 <= length (Split (Bitstamp.TradingPair.Name x) "/"))%nat)
        as [Hx|Hx].
      * destruct (Split (Bitstamp.TradingPair.Name x) "/") as [|first [|second parts]] eqn:Hs;
          simpl in Hx; try lia. simpl.
        apply IH. intros Hall. apply Hnot. constructor; [|exact Hall].
        unfold splits_in_two. rewrite Hs. simpl. lia.
      * destruct (Split (Bitstamp.TradingPair.Name x) "/") as [|first [|second parts]];
          simpl in Hx; try lia; simpl; now eexists.
    + now apply IH.
Qed.

End RunFacts.

(** X13: when the venue answers Bitstamp's trading-pairs request and the
    name of every trading pair splits at the slash into at least two
    parts, Run replaces the available pairs, without forcing, by the
    names of the pairs whose trading status is "Enabled", in the venue's
    order, each with its first two parts joined; a pair that is not
    trading is left out whatever its name. *)
Theorem bitstamp_run_lists_trading_pairs
    {tickerStore : ticker.Store} {orderbookStore : orderbook.Store}
    {methods : exchange.Methods}
    (GetTradingPairs : Venue (list Bitstamp.TradingPair.t))
    (Split : string -> string -> list string)
    (UpdateCurrencies :
       list string -> bool -> bool -> exchange.Base.t -> exchange.Base.t * option error)
    (websocketLine : string -> option exchange.Websocket.t -> string)
    (currenciesEnabledLine : string -> nat -> list string -> string)
    (b : exchange.Base.t) (w : World) (pairs : list Bitstamp.TradingPair.t) :
  GetTradingPairs (length (Sent w)) "" = (pairs, None) ->
  Forall (splits_in_two Split) (List.filter is_trading pairs) ->
  (Bitstamp.Run GetTradingPairs Split UpdateCurrencies websocketLine currenciesEnabledLine
     b w).1
  = Returns (UpdateCurrencies (map (joined_name Split) (List.filter is_trading pairs))
               false false b).1.
Proof.
  intros Hans Hall. unfold Bitstamp.Run, rest.
  destruct (exchange.Base.Verbose b); simpl; rewrite Hans;
    rewrite (Bitstamp_tradingCurrencies_ok Split pairs [] Hall); simpl;
    destruct (UpdateCurrencies _ false false b) as [b' [e|]]; reflexivity.
Qed.

(** Three pairs, the second not trading and without a slash. *)
Lemma bitstamp_run_lists_trading_pairs_witness :
  (Bitstamp.Run (fun _ _ => (bitstamp_pairs, None)) sample_Split sample_UpdateCurrencies
     sample_websocketLine sample_currenciesEnabledLine sample_bitstamp empty_world).1
  = Returns (sample_UpdateCurrencies ["BTCUSD"; "ETHEUR"] false false sample_bitstamp).1.
Proof.
  assert (Forall (splits_in_two sample_Split) (List.filter is_trading bitstamp_pairs))
    as Hall.
  { repeat constructor; unfold splits_in_two; simpl; lia. }
  exact (bitstamp_run_lists_trading_pairs (fun _ _ => (bitstamp_pairs, None)) sample_Split
           sample_UpdateCurrencies sample_websocketLine sample_currenciesEnabledLine
           sample_bitstamp empty_world bitstamp_pairs eq_refl Hall).
Defined.

(** X14: the two ways Bitstamp's Run does not reach UpdateCurrencies.
    When the trading-pairs request fails, the error is printed and the
    base is returned as it was.  When it is answered and the name of some
    trading pair has no slash, indexing its second part panics, and the
    pairs of the base are not replaced. *)
Theorem bitstamp_run_stops_before_update
    {tickerStore : ticker.Store} {orderbookStore : orderbook.Store}
    {methods : exchange.Methods}
    (GetTradingPairs : Venue (list Bitstamp.TradingPair.t))
    (Split : string -> string -> list string)
    (UpdateCurrencies :
       list string -> bool -> bool -> exchange.Base.t -> exchange.Base.t * option error)
    (websocketLine : string -> option exchange.Websocket.t -> string)
    (currenciesEnabledLine : string -> nat -> list string -> string)
    (b : exchange.Base.t) (w : World) (pairs : list Bitstamp.TradingPair.t) :
  let r := Bitstamp.Run GetTradingPairs Split UpdateCurrencies websocketLine
             currenciesEnabledLine b w in
  (forall e : error,
     GetTradingPairs (length (Sent w)) "" = (pairs, Some e) ->
     r.1 = Returns b
     /\ exists printed : list error,
          Logged r.2
          = Logged w ++ printed
            ++ [errors.New (exchange.Base.Name b +:+ " failed to get trading pairs. Err: "
                            +:+ errors.Error e)])
  /\ (GetTradingPairs (length (Sent w)) "" = (pairs, None) ->
      ~ Forall (splits_in_two Split) (List.filter is_trading pairs) ->
      exists msg : string, r.1 = Panics msg).
Proof.
  simpl. unfold Bitstamp.Run, rest. split.
  - intros e Hans.
    destruct (exchange.Base.Verbose b); simpl; rewrite Hans; simpl;
      (split; [reflexivity|]).
    + eexists [_; _]. now rewrite <- !app_assoc.
    + now exists [].
  - intros Hans Hnot.
    destruct (Bitstamp_tradingCurrencies_panics Split pairs [] Hnot) as (msg & Hpanic).
    exists msg.
    destruct (exchange.Base.Verbose b); simpl; rewrite Hans; simpl; now rewrite Hpanic.
Qed.

(** The second pair is trading and its name has no slash. *)
Lemma bitstamp_run_stops_before_update_witness :
  exists msg : string,
    (Bitstamp.Run (fun _ _ => (bitstamp_unsplit_pairs, None)) sample_Split
       sample_UpdateCurrencies sample_websocketLine sample_currenciesEnabledLine
       sample_bitstamp empty_world).1
    = Panics msg.
Proof.
  apply (proj2 (bitstamp_run_stops_before_update
                  (fun _ _ => (bitstamp_unsplit_pairs, None)) sample_Split
                  sample_UpdateCurrencies sample_websocketLine sample_currenciesEnabledLine
                  sample_bitstamp empty_world bitstamp_unsplit_pairs) eq_refl).
  intros Hall. simpl in Hall. apply Forall_cons in Hall as [_ Hall].
  apply Forall_inv in Hall. unfold splits_in_two in Hall. simpl in Hall. lia.
Defined.

(** X15: no Run touches the market-data stores.  Gemini's and Bitstamp's
    send exactly one request, for the symbols or the trading pairs, also
    when it fails or when Bitstamp's panics; ItBit's and BTCC's send
    none, and ItBit's does nothing at all unless the base is verbose. *)
Theorem run_writes_no_store
    {tickerStore : ticker.Store} {orderbookStore : orderbook.Store}
    {methods : exchange.Methods}
    (GetSymbols : Venue (list string))
    (GetTradingPairs : Venue (list Bitstamp.TradingPair.t))
    (Split : string -> string -> list string)
    (UpdateCurrencies :
       list string -> bool -> bool -> exchange.Base.t -> exchange.Base.t * option error)
    (websocketLine : string -> option exchange.Websocket.t -> string)
    (currenciesEnabledLine : string -> nat -> list string -> string)
    (StringDataContains : list string -> string -> bool)
    (Config : Type)
    (GetExchangeConfig : Config -> string -> config.ExchangeConfig * option error)
    (UpdateExchangeConfig : Config -> config.ExchangeConfig -> Config * option error)
    (setCurrencies :
       string -> string -> string -> config.ExchangeConfig -> config.ExchangeConfig)
    (x : exchange.Base.t) (cfg : Config) (w : World) :
  only_asked w (Gemini.Run GetSymbols UpdateCurrencies currenciesEnabledLine x w).2
  /\ only_asked w
       (Bitstamp.Run GetTradingPairs Split UpdateCurrencies websocketLine
          currenciesEnabledLine x w).2
  /\ only_printed w (ItBit.Run currenciesEnabledLine x w)
  /\ only_printed w
       (BTCC.Run StringDataContains Config GetExchangeConfig UpdateExchangeConfig
          setCurrencies UpdateCurrencies websocketLine currenciesEnabledLine x cfg w).2
  /\ (exchange.Base.Verbose x = false -> ItBit.Run currenciesEnabledLine x w = w).
Proof.
  unfold only_asked, only_printed.
  split; [|split; [|split; [|split]]].
  - unfold Gemini.Run, rest.
    destruct (exchange.Base.Verbose x); simpl;
      destruct (GetSymbols _ _) as [products [e|]]; simpl;
      try destruct (UpdateCurrencies products false false x) as [x' [e'|]]; simpl;
      rewrite length_app; simpl; repeat split; lia.
  - unfold Bitstamp.Run, rest.
    destruct (exchange.Base.Verbose x); simpl;
      destruct (GetTradingPairs _ _) as [pairs [e|]]; simpl;
      try (destruct (Bitstamp.tradingCurrencies Split pairs []) as [currencies|err|msg];
           simpl;
           try destruct (UpdateCurrencies currencies false false x) as [x' [e'|]]; simpl);
      rewrite length_app; simpl; repeat split; lia.
  - unfold ItBit.Run. destruct (exchange.Base.Verbose x); simpl; repeat split.
  - unfold BTCC.Run.
    destruct (exchange.Base.Verbose x); simpl;
      (destruct (StringDataContains (exchange.Base.EnabledPairs x) "CNY"
                 || StringDataContains (exchange.Base.AvailablePairs x) "CNY"
                 || StringDataContains (exchange.Base.BaseCurrencies x) "CNY");
       simpl; [|repeat split]);
      (destruct (GetExchangeConfig cfg (exchange.Base.Name x)) as [exchCfg [e|]];
       simpl; [repeat split|]);
      destruct (UpdateCurrencies ["BTCUSD"%string] false true _) as [x1 [e1|]];
      destruct (UpdateCurrencies ["BTCUSD"%string] true true x1) as [x2 [e2|]];
      destruct (UpdateExchangeConfig cfg _) as [cfg' [e3|]]; simpl; repeat split.
  - intros Hquiet. unfold ItBit.Run. now rewrite Hquiet.
Qed.

(** X16: Gemini's Run never fails: a failure is printed and swallowed.
    The base it leaves is the one it was given when the symbols request
    fails, and otherwise the one UpdateCurrencies returns for the venue's
    symbols as available pairs, without forcing; it prints one line when
    verbose and one more exactly when either step failed. *)
Theorem gemini_run_swallows_failures
    {tickerStore : ticker.Store} {orderbookStore : orderbook.Store}
    {methods : exchange.Methods}
    (GetSymbols : Venue (list string))
    (UpdateCurrencies :
       list string -> bool -> bool -> exchange.Base.t -> exchange.Base.t * option error)
    (currenciesEnabledLine : string -> nat -> list string -> string)
    (g : exchange.Base.t) (w : World) :
  let answer := GetSymbols (length (Sent w)) "" in
  let update := UpdateCurrencies answer.1 false false g in
  let r := Gemini.Run GetSymbols UpdateCurrencies currenciesEnabledLine g w in
  r.1 = match answer.2 with Some _ => g | None => update.1 end
  /\ length (Logged r.2)
     = (length (Logged w)
        + (if exchange.Base.Verbose g then 1 else 0)
        + match answer.2, update.2 with
          | None, None => 0
          | _, _ => 1
          end)%nat.
Proof.
  simpl. unfold Gemini.Run, rest.
  destruct (exchange.Base.Verbose g); simpl;
    destruct (GetSymbols _ _) as [products [e|]]; simpl;
    try destruct (UpdateCurrencies products false false g) as [g' [e'|]]; simpl;
    rewrite ?length_app; simpl; split; try reflexivity; lia.
Qed.

(** X17: BTCC's Run changes the base and the configuration only to
    retire CNY.  When none of the enabled pairs, available pairs and base
    currencies mentions CNY, both are left as they were, and so they are
    when the configuration holds no entry for the exchange.  Otherwise
    the base currencies become USD, UpdateCurrencies is called for the
    available and then for the enabled pairs with BTCUSD, forced, and
    the entry with the three currency fields set to USD, BTCUSD, BTCUSD
    is written to the configuration, also when either UpdateCurrencies
    call failed. *)
Theorem btcc_run_retires_CNY
    {tickerStore : ticker.Store} {orderbookStore : orderbook.Store}
    {methods : exchange.Methods}
    (StringDataContains : list string -> string -> bool)
    (Config : Type)
    (GetExchangeConfig : Config -> string -> config.ExchangeConfig * option error)
    (UpdateExchangeConfig : Config -> config.ExchangeConfig -> Config * option error)
    (setCurrencies :
       string -> string -> string -> config.ExchangeConfig -> config.ExchangeConfig)
    (UpdateCurrencies :
       list string -> bool -> bool -> exchange.Base.t -> exchange.Base.t * option error)
    (websocketLine : string -> option exchange.Websocket.t -> string)
    (currenciesEnabledLine : string -> nat -> list string -> string)
    (b : exchange.Base.t) (cfg : Config) (w : World) :
  let r := BTCC.Run StringDataContains Config GetExchangeConfig UpdateExchangeConfig
             setCurrencies UpdateCurrencies websocketLine currenciesEnabledLine b cfg w in
  let lookup := GetExchangeConfig cfg (exchange.Base.Name b) in
  (mentions_CNY StringDataContains b = false -> r.1 = (b, cfg))
  /\ (mentions_CNY StringDataContains b = true -> lookup.2 <> None -> r.1 = (b, cfg))
  /\ (mentions_CNY StringDataContains b = true -> lookup.2 = None ->
      r.1.1
      = (UpdateCurrencies ["BTCUSD"%string] true true
           (UpdateCurrencies ["BTCUSD"%string] false true
              (exchange.Base.set_BaseCurrencies ["USD"%string] b)).1).1
      /\ r.1.2
         = (UpdateExchangeConfig cfg (setCurrencies "USD" "BTCUSD" "BTCUSD" lookup.1)).1).
Proof.
  simpl. unfold BTCC.Run, mentions_CNY.
  destruct (StringDataContains (exchange.Base.EnabledPairs b) "CNY"
            || StringDataContains (exchange.Base.AvailablePairs b) "CNY"
            || StringDataContains (exchange.Base.BaseCurrencies b) "CNY");
    (split; [|split]); try discriminate;
    destruct (exchange.Base.Verbose b); simpl; try reflexivity;
    destruct (GetExchangeConfig cfg (exchange.Base.Name b)) as [exchCfg [e|]]; simpl;
    try reflexivity; try congruence; intros _ _;
    destruct (UpdateCurrencies ["BTCUSD"%string] false true _) as [b1 [e1|]]; simpl;
    destruct (UpdateCurrencies ["BTCUSD"%string] true true b1) as [b2 [e2|]]; simpl;
    destruct (UpdateExchangeConfig cfg _) as [cfg' [e3|]]; simpl; split; reflexivity.
Qed.

(** A base that lists BTCCNY, and a configuration without BTCC: the run
    prints its warning and changes nothing. *)
Lemma btcc_run_retires_CNY_witness :
  mentions_CNY sample_StringDataContains btcc_with_CNY = true
  /\ (BTCC.Run sample_StringDataContains unit no_exchange_config keep_config
        keep_currencies sample_UpdateCurrencies sample_websocketLine
        sample_currenciesEnabledLine btcc_with_CNY tt empty_world).1
     = (btcc_with_CNY, tt).
Proof.
  split; [reflexivity|].
  apply (proj1 (proj2 (btcc_run_retires_CNY sample_StringDataContains unit
                         no_exchange_config keep_config keep_currencies
                         sample_UpdateCurrencies sample_websocketLine
                         sample_currenciesEnabledLine btcc_with_CNY tt empty_world)));
    [reflexivity|discriminate].
Defined.
